(** * FinReport_WebApp: the stock-analyzer service layer

    A shallow embedding of [stock_analyzer/services.py] (request cache,
    provider fallback, technical indicators, scoring, economic dashboard)
    and of the [EconomicIndicator] table of [stock_analyzer/models.py],
    with the properties proved about them.

    Conventions.
    - A Python value is a [pyval]; a [dict] is a [gmap string pyval]
      (iteration order only drives the order of log lines, which are not
      modelled).
    - A Python [float] is a binary64 [spec_float] of the Standard Library,
      with its NaN, infinities and signed zeros.
    - Effects are explicit: a computation is a function of the [World]
      (request cache, clock, database table, everything outside the
      process) that returns or raises, the world it leaves, and the list
      of [event]s it caused.  [print] calls are left out. *)

From Stdlib Require Import ZArith QArith String List Bool Lia.
From Stdlib Require Import Floats.SpecFloat.
From stdpp Require Import base option list strings gmap fin_maps sorting.

Set Warnings "-register-all".
Open Scope string_scope.
Open Scope Z_scope.
Open Scope list_scope.

(** ** Python values *)

Inductive pyval : Type :=
| PNone
| PInt (z : Z)
| PFloat (f : spec_float)
| PStr (s : string)
| PList (l : list pyval)
| PDict (d : gmap string pyval)
| PObj (attrs : gmap string pyval).

(** [bool(f)] for a float: only the two zeros are false; NaN is true. *)
Definition float_truthy (f : spec_float) : bool :=
  match f with
  | S754_zero _ => false
  | _ => true
  end.

Definition str_truthy (s : string) : bool :=
  match s with
  | EmptyString => false
  | String _ _ => true
  end.

(** [bool(v)]: what [if v:] and [not v] look at. *)
Definition truthy (v : pyval) : bool :=
  match v with
  | PNone => false
  | PInt z => negb (z =? 0)
  | PFloat f => float_truthy f
  | PStr s => str_truthy s
  | PList l => match l with [] => false | _ :: _ => true end
  | PDict d => negb (bool_decide (d = ∅))
  | PObj _ => true
  end.

(** [v is None] *)
Definition is_none (v : pyval) : bool :=
  match v with
  | PNone => true
  | _ => false
  end.

(** [d.get(key)] on a dict: the value, or [None] for an absent key. *)
Definition dict_get (d : gmap string pyval) (key : string) : pyval :=
  default PNone (d !! key).

(** ** The table of [EconomicIndicator] rows (models.py) *)

Record EconomicIndicator : Type := mkEconomicIndicator {
  pk : Z;
  indicator_type : string;
  date : Z;                 (* a [datetime.date] as its proleptic ordinal *)
  value : spec_float;
  created_at : Z;
  updated_at : Z
}.

(** ** Worlds, events and computations *)

Inductive event : Type :=
| Invoke (fname args : string)        (* [request_cached] runs the decorated body *)
| Contact (provider endpoint : string) (* a provider client is called *).

Record World {Ext : Type} : Type := mkWorld {
  request_cache : gmap string (Z * pyval);   (* [_request_cache] *)
  clock : Z;                                 (* microseconds; what [datetime.now()] reads *)
  economic_indicators : list EconomicIndicator;
  outside : Ext                              (* the network and the providers behind it *)
}.
Arguments World : clear implicits.
Arguments mkWorld {Ext} _ _ _ _.

Inductive outcome (A : Type) : Type :=
| Returned (a : A)
| Raised (exn : string).
Arguments Returned {A} a.
Arguments Raised {A} exn.

Definition M (Ext : Type) (A : Type) : Type :=
  World Ext → outcome A * World Ext * list event.

Section Computations.
Context {Ext : Type}.

Definition ret {A} (a : A) : M Ext A := λ w, (Returned a, w, []).

Definition bind {A B} (m : M Ext A) (k : A → M Ext B) : M Ext B :=
  λ w, match m w with
       | (Returned a, w1, tr1) =>
           let '(r, w2, tr2) := k a w1 in (r, w2, tr1 ++ tr2)
       | (Raised e, w1, tr1) => (Raised e, w1, tr1)
       end.

Definition raise {A} (exn : string) : M Ext A := λ w, (Raised exn, w, []).

(** [try: body / except Exception as e: handler e].  What the body did to
    the world before raising stays done. *)
Definition try_except {A} (body : M Ext A) (handler : string → M Ext A) : M Ext A :=
  λ w, match body w with
       | (Returned a, w1, tr1) => (Returned a, w1, tr1)
       | (Raised e, w1, tr1) =>
           let '(r, w2, tr2) := handler e w1 in (r, w2, tr1 ++ tr2)
       end.

Definition emit (ev : event) : M Ext unit := λ w, (Returned tt, w, [ev]).

Definition lift_outcome {A} (o : outcome A) : M Ext A := λ w, (o, w, []).

(** [datetime.now()] *)
Definition datetime_now : M Ext Z := λ w, (Returned (clock w), w, []).

(** The world [seconds] later. *)
Definition later (seconds : Z) (w : World Ext) : World Ext :=
  mkWorld (request_cache w) (clock w + seconds * 1000000)
          (economic_indicators w) (outside w).

(** [time.sleep(seconds)]: the clock moves on by that much. *)
Definition time_sleep (seconds : Z) : M Ext unit :=
  λ w, (Returned tt, later seconds w, []).

(** A call out of the process: it sees and changes what is outside and
    takes time; it cannot touch the cache or the database. *)
Definition Remote (A : Type) : Type := Ext → Z → outcome A * Ext * Z.

Definition call_provider {A} (provider endpoint : string) (remote : Remote A) : M Ext A :=
  λ w, let '(r, ext', t') := remote (outside w) (clock w) in
       (r, mkWorld (request_cache w) t' (economic_indicators w) ext',
        [Contact provider endpoint]).

(** [for x in xs: body x] *)
Fixpoint for_each {A} (xs : list A) (body : A → M Ext unit) : M Ext unit :=
  match xs with
  | [] => ret tt
  | x :: xs' => bind (body x) (λ _, for_each xs' body)
  end.

(** A loop that carries the variables it assigns in [acc]. *)
Fixpoint fold_each {A S} (xs : list A) (body : S → A → M Ext S) (acc : S) : M Ext S :=
  match xs with
  | [] => ret acc
  | x :: xs' => bind (body acc x) (λ acc', fold_each xs' body acc')
  end.

End Computations.
Arguments Remote : clear implicits.

Notation "x <- m ;; k" := (bind m (λ x, k))
  (at level 100, m at next level, right associativity, only parsing).
Notation "m ;;; k" := (bind m (λ _, k))
  (at level 100, right associativity, only parsing).

(** ** Attribute and item access, as far as the service layer uses it *)

(** [o.get(key)] *)
Definition py_get (o : pyval) (key : string) : outcome pyval :=
  match o with
  | PDict d => Returned (dict_get d key)
  | _ => Raised "AttributeError"
  end.

(** [o[key]] with a string key *)
Definition py_getitem (o : pyval) (key : string) : outcome pyval :=
  match o with
  | PDict d => match d !! key with
               | Some v => Returned v
               | None => Raised "KeyError"
               end
  | _ => Raised "TypeError"
  end.

(** [o.values()] *)
Definition py_values (o : pyval) : outcome (list pyval) :=
  match o with
  | PDict d => Returned ((map_to_list d).*2)
  | _ => Raised "AttributeError"
  end.

(** [o.items()] *)
Definition py_items (o : pyval) : outcome (list (string * pyval)) :=
  match o with
  | PDict d => Returned (map_to_list d)
  | _ => Raised "AttributeError"
  end.

(** [getattr(o, name, dflt)] and [hasattr(o, name)] on a client object. *)
Definition py_getattr (o : pyval) (name : string) (dflt : pyval) : pyval :=
  match o with
  | PObj attrs => default dflt (attrs !! name)
  | _ => dflt
  end.

Definition py_hasattr (o : pyval) (name : string) : bool :=
  match o with
  | PObj attrs => bool_decide (is_Some (attrs !! name))
  | _ => false
  end.

(** ** The request cache: [request_cached] and [rate_limit] *)

Section RequestCache.
Context {Ext : Type}.

(** [f"{func.__name__}:{str(args)}:{str(kwargs)}"]; [shown] is the text
    [str(args) + ":" + str(kwargs)] of the call. *)
Definition cache_key (fname shown : string) : string :=
  fname +:+ ":" +:+ shown.

(** [_request_cache[key] = (datetime.now(), result)] *)
Definition with_entry (key : string) (result : pyval) (w : World Ext) : World Ext :=
  mkWorld (<[key := (clock w, result)]> (request_cache w)) (clock w)
          (economic_indicators w) (outside w).

Definition cache_store (key : string) (result : pyval) : M Ext unit :=
  λ w, (Returned tt, with_entry key result w, []).

(** Whether [key] holds an entry younger than [ttl_seconds]:
    [(datetime.now() - cache_time).total_seconds() < ttl_seconds].
    [total_seconds()] is the age in microseconds divided by 10^6 and
    rounded to a double; against an integer TTL below 2^32 seconds the
    test is the one on microseconds. *)
Definition live_entry (key : string) (ttl_seconds : Z) (w : World Ext) : option pyval :=
  match request_cache w !! key with
  | Some (cache_time, result) =>
      if clock w - cache_time <? ttl_seconds * 1000000
      then Some result else None
  | None => None
  end.

(** The first locked block of [wrapper]. *)
Definition cache_lookup (key : string) (ttl_seconds : Z) : M Ext (option pyval) :=
  λ w, (Returned (live_entry key ttl_seconds w), w, []).

Definition request_cached {Args : Type} (ttl_seconds : Z) (fname : string)
    (show : Args → string) (func : Args → M Ext pyval) (args : Args) : M Ext pyval :=
  let key := cache_key fname (show args) in
  hit <- cache_lookup key ttl_seconds ;;
  match hit with
  | Some result => ret result
  | None =>
      emit (Invoke fname (show args)) ;;;
      result <- func args ;;
      cache_store key result ;;;
      ret result
  end.

Definition rate_limit {Args A : Type} (seconds : Z)
    (func : Args → M Ext A) (args : Args) : M Ext A :=
  time_sleep seconds ;;; func args.

End RequestCache.

(** ** Polygon company information: [get_company_info] *)

(** [str(args) + ":" + str(kwargs)] of a call [f(ticker)], for a ticker
    that [repr] writes as it is between single quotes: one of printable
    ASCII characters without the single quote and the backslash. *)
Definition show_ticker (ticker : string) : string :=
  "('" +:+ ticker +:+ "',):{}".

Section PolygonCompanyInfo.
Context {Ext : Type}.

(** [polygon_client.get_ticker_details], behind the network. *)
Variable polygon_get_ticker_details : string → Remote Ext pyval.

Definition branding_logo_url (branding : pyval) : pyval :=
  if truthy branding && py_hasattr branding "logo_url"
  then py_getattr branding "logo_url" PNone
  else match branding with
       | PDict d => if truthy branding then dict_get d "logo_url" else PNone
       | _ => PNone
       end.

Definition polygon_company_data (ticker : string) (ticker_details : pyval)
  : gmap string pyval :=
  list_to_map
    [ ("stock_symbol", PStr ticker);
      ("company_name", py_getattr ticker_details "name" (PStr ticker));
      ("sector", py_getattr ticker_details "sector" PNone);
      ("industry", py_getattr ticker_details "industry" PNone);
      ("description", py_getattr ticker_details "description" PNone);
      ("country", py_getattr ticker_details "locale" PNone);
      ("market_cap", py_getattr ticker_details "market_cap" PNone);
      ("website", py_getattr ticker_details "homepage_url" PNone);
      ("logo_url", branding_logo_url (py_getattr ticker_details "branding" PNone));
      ("employee_count", py_getattr ticker_details "total_employees" PNone) ].

(** The function under its decorators. *)
Definition get_company_info_body (ticker : string) : M Ext pyval :=
  try_except
    (ticker_details <- call_provider "polygon" "get_ticker_details"
                         (polygon_get_ticker_details ticker) ;;
     if negb (py_hasattr ticker_details "name") then ret PNone
     else
       let company_data := polygon_company_data ticker ticker_details in
       if negb (truthy (dict_get company_data "company_name")) then ret PNone
       else ret (PDict company_data))
    (λ _, ret PNone).

(** [@rate_limit(3) @request_cached(ttl_seconds=300) def get_company_info] *)
Definition get_company_info : string → M Ext pyval :=
  rate_limit 3 (request_cached 300 "get_company_info" show_ticker get_company_info_body).

End PolygonCompanyInfo.

(** ** The fallback orchestrators *)

Section Fallback.
Context {Ext : Type}.

(** The decorated provider functions the orchestrators call.  The SEC ones
    are long HTTP and JSON code; the orchestrators only see what a call
    returns or raises. *)
Variable get_company_info_sec : string → M Ext pyval.
Variable get_company_info_polygon : string → M Ext pyval.   (* [get_company_info] *)
Variable get_financial_ratios_sec : string → M Ext pyval.
Variable get_financial_ratios : string → M Ext pyval.

(** One turn of the merge loop:
    [if not company_info.get(key) and value is not None: company_info[key] = value].
    The assignment changes the dict that [get_company_info_sec] returned;
    what follows looks at that dict as the orchestrator returns it. *)
Definition merge_field (company_info : gmap string pyval) (item : string * pyval)
  : gmap string pyval :=
  if negb (truthy (dict_get company_info item.1)) && negb (is_none item.2)
  then <[item.1 := item.2]> company_info
  else company_info.

(** [for key, value in polygon_info.items(): ...] *)
Definition merge_polygon (company_info polygon_info : gmap string pyval)
  : gmap string pyval :=
  foldl merge_field company_info (map_to_list polygon_info).

(** The names collected in [missing_fields]. *)
Definition missing_fields (company_info : gmap string pyval) : list string :=
  (if truthy (dict_get company_info "sector") then [] else ["sector"]) ++
  (if truthy (dict_get company_info "industry") then [] else ["industry"]) ++
  (if truthy (dict_get company_info "description") then [] else ["description"]).

(** The [try] block that consults Polygon and merges into [company_info];
    its [except] keeps the SEC data. *)
Definition fill_from_polygon (ticker : string) (company_info : gmap string pyval)
  : M Ext (gmap string pyval) :=
  try_except
    (time_sleep 5 ;;;
     polygon_info <- get_company_info_polygon ticker ;;
     if truthy polygon_info then
       items <- lift_outcome (py_items polygon_info) ;;
       ret (foldl merge_field company_info items)
     else ret company_info)
    (λ _, ret company_info).

Definition get_company_info_with_fallback_body (ticker : string) : M Ext pyval :=
  try_except
    (company_info <- get_company_info_sec ticker ;;
     (* [company_info and company_info.get('company_name')] *)
     name <- (if truthy company_info
              then lift_outcome (py_get company_info "company_name")
              else ret company_info) ;;
     if truthy name then
       match company_info with
       | PDict d =>
           match missing_fields d with
           | [] => ret (PDict d)
           | _ :: _ => d' <- fill_from_polygon ticker d ;; ret (PDict d')
           end
       | _ => raise "AttributeError"
       end
     else
       try_except
         (time_sleep 5 ;;; get_company_info_polygon ticker)
         (λ _, ret PNone))
    (λ _, ret PNone).

(** [@request_cached(ttl_seconds=300) def get_company_info_with_fallback] *)
Definition get_company_info_with_fallback : string → M Ext pyval :=
  request_cached 300 "get_company_info_with_fallback" show_ticker
    get_company_info_with_fallback_body.

(** [any(value is not None for value in values)] *)
Definition any_not_none (values : list pyval) : bool :=
  existsb (λ v, negb (is_none v)) values.

(** [ratios and ratios['ratios'] and
     any(value is not None for value in ratios['ratios'].values())] *)
Definition has_meaningful_ratios (ratios : pyval) : outcome bool :=
  if truthy ratios then
    match py_getitem ratios "ratios" with
    | Returned inner =>
        if truthy inner then
          match py_values inner with
          | Returned values => Returned (any_not_none values)
          | Raised e => Raised e
          end
        else Returned false
    | Raised e => Raised e
    end
  else Returned false.

Definition get_financial_ratios_with_fallback_body (ticker : string) : M Ext pyval :=
  try_except
    (ratios <- get_financial_ratios_sec ticker ;;
     meaningful <- lift_outcome (has_meaningful_ratios ratios) ;;
     if (meaningful : bool) then ret ratios
     else
       try_except
         (time_sleep 12 ;;; get_financial_ratios ticker)
         (λ _, if truthy ratios then ret ratios else ret PNone))
    (λ _,
       try_except
         (time_sleep 15 ;;; get_financial_ratios ticker)
         (λ _, ret PNone)).

(** [@request_cached(ttl_seconds=300) def get_financial_ratios_with_fallback] *)
Definition get_financial_ratios_with_fallback : string → M Ext pyval :=
  request_cached 300 "get_financial_ratios_with_fallback" show_ticker
    get_financial_ratios_with_fallback_body.

End Fallback.

(** ** Binary64 arithmetic *)

Definition fadd : spec_float → spec_float → spec_float := SFadd 53 1024.
Definition fsub : spec_float → spec_float → spec_float := SFsub 53 1024.
Definition fmul : spec_float → spec_float → spec_float := SFmul 53 1024.
Definition fdiv : spec_float → spec_float → spec_float := SFdiv 53 1024.
Definition fneg : spec_float → spec_float := SFopp.
Definition flt : spec_float → spec_float → bool := SFltb.   (* [x < y] *)
Definition fle : spec_float → spec_float → bool := SFleb.   (* [x <= y] *)

(** [float(z)] for an integer that a double holds exactly. *)
Definition float_of_Z (z : Z) : spec_float := binary_normalize 53 1024 z 0 false.

(** A decimal literal [n/d], correctly rounded. *)
Definition float_lit (n d : Z) : spec_float := fdiv (float_of_Z n) (float_of_Z d).

Definition is_nan (f : spec_float) : bool :=
  match f with
  | S754_nan => true
  | _ => false
  end.

Definition is_zero (f : spec_float) : bool :=
  match f with
  | S754_zero _ => true
  | _ => false
  end.

(** ** The indicator calculator: the RSI and beta of [get_technical_indicators] *)

(** A float column of a DataFrame; a missing cell is NaN. *)
Abbreviation series := (list spec_float).

Fixpoint diff_from (prev : spec_float) (xs : series) : series :=
  match xs with
  | [] => []
  | x :: xs' => fsub x prev :: diff_from x xs'
  end.

(** [s.diff()]: the first cell has no predecessor and is missing. *)
Definition diff (xs : series) : series :=
  match xs with
  | [] => []
  | x :: xs' => S754_nan :: diff_from x xs'
  end.

(** [delta.where(delta > 0, 0)] and [delta.where(delta < 0, 0)]: a cell
    that fails the test, a missing one included, becomes 0. *)
Definition where_positive (delta : series) : series :=
  map (λ d, if flt (S754_zero false) d then d else S754_zero false) delta.

Definition where_negative (delta : series) : series :=
  map (λ d, if flt d (S754_zero false) then d else S754_zero false) delta.

Definition fsum (xs : series) : spec_float := foldl fadd (S754_zero false) xs.

Definition mean (xs : series) : spec_float :=
  fdiv (fsum xs) (float_of_Z (Z.of_nat (length xs))).

(** The rows [i - window + 1 .. i] of a column. *)
Definition window_at (window i : nat) (xs : series) : series :=
  take window (drop (S i - window) xs).

(** [s.rolling(window=window).mean()]: with the default [min_periods] a
    cell is missing until [window] observations, none of them missing, are
    in the window.  The mean of a full window is written here as the sum
    from left to right over the count; pandas keeps a running sum, whose
    rounding can differ in the last bit, so what is proved below rests on
    the missing-value rule and on zeros, infinities and NaN only. *)
Definition rolling_mean (window : nat) (xs : series) : series :=
  imap (λ i _,
          let win := window_at window i xs in
          if (S i <? window)%nat || existsb is_nan win
          then S754_nan
          else mean win) xs.

(** [gain], [loss], [rs] and [df['rsi_14']] of the source. *)
Definition gain (window : nat) (close : series) : series :=
  rolling_mean window (where_positive (diff close)).

Definition loss (window : nat) (close : series) : series :=
  map fneg (rolling_mean window (where_negative (diff close))).

(** [100 - (100 / (1 + rs))] with [rs = gain / loss], cell by cell. *)
Definition rsi_cell (g l : spec_float) : spec_float :=
  fsub (float_of_Z 100) (fdiv (float_of_Z 100) (fadd (float_of_Z 1) (fdiv g l))).

Definition rsi_14 (window : nat) (close : series) : series :=
  zip_with rsi_cell (gain window close) (loss window close).

(** [df.iloc[-1]]: the cell of the most recent row. *)
Definition latest (column : series) : option spec_float := last column.

(** One daily bar of [get_stock_price_data]. *)
Record bar : Type := mkBar {
  bar_date : Z;
  bar_open : spec_float;
  bar_high : spec_float;
  bar_low : spec_float;
  bar_close : spec_float;
  bar_volume : spec_float
}.

Fixpoint pct_change_from (prev : spec_float) (xs : series) : series :=
  match xs with
  | [] => []
  | x :: xs' => fsub (fdiv x prev) (float_of_Z 1) :: pct_change_from x xs'
  end.

(** [s.pct_change()] *)
Definition pct_change (xs : series) : series :=
  match xs with
  | [] => []
  | x :: xs' => S754_nan :: pct_change_from x xs'
  end.

(** [df[['date', 'return']]] of a frame built from bars. *)
Definition returns_by_date (bars : list bar) : list (Z * spec_float) :=
  zip (map bar_date bars) (pct_change (map bar_close bars)).

(** [pd.merge(left, right, on='date', suffixes=('_stock', '_market'))]:
    the inner join, one row [(date, return_stock, return_market)] for each
    pair of rows with the same date. *)
Definition merge_on_date (left right : list (Z * spec_float))
  : list (Z * spec_float * spec_float) :=
  flat_map (λ l, map (λ r, (l.1, l.2, r.2))
                     (filter (λ r, r.1 = l.1) right)) left.

(** [a.cov(b)] with [ddof = 1]: over the rows where both cells are
    present; missing when there is no such row.  The sums are taken from
    left to right; the library's rounding can differ in the last bit, and
    nothing proved below rests on the value of a covariance. *)
Definition cov (a b : series) : spec_float :=
  let rows := filter (λ p, negb (is_nan p.1) && negb (is_nan p.2) = true) (zip a b) in
  match rows with
  | [] => S754_nan
  | _ :: _ =>
      let ma := mean (rows.*1) in
      let mb := mean (rows.*2) in
      fdiv (fsum (map (λ p, fmul (fsub p.1 ma) (fsub p.2 mb)) rows))
           (float_of_Z (Z.of_nat (length rows) - 1))
  end.

(** [a.var()] with [ddof = 1]: over the present cells; missing with fewer
    than two of them. *)
Definition var (a : series) : spec_float :=
  let xs := filter (λ x, is_nan x = false) a in
  if (length xs <=? 1)%nat then S754_nan
  else
    let m := mean xs in
    fdiv (fsum (map (λ x, fmul (fsub x m) (fsub x m)) xs))
         (float_of_Z (Z.of_nat (length xs) - 1)).

(** [covariance / market_variance if market_variance else None] *)
Definition beta_of (covariance market_variance : spec_float) : pyval :=
  if float_truthy market_variance
  then PFloat (fdiv covariance market_variance)
  else PNone.

(** [spy_df['close']]: a frame built from no bar has no column. *)
Definition close_column (bars : list bar) : outcome series :=
  match bars with
  | [] => Raised "KeyError"
  | _ :: _ => Returned (map bar_close bars)
  end.

(** The [merged] frame of the beta block. *)
Definition merged_returns (price_data spy_data : list bar)
  : list (Z * spec_float * spec_float) :=
  merge_on_date (returns_by_date price_data) (returns_by_date spy_data).

Definition market_variance (price_data spy_data : list bar) : spec_float :=
  var ((merged_returns price_data spy_data).*2).

Definition covariance (price_data spy_data : list bar) : spec_float :=
  let merged := merged_returns price_data spy_data in
  cov (merged.*1.*2) (merged.*2).

(** The beta block, from the S&P 500 bars fetched for it: any exception
    in it gives [beta = None]. *)
Definition beta (price_data spy_data : list bar) : pyval :=
  match close_column spy_data with
  | Returned _ =>
      beta_of (covariance price_data spy_data) (market_variance price_data spy_data)
  | Raised _ => PNone
  end.

(** ** The scoring aggregator: the arithmetic of [calculate_investment_score] *)

(** [max(a, b)] and [min(a, b)] of Python: the first argument stays unless
    the second compares strictly beyond it (so a NaN second argument never
    wins). *)
Definition py_max (a b : spec_float) : spec_float := if flt a b then b else a.
Definition py_min (a b : spec_float) : spec_float := if flt b a then b else a.

(** [min(hi, max(0, x))] *)
Definition clamp (hi : Z) (x : spec_float) : spec_float :=
  py_min (float_of_Z hi) (py_max (float_of_Z 0) x).

(** What the function reads from the ratios and indicators it fetched;
    [None] is Python's [None]. *)
Record score_inputs : Type := mkScoreInputs {
  in_profit_margin : option spec_float;
  in_roe : option spec_float;
  in_debt_to_equity : option spec_float;
  in_rsi_14 : option spec_float;
  in_sma_20 : option spec_float;
  in_sma_50 : option spec_float;
  in_close : option spec_float
}.

Definition valuation_score (i : score_inputs) : spec_float :=
  match in_profit_margin i with
  | Some profit_margin =>
      clamp 100 (fmul (fmul profit_margin (float_of_Z 100)) (float_of_Z 5))
  | None => float_of_Z 0
  end.

Definition rsi_points (i : score_inputs) : Z :=
  match in_rsi_14 i with
  | Some rsi =>
      if flt rsi (float_of_Z 30) then 80
      else if flt (float_of_Z 70) rsi then 20
      else 50
  | None => 0
  end.

(** [if sma_20 and sma_50 and close:] and the two trend tests under it. *)
Definition trend_points (i : score_inputs) : Z :=
  match in_sma_20 i, in_sma_50 i, in_close i with
  | Some sma_20, Some sma_50, Some close =>
      if float_truthy sma_20 && float_truthy sma_50 && float_truthy close then
        if flt sma_20 close && flt sma_50 sma_20 then 20
        else if flt close sma_20 && flt sma_20 sma_50 then -20
        else 0
      else 0
  | _, _, _ => 0
  end.

Definition technical_score (i : score_inputs) : Z :=
  Z.min 100 (Z.max 0 (rsi_points i + trend_points i)).

Definition growth_score : Z := 50.
Definition sentiment_score : Z := 50.

Definition roe_points (i : score_inputs) : spec_float :=
  match in_roe i with
  | Some roe => fadd (float_of_Z 0) (clamp 50 (fmul roe (float_of_Z 100)))
  | None => float_of_Z 0
  end.

Definition debt_points (i : score_inputs) : Z :=
  match in_debt_to_equity i with
  | Some debt_to_equity =>
      if flt debt_to_equity (float_lit 1 2) then 50
      else if flt debt_to_equity (float_of_Z 1) then 30
      else if flt debt_to_equity (float_of_Z 2) then 15
      else 0
  | None => 0
  end.

Definition financial_health_score (i : score_inputs) : spec_float :=
  clamp 100 (fadd (roe_points i) (float_of_Z (debt_points i))).

(** The weighted sum, added left to right. *)
Definition overall_score (i : score_inputs) : spec_float :=
  fadd (fadd (fadd (fadd
    (fmul (valuation_score i) (float_lit 3 10))
    (fmul (float_of_Z growth_score) (float_lit 2 10)))
    (fmul (financial_health_score i) (float_lit 25 100)))
    (fmul (float_of_Z (technical_score i)) (float_lit 15 100)))
    (fmul (float_of_Z sentiment_score) (float_lit 1 10)).

(** The [# Determine recommendation] chain. [x >= 80] is [80 <= x]. *)
Definition recommendation (overall : spec_float) : string :=
  if fle (float_of_Z 80) overall then "strong_buy"
  else if fle (float_of_Z 60) overall then "buy"
  else if fle overall (float_of_Z 20) then "strong_sell"
  else if fle overall (float_of_Z 40) then "sell"
  else "hold".

(** The numeric fields of the dict [calculate_investment_score] returns
    (its texts are left out). *)
Record investment_score : Type := mkInvestmentScore {
  r_valuation_score : spec_float;
  r_growth_score : Z;
  r_financial_health_score : spec_float;
  r_technical_score : Z;
  r_sentiment_score : Z;
  r_overall_score : spec_float;
  r_recommendation : string
}.

Definition calculate_scores (i : score_inputs) : investment_score :=
  mkInvestmentScore (valuation_score i) growth_score (financial_health_score i)
    (technical_score i) sentiment_score (overall_score i)
    (recommendation (overall_score i)).

(** The rational a finite double stands for; infinities and NaN stand for
    none. *)
Definition float_value (f : spec_float) : option Q :=
  match f with
  | S754_zero _ => Some (inject_Z 0)
  | S754_finite s m e =>
      let n := if s then Z.neg m else Z.pos m in
      Some match e with
           | Z0 => inject_Z n
           | Z.pos p => inject_Z (n * Z.pos (2 ^ p))
           | Z.neg p => Qmake n (2 ^ p)
           end
  | _ => None
  end.

(** The thresholds as the specification words them, on a rational score:
    at least 80 strong_buy, at least 60 buy, at most 20 strong_sell, at
    most 40 sell, else hold. *)
Definition recommendation_of_value (score : Q) : string :=
  if Qle_bool (inject_Z 80) score then "strong_buy"
  else if Qle_bool (inject_Z 60) score then "buy"
  else if Qle_bool score (inject_Z 20) then "strong_sell"
  else if Qle_bool score (inject_Z 40) then "sell"
  else "hold".

(** ** Dates *)

(** Year, month and day of a proleptic Gregorian ordinal
    ([date.fromordinal]; day 1 is 0001-01-01, day 719163 is 1970-01-01). *)
Definition civil_from_ordinal (ordinal : Z) : Z * Z * Z :=
  let z := ordinal - 719163 + 719468 in
  let era := z / 146097 in
  let doe := z - era * 146097 in
  let yoe := (doe - doe / 1460 + doe / 36524 - doe / 146096) / 365 in
  let doy := doe - (365 * yoe + yoe / 4 - yoe / 100) in
  let mp := (5 * doy + 2) / 153 in
  let day := doy - (153 * mp + 2) / 5 + 1 in
  let month := if mp <? 10 then mp + 3 else mp - 9 in
  let year := yoe + era * 400 + (if month <=? 2 then 1 else 0) in
  (year, month, day).

Definition date_month (ordinal : Z) : Z := (civil_from_ordinal ordinal).1.2.
Definition date_day (ordinal : Z) : Z := (civil_from_ordinal ordinal).2.

(** [.date()] of a clock reading; [datetime.now()] and [timezone.now()]
    read the same clock, taken in UTC. *)
Definition date_of_clock (microseconds : Z) : Z :=
  719163 + microseconds / 86400000000.

(** ** The mock generator: [generate_mock_economic_data] *)

(** A [{'date': ..., 'value': ...}] item; the ['%Y-%m-%d'] text of a date
    is kept as the date. *)
Record point : Type := mkPoint {
  p_date : Z;
  p_value : spec_float
}.

(** The dict [{'latest': ..., 'historical': ...}]. *)
Record dashboard : Type := mkDashboard {
  d_latest : gmap string point;
  d_historical : gmap string (list point)
}.

Record mock_settings : Type := mkMockSettings {
  start_value : spec_float;
  volatility : spec_float;
  has_trend : bool;
  allow_negative : bool
}.

Definition mock_data_settings : list (string * mock_settings) :=
  [ ("interest_rate", mkMockSettings (float_of_Z 3) (float_lit 3 2) true false);
    ("unemployment", mkMockSettings (float_of_Z 6) (float_lit 5 2) false false);
    ("inflation", mkMockSettings (float_of_Z 5) (float_lit 7 2) true false);
    ("gdp", mkMockSettings (float_of_Z 2) (float_of_Z 2) false false);
    ("yield_curve", mkMockSettings (float_lit 3 2) (float_lit 5 2) true true) ].

(** [range(12, -1, -1)] *)
Definition mock_indices : list Z := [12; 11; 10; 9; 8; 7; 6; 5; 4; 3; 2; 1; 0].

(** [change] of one turn of the inner loop. *)
Definition mock_change (today i : Z) (s : mock_settings) : spec_float :=
  let date_point := today - i * 30 in
  let day := date_day date_point in
  let month := date_month date_point in
  let random_value :=
    fsub (fdiv (float_of_Z ((day * month) mod 10)) (float_of_Z 10)) (float_lit 1 2) in
  let trend_factor :=
    if has_trend s then fmul (fdiv (float_of_Z i) (float_of_Z 12)) (float_lit 1 2)
    else float_of_Z 0 in
  let random_value :=
    if i mod 3 =? 0 then
      let spike_factor :=
        fmul (fdiv (float_of_Z ((day + month) mod 5)) (float_of_Z 5)) (float_lit 3 2) in
      fadd random_value (if month mod 2 =? 0 then spike_factor else fneg spike_factor)
    else random_value in
  fadd (fmul random_value (volatility s)) trend_factor.

(** The inner loop, [current_value] carried along. *)
Fixpoint mock_points (today : Z) (s : mock_settings) (indices : list Z)
    (current_value : spec_float) : list point :=
  match indices with
  | [] => []
  | i :: rest =>
      let moved := fadd current_value (mock_change today i s) in
      let current_value :=
        if allow_negative s then moved else py_max (float_lit 1 10) moved in
      mkPoint (today - i * 30) current_value :: mock_points today s rest current_value
  end.

Definition mock_series (today : Z) (s : mock_settings) : list point :=
  mock_points today s mock_indices (start_value s).

Definition mock_dashboard (today : Z) : dashboard :=
  foldl (λ d entry,
           let series := mock_series today entry.2 in
           mkDashboard
             (match last series with
              | Some p => <[entry.1 := p]> (d_latest d)
              | None => d_latest d
              end)
             (<[entry.1 := series]> (d_historical d)))
        (mkDashboard ∅ ∅) mock_data_settings.

(** ** The economic dashboard: [get_economic_dashboard] *)

Definition indicator_mappings : list (string * string) :=
  [ ("interest_rate", "DFF");
    ("unemployment", "UNRATE");
    ("inflation", "CPIAUCSL");
    ("gdp", "GDP");
    ("yield_curve", "T10Y2Y") ].

(** The natural key of a row: [unique_together = ['indicator_type', 'date']]. *)
Definition row_key (row : EconomicIndicator) : string * Z :=
  (indicator_type row, date row).

Definition next_pk (table : list EconomicIndicator) : Z :=
  1 + foldr Z.max 0 (map pk table).

(** [.filter(indicator_type=...).order_by('-date').first()] *)
Definition latest_row (itype : string) (table : list EconomicIndicator)
  : option EconomicIndicator :=
  foldl (λ best row,
           match best with
           | None => Some row
           | Some b => if date b <? date row then Some row else Some b
           end)
        None (filter (λ row, indicator_type row = itype) table).

Definition date_le (a b : EconomicIndicator) : Prop := date a ≤ date b.

#[global] Instance date_le_dec : RelDecision date_le.
Proof. intros a b. unfold date_le. apply _. Defined.

(** [.filter(indicator_type=..., date__gte=since).order_by('date')] *)
Definition historical_rows (itype : string) (since : Z) (table : list EconomicIndicator)
  : list EconomicIndicator :=
  merge_sort date_le (filter (λ row, indicator_type row = itype ∧ since ≤ date row) table).

Definition point_of_row (row : EconomicIndicator) : point :=
  mkPoint (date row) (value row).

(** The block under [if not force_refresh:], up to its [return]. *)
Definition dashboard_from_db (today : Z) (table : list EconomicIndicator) : dashboard :=
  foldl (λ d mapping,
           match latest_row mapping.1 table with
           | Some row =>
               let historical_data :=
                 map point_of_row (historical_rows mapping.1 (today - 365) table) in
               mkDashboard
                 (<[mapping.1 := point_of_row row]> (d_latest d))
                 (match historical_data with
                  | [] => d_historical d
                  | _ :: _ => <[mapping.1 := historical_data]> (d_historical d)
                  end)
           | None => d
           end)
        (mkDashboard ∅ ∅) indicator_mappings.

Section EconomicDashboard.
Context {Ext : Type}.

(** [fred_client.get_series(indicator_id, observation_start, observation_end)] *)
Variable fred_get_series : string → Z → Z → Remote Ext (list (Z * spec_float)).

Definition get_economic_indicator_body (args : string * Z * Z) : M Ext (list point) :=
  try_except
    (observations <- call_provider "fred" "get_series"
                       (fred_get_series args.1.1 args.1.2 args.2) ;;
     ret (map (λ o, mkPoint o.1 o.2) observations))
    (λ _, ret []).

(** [@rate_limit(1) def get_economic_indicator] *)
Definition get_economic_indicator : string * Z * Z → M Ext (list point) :=
  rate_limit 1 get_economic_indicator_body.

(** [EconomicIndicator.objects.update_or_create(indicator_type=..., date=...,
    defaults={'value': ...})]: the one row with the key is updated, a row is
    created when there is none, several are an error.  The column [value]
    is a [FloatField()] without [null=True] (models.py:165): a NaN, which
    SQLite, the backend of a new Django project, binds as NULL, is refused
    with [IntegrityError], and the statement that carried it writes
    nothing. *)
Definition update_or_create (itype : string) (d : Z) (v : spec_float) : M Ext unit :=
  λ w,
    let table := economic_indicators w in
    match filter (λ row, row_key row = (itype, d)) table with
    | [] =>
        if is_nan v then (Raised "IntegrityError", w, [])
        else
          (Returned tt,
           mkWorld (request_cache w) (clock w)
             (table ++ [mkEconomicIndicator (next_pk table) itype d v (clock w) (clock w)])
             (outside w),
           [])
    | [_] =>
        if is_nan v then (Raised "IntegrityError", w, [])
        else
          (Returned tt,
           mkWorld (request_cache w) (clock w)
             (map (λ row, if decide (row_key row = (itype, d))
                          then mkEconomicIndicator (pk row) itype d v
                                 (created_at row) (clock w)
                          else row) table)
             (outside w),
           [])
    | _ :: _ :: _ => (Raised "MultipleObjectsReturned", w, [])
    end.

(** The database reads of the [if not force_refresh:] block. *)
Definition read_dashboard_from_db : M Ext (option dashboard) :=
  λ w,
    let d := dashboard_from_db (date_of_clock (clock w)) (economic_indicators w) in
    (Returned (if (size (d_latest d) =? length indicator_mappings)%nat
               then Some d else None), w, []).

(** [generate_mock_economic_data()] *)
Definition generate_mock_economic_data : M Ext dashboard :=
  now <- datetime_now ;;
  ret (mock_dashboard (date_of_clock now)).

(** One turn of the fetching loop. *)
Definition fetch_and_save (start_date end_date : Z)
    (indicators : gmap string (list point)) (mapping : string * string)
  : M Ext (gmap string (list point)) :=
  data <- get_economic_indicator (mapping.2, start_date, end_date) ;;
  match data with
  | [] => ret indicators
  | _ :: _ =>
      for_each data (λ item, update_or_create mapping.1 (p_date item) (p_value item)) ;;;
      ret (<[mapping.1 := data]> indicators)
  end.

Definition get_economic_dashboard (force_refresh : bool) : M Ext dashboard :=
  now <- datetime_now ;;
  let end_date := date_of_clock now in
  let start_date := end_date - 365 in
  try_except
    (from_db <- (if force_refresh then ret None else read_dashboard_from_db) ;;
     match from_db with
     | Some d => ret d
     | None =>
         if force_refresh then generate_mock_economic_data
         else
           indicators <- fold_each indicator_mappings
                           (fetch_and_save start_date end_date) ∅ ;;
           ret (mkDashboard (omap (last (A:=point)) indicators) indicators)
     end)
    (λ _, generate_mock_economic_data).

End EconomicDashboard.

(** ** Concrete worlds and providers used to exercise the definitions *)

Definition empty_world : World unit := mkWorld ∅ 0 [] tt.

(** A decorated body that answers ["v"] after two seconds of network time. *)
Definition slow_constant (ticker : string) : M unit pyval :=
  call_provider "demo" "endpoint" (λ ext t, (Returned (PStr "v"), ext, t + 2000000)).

(** A Polygon client that is down. *)
Definition polygon_down (ticker : string) : Remote unit pyval :=
  λ ext t, (Raised "ConnectionError", ext, t + 500000).

(** A decorated provider that answers with a fixed value, one that answers
    [None], and one that raises. *)
Definition answers (v : pyval) (ticker : string) : M unit pyval := ret v.
Definition unavailable (ticker : string) : M unit pyval := ret PNone.
Definition broken (ticker : string) : M unit pyval := raise "ConnectionError".

(** The field [key] of a returned dict. *)
Definition returned_field {Ext} (r : outcome pyval * World Ext * list event)
    (key : string) : option pyval :=
  match r.1.1 with
  | Returned (PDict d) => d !! key
  | _ => None
  end.

(** An SEC profile without sector and description, whose employee count
    is the number 0, and the Polygon profile of the same company. *)
Definition sec_acme : gmap string pyval :=
  list_to_map
    [ ("stock_symbol", PStr "ACME");
      ("company_name", PStr "Acme Corp");
      ("description", PNone);
      ("country", PStr "US");
      ("market_cap", PNone);
      ("website", PNone);
      ("logo_url", PNone);
      ("employee_count", PInt 0);
      ("sector", PNone);
      ("industry", PStr "Services-Prepackaged Software") ].

Definition polygon_acme : gmap string pyval :=
  list_to_map
    [ ("stock_symbol", PStr "ACME");
      ("company_name", PStr "Acme Corporation");
      ("sector", PNone);
      ("industry", PNone);
      ("description", PStr "Makes anvils.");
      ("country", PStr "us");
      ("market_cap", PFloat (float_of_Z 1000000));
      ("website", PStr "https://acme.example");
      ("logo_url", PNone);
      ("employee_count", PInt 12) ].

(** What [get_financial_ratios_sec] returns for a filing, and a Polygon
    result for a later quarter. *)
Definition sec_ratios : pyval :=
  PDict (list_to_map
    [ ("date", PStr "2023-12-31");
      ("ratios", PDict (list_to_map
         [ ("profit_margin", PNone); ("roe", PNone);
           ("roa", PNone); ("debt_to_equity", PNone) ]));
      ("source", PStr "SEC");
      ("url", PStr "https://www.sec.gov/filing") ]).

Definition polygon_ratios : pyval :=
  PDict (list_to_map
    [ ("date", PStr "2024-03-31");
      ("ratios", PDict (list_to_map
         [ ("profit_margin", PFloat (float_lit 1 4)); ("roe", PFloat (float_lit 3 10));
           ("roa", PFloat (float_lit 1 10)); ("debt_to_equity", PFloat (float_lit 1 2)) ])) ]).

(** A provider call that failed: it raised, or it returned [None], the
    empty result of the provider functions. *)
Definition provider_failed {Ext} (r : outcome pyval * World Ext * list event) : Prop :=
  match r.1.1 with
  | Returned v => v = PNone
  | Raised _ => True
  end.

(** A call that gave nothing to work with: it raised, or it returned an
    empty result of any kind ([None], an empty dict, an empty list). *)
Definition provider_gave_nothing {Ext} (r : outcome pyval * World Ext * list event) : Prop :=
  match r.1.1 with
  | Returned v => truthy v = false
  | Raised _ => True
  end.

(** Fourteen closes, each a dollar above the one before. *)
Definition rising_closes : series :=
  map float_of_Z [100; 101; 102; 103; 104; 105; 106; 107; 108; 109; 110; 111; 112; 113].

(** Thirteen of them. *)
Definition short_closes : series :=
  map float_of_Z [100; 101; 102; 103; 104; 105; 106; 107; 108; 109; 110; 111; 112].

Definition bar_at (day close : Z) : bar :=
  mkBar day (float_of_Z close) (float_of_Z close) (float_of_Z close)
        (float_of_Z close) (float_of_Z 1000).

(** A stock, an index that doubles every day (so its daily return is
    constant), and an index quoted on other days only. *)
Definition stock_bars : list bar :=
  [bar_at 1 10; bar_at 2 11; bar_at 3 12; bar_at 4 14].
Definition doubling_index_bars : list bar :=
  [bar_at 1 5; bar_at 2 10; bar_at 3 20; bar_at 4 40].
Definition other_days_index_bars : list bar :=
  [bar_at 11 5; bar_at 12 6; bar_at 13 7].

(** ** The invariant of the [EconomicIndicator] table *)

(** [unique_together]: no two rows have the same type and date. *)
Definition unique_together (table : list EconomicIndicator) : Prop :=
  NoDup (map row_key table).

(** Primary key and natural key of a row: what identifies it across an
    update of its value. *)
Definition row_identity (row : EconomicIndicator) : Z * (string * Z) :=
  (pk row, row_key row).

(** Every row of [before] is still there in [after], in place; rows were
    only added behind them. *)
Definition rows_kept (before after : list EconomicIndicator) : Prop :=
  map row_identity before `prefix_of` map row_identity after.

(** A computation that keeps the key unique and the stored rows in place,
    whether it returns or raises. *)
Definition upserts_only {Ext A} (m : M Ext A) : Prop :=
  ∀ w : World Ext,
    unique_together (economic_indicators w) →
    unique_together (economic_indicators (m w).1.2)
    ∧ rows_kept (economic_indicators w) (economic_indicators (m w).1.2).

(** A FRED client that returns two observations of a series, none for
    GDP, and a table that already holds the first of them for the interest
    rate. *)
Definition fred_two_observations (series_id : string) (observation_start observation_end : Z)
  : Remote unit (list (Z * spec_float)) :=
  λ ext t,
    (if String.eqb series_id "GDP" then Returned []
     else Returned [(observation_end - 1, float_of_Z 5); (observation_end, float_of_Z 6)],
     ext, t + 300000).

Definition seeded_world : World unit :=
  mkWorld ∅ 0 [mkEconomicIndicator 1 "interest_rate" 719162 (float_of_Z 4) 0 0] tt.

(** ** More of the service layer *)

From stdpp Require Import pretty.

Open Scope string_scope.
Open Scope Z_scope.
Open Scope list_scope.

(** A name without a colon, as every Python identifier is. *)
Fixpoint no_colon (s : string) : bool :=
  match s with
  | EmptyString => true
  | String c rest => negb (String.eqb (String c "") ":") && no_colon rest
  end.

(** A ticker of printable ASCII characters other than the single quote
    and the backslash.  Python's [repr] writes such a string as it is
    between single quotes, so [show_ticker] is [str((ticker,))] and the
    [':{}'] of the empty keyword arguments; it quotes or escapes any
    other. *)
Fixpoint plain_ticker (s : string) : bool :=
  match s with
  | EmptyString => true
  | String c rest =>
      let n := Ascii.nat_of_ascii c in
      (32 <=? n)%nat && (n <=? 126)%nat && negb (n =? 39)%nat && negb (n =? 92)%nat
      && plain_ticker rest
  end.

(** What [calculate_investment_score] reads: the three ratios, and the
    cells [rsi_14], [sma_20], [sma_50] and [close] of the latest row of the
    frame that [get_technical_indicators] builds from a [close] column
    (its [window] left at 14). *)
Definition indicator_inputs (close : series)
    (profit_margin roe debt_to_equity : option spec_float) : score_inputs :=
  mkScoreInputs profit_margin roe debt_to_equity
    (latest (rsi_14 14 close))
    (latest (rolling_mean 20 close))
    (latest (rolling_mean 50 close))
    (latest close).

(** ** The provider functions *)

(** A provider function as the service layer writes each of them:
    [@rate_limit(seconds) @request_cached(ttl_seconds=...)] over
    [def f(args): try: body / except Exception as e: return empty], where
    [empty] is [None] or [[]]. *)
Definition provider_function {Ext Args : Type} (seconds ttl_seconds : Z)
    (fname : string) (show : Args → string)
    (body : Args → M Ext pyval) (empty : pyval) : Args → M Ext pyval :=
  rate_limit seconds
    (request_cached ttl_seconds fname show
       (λ args, try_except (body args) (λ _, ret empty))).

(** ** The SEC filing functions *)

(** [o.get(key, dflt)] *)
Definition py_get_default (o : pyval) (key : string) (dflt : pyval) : outcome pyval :=
  match o with
  | PDict d => Returned (default dflt (d !! key))
  | _ => Raised "AttributeError"
  end.

(** What [for x in o] visits (the keys of a dict, in some order). *)
Definition py_iter (o : pyval) : outcome (list pyval) :=
  match o with
  | PList l => Returned l
  | PDict d => Returned (map (λ item, PStr item.1) (map_to_list d))
  | PStr s => Returned (map (λ c, PStr (String c "")) (list_ascii_of_string s))
  | _ => Raised "TypeError"
  end.

(** [o[0]] *)
Definition py_index0 (o : pyval) : outcome pyval :=
  match o with
  | PList (x :: _) => Returned x
  | PList [] => Raised "IndexError"
  | PStr (String c _) => Returned (PStr (String c ""))
  | PStr EmptyString => Raised "IndexError"
  | PDict _ => Raised "KeyError"
  | _ => Raised "TypeError"
  end.

(** [len(o)] *)
Definition py_len (o : pyval) : outcome Z :=
  match o with
  | PList l => Returned (Z.of_nat (length l))
  | PDict d => Returned (Z.of_nat (size d))
  | PStr s => Returned (Z.of_nat (String.length s))
  | _ => Raised "TypeError"
  end.

Definition is_dict (v : pyval) : bool :=
  match v with
  | PDict _ => true
  | _ => false
  end.

(** A dict as [get_insider_transactions_sec] builds it: the three figures
    that the forms would give are [None]. *)
Definition placeholder_transaction (r : pyval) : Prop :=
  ∃ d : gmap string pyval,
    r = PDict d ∧ d !! "shares" = Some PNone
    ∧ d !! "price_per_share" = Some PNone ∧ d !! "total_value" = Some PNone.

(** [if not filings or not filings.get('filings'): return []], then what
    the loop [for filing in filings.get('filings', [])] visits; [None] is
    the early return. *)
Definition listed_filings (filings : pyval) : outcome (option (list pyval)) :=
  if negb (truthy filings) then Returned None
  else
    match py_get filings "filings" with
    | Returned listed =>
        if negb (truthy listed) then Returned None
        else
          match py_get_default filings "filings" (PList []) with
          | Returned again =>
              match py_iter again with
              | Returned items => Returned (Some items)
              | Raised e => Raised e
              end
          | Raised e => Raised e
          end
    | Raised e => Raised e
    end.

(** The two ways the code calls [get_financial_statements]: with the
    ticker alone, and with [filing_type] and [limit] given by keyword. *)
Inductive statements_call : Type :=
| ByTicker (ticker : string)
| ByKeywords (ticker filing_type : string) (limit : Z).

(** The parameters of a call, the defaults ['10-K'] and [1] filled in. *)
Definition statements_args (call : statements_call) : string * string * Z :=
  match call with
  | ByTicker ticker => (ticker, "10-K", 1)
  | ByKeywords ticker filing_type limit => (ticker, filing_type, limit)
  end.

(** [str(args) + ":" + str(kwargs)] of a call. *)
Definition show_statements_call (call : statements_call) : string :=
  match call with
  | ByTicker ticker => show_ticker ticker
  | ByKeywords ticker filing_type limit =>
      "('" +:+ ticker +:+ "',):{'filing_type': '" +:+ filing_type
        +:+ "', 'limit': " +:+ pretty limit +:+ "}"
  end.

(** [str(args) + ":" + str(kwargs)] of a call [f(ticker, limit)]. *)
Definition show_ticker_limit (args : string * Z) : string :=
  "('" +:+ args.1 +:+ "', " +:+ pretty args.2 +:+ "):{}".

Section SecFilings.
Context {Ext : Type}.

(** [sec_client.get_filings(query)], behind the network; a query is given
    by its ticker, its form type and its size. *)
Variable sec_get_filings : string → string → Z → Remote Ext pyval.

(** The dict [filing_data] built from one filing. *)
Definition filing_data (ticker : string) (filing : pyval) : M Ext pyval :=
  company_name <- lift_outcome (py_get filing "companyName") ;;
  form_type <- lift_outcome (py_get filing "formType") ;;
  filed_at <- lift_outcome (py_get filing "filedAt") ;;
  reporting_date <- lift_outcome (py_get filing "periodOfReport") ;;
  fiscal_year <- lift_outcome (py_get filing "fiscalYear") ;;
  fiscal_period <- lift_outcome (py_get filing "fiscalPeriod") ;;
  url <- lift_outcome (py_get filing "linkToFilingDetails") ;;
  ret (PDict (list_to_map
         [ ("ticker", PStr ticker);
           ("company_name", company_name);
           ("form_type", form_type);
           ("filed_at", filed_at);
           ("reporting_date", reporting_date);
           ("fiscal_year", fiscal_year);
           ("fiscal_period", fiscal_period);
           ("url", url);
           ("data", PDict ∅) ])).

(** The function under its decorators. *)
Definition get_financial_statements_body (args : string * string * Z) : M Ext pyval :=
  try_except
    (filings <- call_provider "sec" "get_filings"
                  (sec_get_filings args.1.1 args.1.2 args.2) ;;
     listed <- lift_outcome (listed_filings filings) ;;
     match listed with
     | None => ret (PList [])
     | Some items =>
         results <- fold_each items
                      (λ results filing,
                         record <- filing_data args.1.1 filing ;;
                         ret (results ++ [record])) [] ;;
         ret (PList results)
     end)
    (λ _, ret (PList [])).

(** [@rate_limit(2) @request_cached(ttl_seconds=300) def get_financial_statements] *)
Definition get_financial_statements : statements_call → M Ext pyval :=
  rate_limit 2
    (request_cached 300 "get_financial_statements" show_statements_call
       (λ call, get_financial_statements_body (statements_args call))).

(** The dict [transaction] built from one Form 4 filing. *)
Definition insider_transaction (filing : pyval) : M Ext pyval :=
  insider_name <- lift_outcome (py_get_default filing "ownerName" (PStr "Unknown")) ;;
  position <- lift_outcome (py_get_default filing "ownerRelationship" (PStr "Unknown")) ;;
  transaction_type <- lift_outcome (py_get_default filing "documentType" (PStr "Form 4")) ;;
  transaction_date <- lift_outcome (py_get filing "periodOfReport") ;;
  ret (PDict (list_to_map
         [ ("insider_name", insider_name);
           ("position", position);
           ("transaction_type", transaction_type);
           ("transaction_date", transaction_date);
           ("shares", PNone);
           ("price_per_share", PNone);
           ("total_value", PNone) ])).

(** The function under its decorators; a filing that cannot be read is
    skipped by the inner [try]. *)
Definition get_insider_transactions_sec_body (args : string * Z) : M Ext pyval :=
  try_except
    (filings <- call_provider "sec" "get_filings" (sec_get_filings args.1 "4" args.2) ;;
     listed <- lift_outcome (listed_filings filings) ;;
     match listed with
     | None => ret (PList [])
     | Some items =>
         insider_data <- fold_each items
                           (λ insider_data filing,
                              try_except
                                (transaction <- insider_transaction filing ;;
                                 ret (insider_data ++ [transaction]))
                                (λ _, ret insider_data)) [] ;;
         ret (PList insider_data)
     end)
    (λ _, ret (PList [])).

(** [@rate_limit(2) @request_cached(ttl_seconds=300) def get_insider_transactions_sec] *)
Definition get_insider_transactions_sec : string * Z → M Ext pyval :=
  rate_limit 2
    (request_cached 300 "get_insider_transactions_sec" show_ticker_limit
       get_insider_transactions_sec_body).

End SecFilings.

Section SecRatios.
Context {Ext : Type}.

(** The decorated functions called here. *)
Variable get_financial_statements : statements_call → M Ext pyval.
Variable get_insider_transactions_sec : string * Z → M Ext pyval.
Variable get_insider_transactions : string * Z → M Ext pyval.

(** The ['ratios'] of the SEC result: placeholders. *)
Definition placeholder_ratios : gmap string pyval :=
  list_to_map
    [ ("profit_margin", PNone); ("roe", PNone); ("roa", PNone);
      ("debt_to_equity", PNone) ].

(** The function under its decorators. *)
Definition get_financial_ratios_sec_body (ticker : string) : M Ext pyval :=
  try_except
    (filings <- get_financial_statements (ByKeywords ticker "10-K" 1) ;;
     filings <- (if negb (truthy filings)
                 then get_financial_statements (ByKeywords ticker "10-Q" 1)
                 else ret filings) ;;
     if negb (truthy filings) then ret PNone
     else
       latest_filing <- lift_outcome (py_index0 filings) ;;
       reporting_date <- lift_outcome (py_get latest_filing "reporting_date") ;;
       url <- lift_outcome (py_get latest_filing "url") ;;
       ret (PDict (list_to_map
              [ ("date", reporting_date);
                ("ratios", PDict placeholder_ratios);
                ("source", PStr "SEC");
                ("url", url) ])))
    (λ _, ret PNone).

(** [@rate_limit(2) @request_cached(ttl_seconds=300) def get_financial_ratios_sec] *)
Definition get_financial_ratios_sec : string → M Ext pyval :=
  rate_limit 2
    (request_cached 300 "get_financial_ratios_sec" show_ticker
       get_financial_ratios_sec_body).

(** [transactions and len(transactions) > 0
     and transactions[0].get('shares') is not None] *)
Definition has_meaningful_transactions (transactions : pyval) : outcome bool :=
  if negb (truthy transactions) then Returned false
  else
    match py_len transactions with
    | Returned n =>
        if negb (0 <? n) then Returned false
        else
          match py_index0 transactions with
          | Returned first =>
              match py_get first "shares" with
              | Returned shares => Returned (negb (is_none shares))
              | Raised e => Raised e
              end
          | Raised e => Raised e
          end
    | Raised e => Raised e
    end.

(** [get_insider_transactions_with_fallback]: it has no decorator and no
    handler. *)
Definition get_insider_transactions_with_fallback (args : string * Z) : M Ext pyval :=
  transactions <- get_insider_transactions_sec args ;;
  meaningful <- lift_outcome (has_meaningful_transactions transactions) ;;
  if (meaningful : bool) then ret transactions
  else get_insider_transactions args.

End SecRatios.

(** ** The FRED proxies: [get_industry_data_fred] and [get_sector_performance_fred] *)

Definition industry_indicator_mappings : list (string * string) :=
  [ ("industrial_production", "INDPRO");
    ("capacity_utilization", "TCU");
    ("manufacturing_pmi", "NAPM");
    ("business_inventories", "BUSINV") ].

Definition sector_mappings : list (string * string) :=
  [ ("technology", "IPMINE");
    ("healthcare", "USEHLTHNS");
    ("energy", "IPG2211A2N");
    ("financials", "USFIRE");
    ("consumer", "DPCERE1Q156NBEA");
    ("manufacturing", "AMTMNO") ].

(** [{'current': ..., 'historical': ...}] *)
Record industry_entry : Type := mkIndustryEntry {
  i_current : point;
  i_historical : list point
}.

(** [{'value': ..., 'change_pct': ..., 'historical': ...}] *)
Record sector_entry : Type := mkSectorEntry {
  s_value : spec_float;
  s_change_pct : spec_float;
  s_historical : list point
}.

(** The change over the period, in percent of a positive start value. *)
Definition change_pct (current_value start_value : spec_float) : spec_float :=
  if flt (float_of_Z 0) start_value
  then fmul (fdiv (fsub current_value start_value) start_value) (float_of_Z 100)
  else float_of_Z 0.

Section FredProxies.
Context {Ext : Type}.
Variable fred_get_series : string → Z → Z → Remote Ext (list (Z * spec_float)).

(** The function under its decorator; [None] is its answer to an
    exception. *)
Definition get_industry_data_fred_body : M Ext (option (gmap string industry_entry)) :=
  try_except
    (now <- datetime_now ;;
     let end_date := date_of_clock now in
     let start_date := end_date - 365 in
     results <- fold_each industry_indicator_mappings
                  (λ results mapping,
                     data <- get_economic_indicator fred_get_series
                               (mapping.2, start_date, end_date) ;;
                     match last data with
                     | Some current =>
                         ret (<[mapping.1 := mkIndustryEntry current data]> results)
                     | None => ret results
                     end) ∅ ;;
     ret (Some results))
    (λ _, ret None).

(** [@rate_limit(1) def get_industry_data_fred]; its argument is not used. *)
Definition get_industry_data_fred (industry_code : pyval)
  : M Ext (option (gmap string industry_entry)) :=
  rate_limit 1 (λ _ : pyval, get_industry_data_fred_body) industry_code.

Definition get_sector_performance_fred_body : M Ext (option (gmap string sector_entry)) :=
  try_except
    (now <- datetime_now ;;
     let end_date := date_of_clock now in
     let start_date := end_date - 365 in
     sectors <- fold_each sector_mappings
                  (λ sectors mapping,
                     data <- get_economic_indicator fred_get_series
                               (mapping.2, start_date, end_date) ;;
                     match head data, last data with
                     | Some first, Some current =>
                         let current_value := p_value current in
                         let start_value := p_value first in
                         ret (<[mapping.1 :=
                                  mkSectorEntry current_value
                                    (change_pct current_value start_value) data]>
                                sectors)
                     | _, _ => ret sectors
                     end) ∅ ;;
     ret (Some sectors))
    (λ _, ret None).

(** [@rate_limit(1) def get_sector_performance_fred] *)
Definition get_sector_performance_fred : M Ext (option (gmap string sector_entry)) :=
  rate_limit 1 (λ _ : unit, get_sector_performance_fred_body) tt.

End FredProxies.

(** ** Dict objects shared between the cache and its callers *)

(** What a profile function returns: [None], or a dict object, known by
    its identity. *)
Inductive profile_ref : Type :=
| NoProfile
| ProfileAt (r : nat).

(** The dict objects alive (the identity of one is its position), the
    entries of [_request_cache], which hold references to them and no
    copies, and the clock in microseconds. *)
Record Heap : Type := mkHeap {
  objects : list (gmap string pyval);
  entries : gmap string (Z * profile_ref);
  heap_clock : Z
}.

(** [time.sleep(seconds)] *)
Definition heap_sleep (seconds : Z) (h : Heap) : Heap :=
  mkHeap (objects h) (entries h) (heap_clock h + seconds * 1000000).

(** [request_cached] on references: a live entry is returned as it is,
    and the result of a run is stored by reference. *)
Definition cached_profile (ttl_seconds : Z) (fname : string)
    (func : string → Heap → profile_ref * Heap) (ticker : string) (h : Heap)
  : profile_ref * Heap :=
  let key := cache_key fname (show_ticker ticker) in
  let live :=
    match entries h !! key with
    | Some (cache_time, result) =>
        if heap_clock h - cache_time <? ttl_seconds * 1000000
        then Some result else None
    | None => None
    end in
  match live with
  | Some result => (result, h)
  | None =>
      let '(result, h1) := func ticker h in
      (result,
       mkHeap (objects h1) (<[key := (heap_clock h1, result)]> (entries h1))
              (heap_clock h1))
  end.

(** A provider body: after some time it returns [None] or a dict that it
    has just built, a new object. *)
Definition fresh_profile (answer : option (gmap string pyval) * Z) (h : Heap)
  : profile_ref * Heap :=
  match answer.1 with
  | Some company_data =>
      (ProfileAt (length (objects h)),
       mkHeap (objects h ++ [company_data]) (entries h) (heap_clock h + answer.2))
  | None =>
      (NoProfile, mkHeap (objects h) (entries h) (heap_clock h + answer.2))
  end.

Section SharedProfile.

(** What the bodies of [get_company_info_sec] and [get_company_info] find
    for a ticker at a time, and how long they take; both catch every
    exception and return [None] for it. *)
Variable sec_answer : string → Z → option (gmap string pyval) * Z.
Variable polygon_answer : string → Z → option (gmap string pyval) * Z.

(** [@rate_limit(2) @request_cached(ttl_seconds=300) def get_company_info_sec] *)
Definition get_company_info_sec_shared (ticker : string) (h : Heap)
  : profile_ref * Heap :=
  cached_profile 300 "get_company_info_sec"
    (λ ticker h, fresh_profile (sec_answer ticker (heap_clock h)) h)
    ticker (heap_sleep 2 h).

(** [@rate_limit(3) @request_cached(ttl_seconds=300) def get_company_info] *)
Definition get_company_info_shared (ticker : string) (h : Heap)
  : profile_ref * Heap :=
  cached_profile 300 "get_company_info"
    (λ ticker h, fresh_profile (polygon_answer ticker (heap_clock h)) h)
    ticker (heap_sleep 3 h).

(** The body of [get_company_info_with_fallback] on objects: the merge
    loop assigns into the dict that [get_company_info_sec] returned. *)
Definition get_company_info_with_fallback_shared_body (ticker : string) (h : Heap)
  : profile_ref * Heap :=
  let '(company_info, h1) := get_company_info_sec_shared ticker h in
  match company_info with
  | ProfileAt r =>
      match objects h1 !! r with
      | Some d =>
          if truthy (PDict d) && truthy (dict_get d "company_name") then
            match missing_fields d with
            | [] => (ProfileAt r, h1)
            | _ :: _ =>
                let '(polygon_info, h2) :=
                  get_company_info_shared ticker (heap_sleep 5 h1) in
                match polygon_info with
                | ProfileAt rp =>
                    match objects h2 !! rp, objects h2 !! r with
                    | Some p, Some d2 =>
                        if truthy (PDict p)
                        then (ProfileAt r,
                              mkHeap (<[r := merge_polygon d2 p]> (objects h2))
                                     (entries h2) (heap_clock h2))
                        else (ProfileAt r, h2)
                    | _, _ => (ProfileAt r, h2)
                    end
                | NoProfile => (ProfileAt r, h2)
                end
            end
          else get_company_info_shared ticker (heap_sleep 5 h1)
      | None => (NoProfile, h1)
      end
  | NoProfile => get_company_info_shared ticker (heap_sleep 5 h1)
  end.

End SharedProfile.

(** ** What a run of the dashboard leaves in the table *)

(** The table holds a point of a series: the row of its (type, date)
    carries its value. *)
Definition holds_point (table : list EconomicIndicator) (itype : string) (p : point)
  : Prop :=
  ∃ row, row ∈ table ∧ row_key row = (itype, p_date p) ∧ value row = p_value p.






(** ** More concrete inputs *)

(** A complete SEC profile. *)
Definition sec_complete : gmap string pyval :=
  list_to_map
    [ ("stock_symbol", PStr "ACME");
      ("company_name", PStr "Acme Corp");
      ("description", PStr "Anvils and rockets.");
      ("country", PStr "US");
      ("sector", PStr "Manufacturing");
      ("industry", PStr "Metal Forgings") ].

(** Fourteen closes falling by one a day, from 113 to 100. *)
Definition falling_closes : series :=
  map float_of_Z [113; 112; 111; 110; 109; 108; 107; 106; 105; 104; 103; 102; 101; 100].

(** Fifteen days at one price. *)
Definition flat_closes : series := replicate 15 (float_of_Z 100).

(** A FRED client that is down. *)
Definition fred_down (series_id : string) (observation_start observation_end : Z)
  : Remote unit (list (Z * spec_float)) :=
  λ ext t, (Raised "ConnectionError", ext, t + 300000).

(** A table with one row for each indicator, all of them three years old
    on 1970-01-01, the day the clock of the world starts. *)
Definition stale_world : World unit :=
  mkWorld ∅ 0
    [ mkEconomicIndicator 1 "interest_rate" 718068 (float_of_Z 4) 0 0;
      mkEconomicIndicator 2 "unemployment" 718068 (float_of_Z 5) 0 0;
      mkEconomicIndicator 3 "inflation" 718068 (float_of_Z 3) 0 0;
      mkEconomicIndicator 4 "gdp" 718068 (float_of_Z 2) 0 0;
      mkEconomicIndicator 5 "yield_curve" 718068 (float_of_Z 1) 0 0 ]
    tt.

(** An SEC answer with two filings, the second of them unreadable. *)
Definition acme_filing : gmap string pyval :=
  list_to_map
    [ ("companyName", PStr "Acme Corp");
      ("formType", PStr "10-K");
      ("periodOfReport", PStr "2023-12-31");
      ("ownerName", PStr "W. E. Coyote") ].

Definition acme_filings : gmap string pyval :=
  list_to_map [ ("filings", PList [PDict acme_filing; PStr "garbled"]) ].

Definition sec_two_filings (ticker form_type : string) (size : Z) : Remote unit pyval :=
  λ ext t, (Returned (PDict acme_filings), ext, t + 400000).

(** Decorated functions that find nothing. *)
Definition no_statements (call : statements_call) : M unit pyval := ret (PList []).
Definition no_transactions (args : string * Z) : M unit pyval := ret (PList []).


(** No object, no entry, the clock at 0. *)
Definition empty_heap : Heap := mkHeap [] ∅ 0.

(** Providers that answer with the Acme profiles, after 0.4 and 0.5
    seconds. *)
Definition sec_answers_acme (ticker : string) (t : Z)
  : option (gmap string pyval) * Z := (Some sec_acme, 400000).
Definition polygon_answers_acme (ticker : string) (t : Z)
  : option (gmap string pyval) * Z := (Some polygon_acme, 500000).

(** An SEC client that is down. *)
Definition sec_down (ticker form_type : string) (size : Z) : Remote unit pyval :=
  λ ext t, (Raised "ConnectionError", ext, t + 500000).

(** A FRED client whose series have a gap on the last day: the value of
    the day is missing, a NaN. *)
Definition fred_with_gap (series_id : string) (observation_start observation_end : Z)
  : Remote unit (list (Z * spec_float)) :=
  λ ext t,
    (Returned [(observation_end - 1, float_of_Z 5); (observation_end, S754_nan)],
     ext, t + 300000).

(** A stock on its second trading day, and the index over the same two
    days. *)
Definition second_day_bars : list bar := [bar_at 3 12; bar_at 4 14].
Definition second_day_index_bars : list bar := [bar_at 3 20; bar_at 4 40].

(** * Properties *)

(** ** Computations *)

Section ComputationLemmas.
Context {Ext : Type}.

Lemma bind_returned {A B} (m : M Ext A) (k : A → M Ext B) w a w1 tr1 :
  m w = (Returned a, w1, tr1) →
  bind m k w = let '(r, w2, tr2) := k a w1 in (r, w2, tr1 ++ tr2).
Proof. intros Hm. unfold bind. by rewrite Hm. Qed.

Lemma bind_raised {A B} (m : M Ext A) (k : A → M Ext B) w e w1 tr1 :
  m w = (Raised e, w1, tr1) →
  bind m k w = (Raised e, w1, tr1).
Proof. intros Hm. unfold bind. by rewrite Hm. Qed.

Lemma try_except_returned {A} (body : M Ext A) handler w a w1 tr1 :
  body w = (Returned a, w1, tr1) →
  try_except body handler w = (Returned a, w1, tr1).
Proof. intros Hb. unfold try_except. by rewrite Hb. Qed.

Lemma try_except_raised {A} (body : M Ext A) handler w e w1 tr1 :
  body w = (Raised e, w1, tr1) →
  try_except body handler w =
    let '(r, w2, tr2) := handler e w1 in (r, w2, tr1 ++ tr2).
Proof. intros Hb. unfold try_except. by rewrite Hb. Qed.

(** A handler that returns makes the whole [try] return. *)
Lemma try_except_total {A} (body : M Ext A) (handler : string → M Ext A) w :
  (∀ e w', ∃ a w'' tr, handler e w' = (Returned a, w'', tr)) →
  ∃ a w' tr, try_except body handler w = (Returned a, w', tr).
Proof.
  intros Hh. unfold try_except.
  destruct (body w) as [[[a|e] w1] tr1]; [by eauto|].
  destruct (Hh e w1) as (a & w2 & tr2 & ->). eauto.
Qed.

End ComputationLemmas.

(** ** The request cache *)

Section RequestCacheProperties.
Context {Ext Args : Type}.
Variables (ttl_seconds : Z) (fname : string) (show : Args → string).
Variable func : Args → M Ext pyval.

Lemma with_entry_lookup key result (w : World Ext) :
  request_cache (with_entry key result w) !! key = Some (clock w, result).
Proof. unfold with_entry; simpl. apply lookup_insert_eq. Qed.

Lemma with_entry_clock key result (w : World Ext) :
  clock (with_entry key result w) = clock w.
Proof. reflexivity. Qed.

(** A live entry is returned as it is: nothing runs, nothing changes. *)
Lemma request_cached_hit args (w : World Ext) result :
  live_entry (cache_key fname (show args)) ttl_seconds w = Some result →
  request_cached ttl_seconds fname show func args w = (Returned result, w, []).
Proof.
  intros Hlive. unfold request_cached, bind, cache_lookup, ret.
  by rewrite Hlive.
Qed.

(** Without a live entry the body runs once, and what it returns is stored
    under the key at the time it returned. *)
Lemma request_cached_miss args (w : World Ext) :
  live_entry (cache_key fname (show args)) ttl_seconds w = None →
  request_cached ttl_seconds fname show func args w =
    match func args w with
    | (Returned result, w1, tr) =>
        (Returned result, with_entry (cache_key fname (show args)) result w1,
         Invoke fname (show args) :: tr)
    | (Raised e, w1, tr) => (Raised e, w1, Invoke fname (show args) :: tr)
    end.
Proof.
  intros Hlive. unfold request_cached, bind, cache_lookup, ret, emit, cache_store.
  rewrite Hlive.
  destruct (func args w) as [[[result|e] w1] tr]; simpl; [|done].
  by rewrite !app_nil_r.
Qed.

Lemma live_entry_stored key (w2 : World Ext) t result :
  request_cache w2 !! key = Some (t, result) →
  live_entry key ttl_seconds w2 =
    if clock w2 - t <? ttl_seconds * 1000000 then Some result else None.
Proof. intros Hentry. unfold live_entry. by rewrite Hentry. Qed.

(** C5. Two calls in a row with the same arguments: the first, finding no
    live entry, runs the decorated function once and stores its result
    over whatever the key held; the second returns that result without
    running anything while the entry is younger than the TTL, and runs the
    function again once it is not. *)
Theorem request_cached_runs_body_once args (w w1 w2 : World Ext) result tr :
  live_entry (cache_key fname (show args)) ttl_seconds w = None →
  func args w = (Returned result, w1, tr) →
  request_cache w2 !! cache_key fname (show args) = Some (clock w1, result) →
  request_cached ttl_seconds fname show func args w =
    (Returned result, with_entry (cache_key fname (show args)) result w1,
     Invoke fname (show args) :: tr)
  ∧ request_cache (with_entry (cache_key fname (show args)) result w1)
      !! cache_key fname (show args) = Some (clock w1, result)
  ∧ request_cached ttl_seconds fname show func args w2 =
      if clock w2 - clock w1 <? ttl_seconds * 1000000
      then (Returned result, w2, [])
      else match func args w2 with
           | (Returned result', w3, tr') =>
               (Returned result',
                with_entry (cache_key fname (show args)) result' w3,
                Invoke fname (show args) :: tr')
           | (Raised e, w3, tr') => (Raised e, w3, Invoke fname (show args) :: tr')
           end.
Proof.
  intros Hcold Hfunc Hentry. split; [|split].
  - rewrite (request_cached_miss _ _ Hcold). by rewrite Hfunc.
  - apply with_entry_lookup.
  - pose proof (live_entry_stored _ _ _ _ Hentry) as Hlive.
    destruct (clock w2 - clock w1 <? ttl_seconds * 1000000).
    + by apply request_cached_hit.
    + by apply request_cached_miss.
Qed.

End RequestCacheProperties.

(** On a body that answers ["v"] after two seconds, called twice ten
    seconds apart under a TTL of 300. *)
Lemma request_cached_runs_body_once_witness :
  request_cached 300 "slow_constant" show_ticker slow_constant "AAPL" empty_world =
    (Returned (PStr "v"),
     with_entry (cache_key "slow_constant" (show_ticker "AAPL")) (PStr "v")
       (mkWorld ∅ 2000000 [] tt),
     [Invoke "slow_constant" (show_ticker "AAPL"); Contact "demo" "endpoint"])
  ∧ request_cached 300 "slow_constant" show_ticker slow_constant "AAPL"
      (later 10 (with_entry (cache_key "slow_constant" (show_ticker "AAPL")) (PStr "v")
                   (mkWorld ∅ 2000000 [] tt))) =
    (Returned (PStr "v"),
     later 10 (with_entry (cache_key "slow_constant" (show_ticker "AAPL")) (PStr "v")
                 (mkWorld ∅ 2000000 [] tt)),
     []).
Proof.
  pose proof (request_cached_runs_body_once 300 "slow_constant" show_ticker
                slow_constant "AAPL" empty_world (mkWorld ∅ 2000000 [] tt)
                (later 10 (with_entry (cache_key "slow_constant" (show_ticker "AAPL"))
                             (PStr "v") (mkWorld ∅ 2000000 [] tt)))
                (PStr "v") [Contact "demo" "endpoint"]
                eq_refl eq_refl eq_refl) as (Hfirst & _ & Hsecond).
  split; [exact Hfirst | exact Hsecond].
Defined.

(** ** Failures of the provider functions are cached *)

Section FailureCaching.
Context {Ext Args : Type}.
Variables (seconds ttl_seconds : Z) (fname : string) (show : Args → string).
Variable body : Args → M Ext pyval.
Variable empty : pyval.

(** C10. A failure is cached like a result, for every provider function,
    whatever its rate limit, its TTL, its body and the empty value of its
    handler ([None] or [[]]): when the body raises on a call that found
    no live entry, the function returns the empty value and stores it
    under the key; a later call with the same arguments whose lookup
    falls within the TTL returns that value without an event, so without
    running the body and without contacting the provider, whatever the
    provider would answer by then. *)
Theorem failure_value_is_cached args (w w1 w2 : World Ext) e tr :
  live_entry (cache_key fname (show args)) ttl_seconds (later seconds w) = None →
  body args (later seconds w) = (Raised e, w1, tr) →
  request_cache w2 !! cache_key fname (show args) = Some (clock w1, empty) →
  clock w2 + seconds * 1000000 - clock w1 < ttl_seconds * 1000000 →
  provider_function seconds ttl_seconds fname show body empty args w =
    (Returned empty, with_entry (cache_key fname (show args)) empty w1,
     Invoke fname (show args) :: tr)
  ∧ request_cache (with_entry (cache_key fname (show args)) empty w1)
      !! cache_key fname (show args) = Some (clock w1, empty)
  ∧ provider_function seconds ttl_seconds fname show body empty args w2 =
      (Returned empty, later seconds w2, []).
Proof.
  intros Hcold Hraise Hentry Hfresh. split; [|split].
  - unfold provider_function, rate_limit, bind at 1, time_sleep.
    rewrite (request_cached_miss _ _ _ _ _ _ Hcold).
    rewrite (try_except_raised _ _ _ _ _ _ Hraise). unfold ret.
    by rewrite app_nil_r.
  - apply with_entry_lookup.
  - unfold provider_function, rate_limit, bind, time_sleep.
    rewrite (request_cached_hit _ _ _ _ _ (later seconds w2) empty); [done|].
    unfold live_entry; simpl. rewrite Hentry.
    by destruct (Z.ltb_spec (clock w2 + seconds * 1000000 - clock w1)
                            (ttl_seconds * 1000000)); [|lia].
Qed.

End FailureCaching.

(** The provider functions of the file are of that form; here the four
    whose bodies are written out above, two for each empty value. *)
Lemma provider_functions_of_the_service_layer {Ext : Type}
    (polygon_get_ticker_details : string → Remote Ext pyval)
    (sec_get_filings : string → string → Z → Remote Ext pyval)
    (get_financial_statements' : statements_call → M Ext pyval) :
  (∃ body, get_company_info polygon_get_ticker_details
           = provider_function 3 300 "get_company_info" show_ticker body PNone)
  ∧ (∃ body, get_financial_ratios_sec get_financial_statements'
             = provider_function 2 300 "get_financial_ratios_sec" show_ticker body PNone)
  ∧ (∃ body, get_financial_statements sec_get_filings
             = provider_function 2 300 "get_financial_statements" show_statements_call
                 body (PList []))
  ∧ (∃ body, get_insider_transactions_sec sec_get_filings
             = provider_function 2 300 "get_insider_transactions_sec" show_ticker_limit
                 body (PList [])).
Proof.
  split; [|split; [|split]]; eexists (λ _, _); reflexivity.
Qed.

(** With the Polygon client down and with the SEC client down, and a
    second call a minute later. *)
Lemma failure_value_is_cached_witness :
  (get_company_info polygon_down "AAPL" empty_world =
     (Returned PNone,
      with_entry (cache_key "get_company_info" (show_ticker "AAPL")) PNone
        (mkWorld ∅ 3500000 [] tt),
      [Invoke "get_company_info" (show_ticker "AAPL");
       Contact "polygon" "get_ticker_details"])
   ∧ get_company_info polygon_down "AAPL"
       (later 60 (with_entry (cache_key "get_company_info" (show_ticker "AAPL")) PNone
                    (mkWorld ∅ 3500000 [] tt))) =
     (Returned PNone,
      later 3 (later 60 (with_entry (cache_key "get_company_info" (show_ticker "AAPL"))
                           PNone (mkWorld ∅ 3500000 [] tt))),
      []))
  ∧ (get_insider_transactions_sec sec_down ("AAPL", 10) empty_world =
       (Returned (PList []),
        with_entry (cache_key "get_insider_transactions_sec"
                      (show_ticker_limit ("AAPL", 10))) (PList [])
          (mkWorld ∅ 2500000 [] tt),
        [Invoke "get_insider_transactions_sec" (show_ticker_limit ("AAPL", 10));
         Contact "sec" "get_filings"])
     ∧ get_insider_transactions_sec sec_down ("AAPL", 10)
         (later 60 (with_entry (cache_key "get_insider_transactions_sec"
                                  (show_ticker_limit ("AAPL", 10))) (PList [])
                      (mkWorld ∅ 2500000 [] tt))) =
       (Returned (PList []),
        later 2 (later 60 (with_entry (cache_key "get_insider_transactions_sec"
                                         (show_ticker_limit ("AAPL", 10))) (PList [])
                             (mkWorld ∅ 2500000 [] tt))),
        [])).
Proof.
  split.
  - pose proof (failure_value_is_cached 3 300 "get_company_info" show_ticker
                  (λ ticker,
                     ticker_details <- call_provider "polygon" "get_ticker_details"
                                         (polygon_down ticker) ;;
                     if negb (py_hasattr ticker_details "name") then ret PNone
                     else
                       let company_data := polygon_company_data ticker ticker_details in
                       if negb (truthy (dict_get company_data "company_name"))
                       then ret PNone
                       else ret (PDict company_data))
                  PNone "AAPL" empty_world (mkWorld ∅ 3500000 [] tt)
                  (later 60 (with_entry (cache_key "get_company_info" (show_ticker "AAPL"))
                               PNone (mkWorld ∅ 3500000 [] tt)))
                  "ConnectionError" [Contact "polygon" "get_ticker_details"])
      as Hcached.
    destruct Hcached as (Hfirst & _ & Hsecond);
      [reflexivity | reflexivity | reflexivity | vm_compute; reflexivity |].
    split; [exact Hfirst | exact Hsecond].
  - pose proof (failure_value_is_cached 2 300 "get_insider_transactions_sec"
                  show_ticker_limit
                  (λ args : string * Z,
                     filings <- call_provider "sec" "get_filings"
                                  (sec_down args.1 "4" args.2) ;;
                     listed <- lift_outcome (listed_filings filings) ;;
                     match listed with
                     | None => ret (PList [])
                     | Some items =>
                         insider_data <- fold_each items
                                           (λ insider_data filing,
                                              try_except
                                                (transaction <- insider_transaction filing ;;
                                                 ret (insider_data ++ [transaction]))
                                                (λ _, ret insider_data)) [] ;;
                         ret (PList insider_data)
                     end)
                  (PList []) ("AAPL", 10) empty_world (mkWorld ∅ 2500000 [] tt)
                  (later 60 (with_entry (cache_key "get_insider_transactions_sec"
                                           (show_ticker_limit ("AAPL", 10))) (PList [])
                               (mkWorld ∅ 2500000 [] tt)))
                  "ConnectionError" [Contact "sec" "get_filings"])
      as Hcached.
    destruct Hcached as (Hfirst & _ & Hsecond);
      [reflexivity | reflexivity | reflexivity | vm_compute; reflexivity |].
    split; [exact Hfirst | exact Hsecond].
Defined.

(** ** The fallback orchestrators *)

Section MergeProperties.

Lemma merge_field_lookup_ne ci (item : string * pyval) key :
  item.1 ≠ key → merge_field ci item !! key = ci !! key.
Proof.
  intros Hne. unfold merge_field.
  destruct (negb (truthy (dict_get ci item.1)) && negb (is_none item.2)); [|done].
  by rewrite lookup_insert_ne.
Qed.

Lemma foldl_merge_field_absent items ci key :
  key ∉ items.*1 → foldl merge_field ci items !! key = ci !! key.
Proof.
  revert ci. induction items as [|item items IH]; intros ci Hnotin; [done|].
  simpl in *. apply not_elem_of_cons in Hnotin as [Hne Hnotin].
  rewrite IH by done. by apply merge_field_lookup_ne.
Qed.

(** What the loop leaves in a field, item by item. *)
Lemma foldl_merge_field_lookup items ci key :
  NoDup items.*1 →
  foldl merge_field ci items !! key =
    match (list_to_map items : gmap string pyval) !! key with
    | Some value =>
        if negb (truthy (dict_get ci key)) && negb (is_none value)
        then Some value else ci !! key
    | None => ci !! key
    end.
Proof.
  revert ci. induction items as [|[k v] items IH]; intros ci Hnodup; [done|].
  simpl in *. apply NoDup_cons in Hnodup as [Hfresh Hnodup].
  destruct (decide (k = key)) as [->|Hne].
  - rewrite lookup_insert_eq, foldl_merge_field_absent by done.
    unfold merge_field; simpl.
    destruct (negb (truthy (dict_get ci key)) && negb (is_none v)); [|done].
    by rewrite lookup_insert_eq.
  - rewrite lookup_insert_ne by done. rewrite IH by done.
    rewrite merge_field_lookup_ne by done.
    unfold dict_get. by rewrite merge_field_lookup_ne by done.
Qed.

Lemma merge_polygon_lookup ci pinfo key :
  merge_polygon ci pinfo !! key =
    match pinfo !! key with
    | Some value =>
        if negb (truthy (dict_get ci key)) && negb (is_none value)
        then Some value else ci !! key
    | None => ci !! key
    end.
Proof.
  unfold merge_polygon.
  rewrite foldl_merge_field_lookup by apply NoDup_fst_map_to_list.
  by rewrite list_to_map_to_list.
Qed.

End MergeProperties.

Section FallbackProperties.
Context {Ext : Type}.
Variable get_company_info_sec : string → M Ext pyval.
Variable get_company_info_polygon : string → M Ext pyval.
Variable get_financial_ratios_sec : string → M Ext pyval.
Variable get_financial_ratios : string → M Ext pyval.

(** When Polygon answers with a dict, the [try] block merges it. *)
Lemma fill_from_polygon_returned ticker ci pinfo (w1 w2 : World Ext) tr2 :
  get_company_info_polygon ticker (later 5 w1) = (Returned (PDict pinfo), w2, tr2) →
  fill_from_polygon get_company_info_polygon ticker ci w1 =
    (Returned (merge_polygon ci pinfo), w2, tr2).
Proof.
  intros Hpol.
  unfold fill_from_polygon, try_except, bind, time_sleep, lift_outcome, ret.
  rewrite Hpol. simpl.
  destruct (bool_decide (pinfo = ∅)) eqn:Hempty; simpl.
  - apply bool_decide_eq_true in Hempty as ->.
    unfold merge_polygon. rewrite map_to_list_empty. simpl.
    by rewrite app_nil_r.
  - by rewrite !app_nil_r.
Qed.

(** C1, as the code has it. When the SEC profile has a company name but
    lacks sector, industry or description, and Polygon answers with a
    profile, the result is the SEC profile with Polygon values copied field
    by field: a field whose SEC value is truthy keeps it, and a field
    changes only when its SEC value is falsy (absent, [None], an empty
    string, a zero) and Polygon has a value other than [None] for it. *)
Theorem company_info_merge_keeps_truthy_sec_fields
    ticker (w w1 w2 : World Ext) ci pinfo tr1 tr2 :
  get_company_info_sec ticker w = (Returned (PDict ci), w1, tr1) →
  truthy (dict_get ci "company_name") = true →
  missing_fields ci ≠ [] →
  get_company_info_polygon ticker (later 5 w1) = (Returned (PDict pinfo), w2, tr2) →
  get_company_info_with_fallback_body
      get_company_info_sec get_company_info_polygon ticker w
    = (Returned (PDict (merge_polygon ci pinfo)), w2, tr1 ++ tr2)
  ∧ ∀ key,
      merge_polygon ci pinfo !! key =
        if truthy (dict_get ci key) then ci !! key
        else match pinfo !! key with
             | Some value => if is_none value then ci !! key else Some value
             | None => ci !! key
             end.
Proof.
  intros Hsec Hname Hmissing Hpol. split.
  - unfold get_company_info_with_fallback_body, try_except, bind at 1.
    rewrite Hsec.
    assert (truthy (PDict ci) = true) as Hdict.
    { simpl. destruct (bool_decide (ci = ∅)) eqn:Hempty; [|done].
      apply bool_decide_eq_true in Hempty as ->. by vm_compute in Hname. }
    rewrite Hdict. unfold bind, lift_outcome; simpl. rewrite Hname.
    destruct (missing_fields ci) as [|field fields] eqn:Hfields; [done|].
    rewrite (fill_from_polygon_returned ticker ci pinfo w1 w2 tr2 Hpol).
    unfold ret; simpl. by rewrite !app_nil_r.
  - intros key. rewrite merge_polygon_lookup.
    destruct (truthy (dict_get ci key)); simpl.
    + by destruct (pinfo !! key).
    + destruct (pinfo !! key) as [value|]; [|done]. by destruct (is_none value).
Qed.

End FallbackProperties.

(** On the Acme profiles: the SEC industry stays. *)
Lemma company_info_merge_keeps_truthy_sec_fields_witness :
  get_company_info_with_fallback_body (answers (PDict sec_acme))
      (answers (PDict polygon_acme)) "ACME" empty_world
    = (Returned (PDict (merge_polygon sec_acme polygon_acme)), later 5 empty_world, [])
  ∧ merge_polygon sec_acme polygon_acme !! "industry"
    = Some (PStr "Services-Prepackaged Software").
Proof.
  pose proof (company_info_merge_keeps_truthy_sec_fields
                (answers (PDict sec_acme)) (answers (PDict polygon_acme))
                "ACME" empty_world empty_world (later 5 empty_world)
                sec_acme polygon_acme [] []
                eq_refl eq_refl) as Hmerge.
  destruct Hmerge as [Hbody Hfields].
  - vm_compute. discriminate.
  - reflexivity.
  - split; [exact Hbody|]. rewrite (Hfields "industry"). reflexivity.
Defined.

(** C1, as worded, fails on a zero: the SEC employee count 0 is not
    [None], and the merge replaces it by Polygon's 12. *)
Lemma sec_zero_field_is_overwritten :
  sec_acme !! "employee_count" = Some (PInt 0)
  ∧ is_none (PInt 0) = false
  ∧ returned_field
      (get_company_info_with_fallback_body (answers (PDict sec_acme))
         (answers (PDict polygon_acme)) "ACME" empty_world)
      "employee_count" = Some (PInt 12).
Proof. vm_compute. done. Qed.

Section RatiosFallbackProperties.
Context {Ext : Type}.
Variable get_company_info_sec : string → M Ext pyval.
Variable get_company_info_polygon : string → M Ext pyval.
Variable get_financial_ratios_sec : string → M Ext pyval.
Variable get_financial_ratios : string → M Ext pyval.

Lemma any_not_none_all_none values :
  (∀ v, v ∈ values → v = PNone) → any_not_none values = false.
Proof.
  induction values as [|v values IH]; intros Hall; [done|].
  simpl. rewrite (Hall v) by apply list_elem_of_here. simpl.
  apply IH. intros v' Hin. apply Hall. by apply list_elem_of_further.
Qed.

(** The completeness test fails on a result whose ratio values are all
    [None]. *)
Lemma all_ratios_absent_not_meaningful (d r : gmap string pyval) :
  d !! "ratios" = Some (PDict r) →
  (∀ key value, r !! key = Some value → value = PNone) →
  truthy (PDict d) = true ∧ has_meaningful_ratios (PDict d) = Returned false.
Proof.
  intros Hratios Hall.
  assert (truthy (PDict d) = true) as Hd.
  { simpl. destruct (bool_decide (d = ∅)) eqn:Hempty; [|done].
    apply bool_decide_eq_true in Hempty as ->. by rewrite lookup_empty in Hratios. }
  split; [done|].
  unfold has_meaningful_ratios. rewrite Hd. simpl. rewrite Hratios. simpl.
  destruct (negb (bool_decide (r = ∅))); [|done].
  rewrite any_not_none_all_none; [done|].
  intros v Hin. apply list_elem_of_fmap in Hin as [[k v'] [-> Hin]].
  apply elem_of_map_to_list in Hin. by apply (Hall k).
Qed.

(** C2, as the code has it. When every ratio value of the SEC result is
    absent, the function calls Polygon and returns what Polygon returned,
    whole: nothing of the SEC result is merged into it.  The SEC result
    is returned only when the Polygon call raises. *)
Theorem ratios_fallback_returns_polygon_result
    ticker (w w1 w2 : World Ext) (d r : gmap string pyval) tr1 tr2
    (polygon_outcome : outcome pyval) :
  get_financial_ratios_sec ticker w = (Returned (PDict d), w1, tr1) →
  d !! "ratios" = Some (PDict r) →
  (∀ key value, r !! key = Some value → value = PNone) →
  get_financial_ratios ticker (later 12 w1) = (polygon_outcome, w2, tr2) →
  get_financial_ratios_with_fallback_body
      get_financial_ratios_sec get_financial_ratios ticker w
    = (Returned match polygon_outcome with
                | Returned polygon_result => polygon_result
                | Raised _ => PDict d
                end, w2, tr1 ++ tr2).
Proof.
  intros Hsec Hratios Hall Hpol.
  destruct (all_ratios_absent_not_meaningful d r Hratios Hall) as [Hd Hmeaningful].
  unfold get_financial_ratios_with_fallback_body, try_except at 1, bind at 1.
  rewrite Hsec. unfold bind at 1, lift_outcome. rewrite Hmeaningful.
  unfold try_except, bind, time_sleep, ret. rewrite Hpol, Hd.
  destruct polygon_outcome; simpl; by rewrite ?app_nil_r.
Qed.

(** C6. When both providers fail, the SEC one by raising or by returning
    an empty result and the Polygon one, whenever it is called, by raising
    or by returning [None], the two orchestrators return [None] and raise
    nothing: their bodies, and the decorated functions on a call that
    finds no live cache entry. *)
Theorem both_providers_failing_gives_none ticker (w : World Ext) :
  provider_gave_nothing (get_company_info_sec ticker w) →
  (∀ w', provider_failed (get_company_info_polygon ticker w')) →
  provider_gave_nothing (get_financial_ratios_sec ticker w) →
  (∀ w', provider_failed (get_financial_ratios ticker w')) →
  live_entry (cache_key "get_company_info_with_fallback" (show_ticker ticker)) 300 w = None →
  live_entry (cache_key "get_financial_ratios_with_fallback" (show_ticker ticker)) 300 w = None →
  (get_company_info_with_fallback_body
     get_company_info_sec get_company_info_polygon ticker w).1.1 = Returned PNone
  ∧ (get_financial_ratios_with_fallback_body
       get_financial_ratios_sec get_financial_ratios ticker w).1.1 = Returned PNone
  ∧ (get_company_info_with_fallback
       get_company_info_sec get_company_info_polygon ticker w).1.1 = Returned PNone
  ∧ (get_financial_ratios_with_fallback
       get_financial_ratios_sec get_financial_ratios ticker w).1.1 = Returned PNone.
Proof.
  intros Hsec Hpol Hrsec Hrpol Hcold1 Hcold2.
  assert ((get_company_info_with_fallback_body
             get_company_info_sec get_company_info_polygon ticker w).1.1
          = Returned PNone) as Hcompany.
  { unfold get_company_info_with_fallback_body, try_except at 1, bind at 1.
    unfold provider_gave_nothing in Hsec.
    destruct (get_company_info_sec ticker w) as [[[v|e] w1] tr1]; simpl in *; [|done].
    rewrite Hsec. unfold bind, ret, try_except, time_sleep; simpl. rewrite Hsec.
    specialize (Hpol (later 5 w1)). unfold provider_failed in Hpol.
    destruct (get_company_info_polygon ticker (later 5 w1)) as [[[v'|e] w2] tr2];
      simpl in *; [by subst v' | done]. }
  assert ((get_financial_ratios_with_fallback_body
             get_financial_ratios_sec get_financial_ratios ticker w).1.1
          = Returned PNone) as Hratios.
  { unfold get_financial_ratios_with_fallback_body, try_except at 1, bind at 1.
    unfold provider_gave_nothing in Hsec, Hrsec.
    destruct (get_financial_ratios_sec ticker w) as [[[v|e] w1] tr1]; simpl in *.
    - unfold bind, lift_outcome, has_meaningful_ratios, ret, try_except, time_sleep.
      rewrite Hrsec. simpl.
      specialize (Hrpol (later 12 w1)). unfold provider_failed in Hrpol.
      destruct (get_financial_ratios ticker (later 12 w1)) as [[[v'|e] w2] tr2];
        simpl in *; [by subst v' | done].
    - unfold bind, ret, try_except, time_sleep; simpl.
      specialize (Hrpol (later 15 w1)). unfold provider_failed in Hrpol.
      destruct (get_financial_ratios ticker (later 15 w1)) as [[[v|e'] w2] tr2];
        simpl in *; [by subst v | done]. }
  split; [done|]. split; [done|]. split.
  - unfold get_company_info_with_fallback.
    rewrite (request_cached_miss _ _ _ _ _ _ Hcold1).
    destruct (get_company_info_with_fallback_body _ _ ticker w) as [[[v|e] w1] tr1];
      simpl in *; [done | discriminate].
  - unfold get_financial_ratios_with_fallback.
    rewrite (request_cached_miss _ _ _ _ _ _ Hcold2).
    destruct (get_financial_ratios_with_fallback_body _ _ ticker w) as [[[v|e] w1] tr1];
      simpl in *; [done | discriminate].
Qed.

(** No exception leaves either orchestrator, whatever the providers do. *)
Lemma fallback_bodies_never_raise ticker (w : World Ext) :
  (∃ v, (get_company_info_with_fallback_body
           get_company_info_sec get_company_info_polygon ticker w).1.1 = Returned v)
  ∧ (∃ v, (get_financial_ratios_with_fallback_body
             get_financial_ratios_sec get_financial_ratios ticker w).1.1 = Returned v).
Proof.
  split.
  - destruct (try_except_total
                (company_info <- get_company_info_sec ticker ;;
                 name <- (if truthy company_info
                          then lift_outcome (py_get company_info "company_name")
                          else ret company_info) ;;
                 if truthy name then
                   match company_info with
                   | PDict d =>
                       match missing_fields d with
                       | [] => ret (PDict d)
                       | _ :: _ =>
                           d' <- fill_from_polygon get_company_info_polygon ticker d ;;
                           ret (PDict d')
                       end
                   | _ => raise "AttributeError"
                   end
                 else
                   try_except
                     (time_sleep 5 ;;; get_company_info_polygon ticker)
                     (λ _, ret PNone))
                (λ _, ret PNone) w) as (v & w' & tr & Hrun).
    { intros e w'. by eexists _, _, _. }
    exists v. unfold get_company_info_with_fallback_body. by rewrite Hrun.
  - unfold get_financial_ratios_with_fallback_body.
    match goal with
    | |- ∃ v, (try_except ?body ?handler w).1.1 = _ =>
        destruct (try_except_total body handler w) as (v & w' & tr & Hrun)
    end.
    { intros e w'. apply try_except_total. intros e' w''. by eexists _, _, _. }
    exists v. by rewrite Hrun.
Qed.

End RatiosFallbackProperties.

(** On the SEC placeholder ratios and a Polygon result. *)
Lemma ratios_fallback_returns_polygon_result_witness :
  get_financial_ratios_with_fallback_body (answers sec_ratios) (answers polygon_ratios)
      "ACME" empty_world
    = (Returned polygon_ratios, later 12 empty_world, []).
Proof.
  apply (ratios_fallback_returns_polygon_result
           (answers sec_ratios) (answers polygon_ratios) "ACME"
           empty_world empty_world (later 12 empty_world)
           (list_to_map
              [ ("date", PStr "2023-12-31");
                ("ratios", PDict (list_to_map
                   [ ("profit_margin", PNone); ("roe", PNone);
                     ("roa", PNone); ("debt_to_equity", PNone) ]));
                ("source", PStr "SEC");
                ("url", PStr "https://www.sec.gov/filing") ])
           (list_to_map
              [ ("profit_margin", PNone); ("roe", PNone);
                ("roa", PNone); ("debt_to_equity", PNone) ])
           [] [] (Returned polygon_ratios)).
  - reflexivity.
  - reflexivity.
  - intros key value Hlookup.
    apply (elem_of_list_to_map_2 (M := gmap string)) in Hlookup.
    repeat (apply elem_of_cons in Hlookup as [Heq|Hlookup];
            [by inversion Heq|]).
    by apply elem_of_nil in Hlookup.
  - reflexivity.
Defined.

(** C2, as worded, fails: the SEC result has a date and a source, its
    ratios are all absent, and the result carries Polygon's date and no
    source. *)
Lemma sec_ratio_fields_replaced_by_polygon :
  has_meaningful_ratios sec_ratios = Returned false
  ∧ py_get sec_ratios "date" = Returned (PStr "2023-12-31")
  ∧ py_get sec_ratios "source" = Returned (PStr "SEC")
  ∧ returned_field
      (get_financial_ratios_with_fallback_body (answers sec_ratios)
         (answers polygon_ratios) "ACME" empty_world) "date"
    = Some (PStr "2024-03-31")
  ∧ returned_field
      (get_financial_ratios_with_fallback_body (answers sec_ratios)
         (answers polygon_ratios) "ACME" empty_world) "source"
    = None.
Proof. vm_compute. done. Qed.

(** With a raising SEC lookup, an empty SEC ratios result and Polygon
    functions that return [None] or raise. *)
Lemma both_providers_failing_gives_none_witness :
  (get_company_info_with_fallback_body broken unavailable "ACME" empty_world).1.1
    = Returned PNone
  ∧ (get_financial_ratios_with_fallback_body (answers (PDict ∅)) broken
       "ACME" empty_world).1.1
    = Returned PNone
  ∧ (get_company_info_with_fallback broken unavailable "ACME" empty_world).1.1
    = Returned PNone
  ∧ (get_financial_ratios_with_fallback (answers (PDict ∅)) broken
       "ACME" empty_world).1.1
    = Returned PNone.
Proof.
  apply (both_providers_failing_gives_none broken unavailable (answers (PDict ∅)) broken
           "ACME" empty_world).
  - exact I.
  - intros w'. reflexivity.
  - reflexivity.
  - intros w'. exact I.
  - reflexivity.
  - reflexivity.
Defined.

(** ** The indicator calculator *)

Section IndicatorProperties.

Lemma length_diff_from prev xs : length (diff_from prev xs) = length xs.
Proof. revert prev. induction xs as [|x xs IH]; intros prev; simpl; [done|]. by rewrite IH. Qed.

Lemma length_diff xs : length (diff xs) = length xs.
Proof. destruct xs; simpl; [done|]. by rewrite length_diff_from. Qed.

Lemma length_rolling_mean window xs : length (rolling_mean window xs) = length xs.
Proof. unfold rolling_mean. apply length_imap. Qed.

Lemma length_gain window close : length (gain window close) = length close.
Proof.
  unfold gain, where_positive.
  by rewrite length_rolling_mean, length_map, length_diff.
Qed.

Lemma length_loss window close : length (loss window close) = length close.
Proof.
  unfold loss, where_negative.
  by rewrite length_map, length_rolling_mean, length_map, length_diff.
Qed.

Lemma last_zip_with {A B C} (f : A → B → C) (xs : list A) (ys : list B) x y :
  length xs = length ys → last xs = Some x → last ys = Some y →
  last (zip_with f xs ys) = Some (f x y).
Proof.
  intros Hlen Hx Hy.
  rewrite (last_lookup xs) in Hx. rewrite (last_lookup ys) in Hy.
  rewrite last_lookup.
  rewrite length_zip_with, <- Hlen, Nat.min_id.
  rewrite lookup_zip_with, Hx. simpl. rewrite Hlen, Hy. done.
Qed.

(** The latest RSI is the cell formula on the latest gain and loss. *)
Lemma latest_rsi_14 window close g l :
  latest (gain window close) = Some g →
  latest (loss window close) = Some l →
  latest (rsi_14 window close) = Some (rsi_cell g l).
Proof.
  intros Hg Hl. unfold latest, rsi_14 in *.
  apply last_zip_with; [|done..].
  by rewrite length_gain, length_loss.
Qed.

(** A positive gain over a zero loss: the quotient is an infinity, and
    the cell is exactly 100. *)
Lemma rsi_cell_zero_loss g l :
  flt (S754_zero false) g = true → is_zero l = true →
  rsi_cell g l = float_of_Z 100.
Proof.
  intros Hpos Hzero.
  destruct l as [sl| | |]; try discriminate.
  destruct g as [sg|sg| |sg mg eg]; try discriminate;
    destruct sg; try discriminate; destruct sl; reflexivity.
Qed.

(** A missing gain gives a missing cell. *)
Lemma rsi_cell_nan l : rsi_cell S754_nan l = S754_nan.
Proof. reflexivity. Qed.

(** With fewer rows than the window, the latest rolling mean is missing. *)
Lemma latest_rolling_mean_short window xs :
  xs ≠ [] → (length xs < window)%nat →
  latest (rolling_mean window xs) = Some S754_nan.
Proof.
  intros Hne Hshort. unfold latest, rolling_mean.
  rewrite last_lookup, length_imap, list_lookup_imap.
  destruct xs as [|x xs]; [done|]. simpl length.
  replace (Init.Nat.pred (S (length xs))) with (length xs) by done.
  destruct ((x :: xs) !! length xs) as [y|] eqn:Hy.
  - simpl. simpl in Hshort.
    destruct (Nat.ltb_spec (S (length xs)) window); [done | lia].
  - apply lookup_ge_None in Hy. simpl in Hy. lia.
Qed.

(** With fewer price points than the window the latest RSI is missing. *)
Lemma latest_rsi_14_short window close :
  close ≠ [] → (length close < window)%nat →
  latest (rsi_14 window close) = Some S754_nan.
Proof.
  intros Hne Hshort.
  assert (latest (rolling_mean window (where_positive (diff close))) = Some S754_nan) as Hg.
  { apply latest_rolling_mean_short.
    - unfold where_positive. by destruct close.
    - unfold where_positive. by rewrite length_map, length_diff. }
  assert (latest (rolling_mean window (where_negative (diff close))) = Some S754_nan) as Hl.
  { apply latest_rolling_mean_short.
    - unfold where_negative. by destruct close.
    - unfold where_negative. by rewrite length_map, length_diff. }
  rewrite (latest_rsi_14 window close S754_nan S754_nan); [done|done|].
  unfold loss, latest in *. rewrite last_lookup in Hl |- *.
  rewrite length_map, list_lookup_fmap, Hl. done.
Qed.

(** C3, as the code has it. The latest RSI is 100 when the trailing
    average loss is zero and the trailing average gain is positive.  When
    the series has fewer price points than the window, the latest one
    counted, it is the float NaN, the missing value of the frame: a cell
    that is there and is not [None]. *)
Theorem rsi_14_zero_loss_and_short_history (window : nat) (close : series) g l :
  latest (gain window close) = Some g →
  latest (loss window close) = Some l →
  (flt (S754_zero false) g = true → is_zero l = true →
   latest (rsi_14 window close) = Some (float_of_Z 100))
  ∧ ((length close < window)%nat →
     latest (rsi_14 window close) = Some S754_nan
     ∧ is_none (PFloat S754_nan) = false).
Proof.
  intros Hg Hl. split.
  - intros Hpos Hzero. rewrite (latest_rsi_14 _ _ _ _ Hg Hl).
    by rewrite rsi_cell_zero_loss.
  - intros Hshort.
    assert (close ≠ []) as Hne.
    { intros ->. unfold gain in Hg. by vm_compute in Hg. }
    split; [by apply latest_rsi_14_short | done].
Qed.

End IndicatorProperties.

(** On fourteen rising closes and on thirteen. *)
Lemma rsi_14_zero_loss_and_short_history_witness :
  latest (rsi_14 14 rising_closes) = Some (float_of_Z 100)
  ∧ latest (rsi_14 14 short_closes) = Some S754_nan.
Proof.
  split.
  - apply (rsi_14_zero_loss_and_short_history 14 rising_closes
             (S754_finite false 8363827879402350 (-53)) (S754_zero true));
      reflexivity.
  - apply (rsi_14_zero_loss_and_short_history 14 short_closes S754_nan S754_nan);
      [reflexivity | reflexivity | vm_compute; lia].
Defined.

(** C3, as worded, fails twice.  At fourteen price points thirteen precede
    the latest, fewer than 14, and the RSI is 100.  At thirteen the RSI is
    no null: the cell holds the float NaN, which is not [None], and it is
    passed on as a value, for the scoring gives it the 50 points of a
    neutral RSI where an RSI that is [None] gets 0. *)
Lemma rsi_14_thirteen_prior_points_and_nan_value :
  length rising_closes = 14%nat
  ∧ latest (rsi_14 14 rising_closes) = Some (float_of_Z 100)
  ∧ length short_closes = 13%nat
  ∧ latest (rsi_14 14 short_closes) = Some S754_nan
  ∧ is_none (PFloat S754_nan) = false
  ∧ rsi_points (indicator_inputs short_closes None None None) = 50
  ∧ rsi_points (mkScoreInputs None None None None None None None) = 0.
Proof. vm_compute. done. Qed.

Section BetaProperties.

(** The variance of fewer than two observations is missing. *)
Lemma var_nil : var [] = S754_nan.
Proof. reflexivity. Qed.

Lemma cov_nil : cov [] [] = S754_nan.
Proof. reflexivity. Qed.

(** With at most one market return present among the merged rows the
    market variance is missing, and the quotient by it is missing too. *)
Lemma var_short price_data spy_data covariance :
  (length (filter (λ x, is_nan x = false) (merged_returns price_data spy_data).*2) ≤ 1)%nat →
  beta_of covariance (market_variance price_data spy_data) = PFloat S754_nan.
Proof.
  intros Hshort. unfold market_variance, var.
  destruct (Nat.leb_spec
              (length (filter (λ x, is_nan x = false)
                              (merged_returns price_data spy_data).*2)) 1); [|lia].
  unfold beta_of. simpl. by destruct covariance.
Qed.

(** The guard of the division: no beta is a quotient by a zero. *)
Lemma beta_of_float covariance variance x :
  beta_of covariance variance = PFloat x →
  is_zero variance = false ∧ x = fdiv covariance variance.
Proof.
  unfold beta_of. destruct variance; simpl; intros Heq; try discriminate;
    by inversion Heq.
Qed.

Lemma beta_of_zero covariance variance :
  is_zero variance = true → beta_of covariance variance = PNone.
Proof. by destruct variance. Qed.

(** C8. What the beta block returns.  It never divides by zero and never
    raises.  The beta is [None] when the market variance over the merged
    rows is zero (the division is not carried out) and when no index bar
    came back (from the handler).  When index bars came back but at most
    one market return is present among the merged rows, as with no common
    date, with one, or with the two bars of a stock on its second day, the
    variance is missing, a NaN, which the guard takes for true, and the
    beta is the float NaN where the claim has a null.  A beta that is a
    float never has a zero divisor. *)
Theorem beta_null_without_market_variance (price_data spy_data : list bar) :
  (is_zero (market_variance price_data spy_data) = true →
   beta price_data spy_data = PNone)
  ∧ (spy_data = [] → beta price_data spy_data = PNone)
  ∧ (spy_data ≠ [] →
     (length (filter (λ x, is_nan x = false)
                     (merged_returns price_data spy_data).*2) ≤ 1)%nat →
     beta price_data spy_data = PFloat S754_nan
     ∧ is_none (beta price_data spy_data) = false)
  ∧ (∀ x, beta price_data spy_data = PFloat x →
          is_zero (market_variance price_data spy_data) = false
          ∧ x = fdiv (covariance price_data spy_data)
                     (market_variance price_data spy_data)).
Proof.
  split; [|split; [|split]].
  - intros Hzero. unfold beta. destruct (close_column spy_data); [|done].
    by apply beta_of_zero.
  - by intros ->.
  - intros Hbars Hpresent. unfold beta.
    destruct spy_data as [|index_bar spy_data]; [done|]. cbn [close_column].
    by rewrite (var_short _ _ _ Hpresent).
  - intros x. unfold beta. destruct (close_column spy_data); [|done].
    intros Hbeta. by apply beta_of_float in Hbeta.
Qed.

End BetaProperties.

(** On an index with a constant daily return, on no index bars, on an
    index quoted on other days, and on a stock on its second day. *)
Lemma beta_null_without_market_variance_witness :
  beta stock_bars doubling_index_bars = PNone
  ∧ beta stock_bars [] = PNone
  ∧ beta stock_bars other_days_index_bars = PFloat S754_nan
  ∧ beta second_day_bars second_day_index_bars = PFloat S754_nan.
Proof.
  pose proof (beta_null_without_market_variance stock_bars doubling_index_bars)
    as (Hzero & _).
  pose proof (beta_null_without_market_variance stock_bars []) as (_ & Hnone & _).
  pose proof (beta_null_without_market_variance stock_bars other_days_index_bars)
    as (_ & _ & Hnan & _).
  pose proof (beta_null_without_market_variance second_day_bars second_day_index_bars)
    as (_ & _ & Hsecond & _).
  split; [exact (Hzero eq_refl)|]. split; [exact (Hnone eq_refl)|]. split.
  - apply Hnan; [discriminate | vm_compute; lia].
  - apply Hsecond; [discriminate | vm_compute; lia].
Defined.

(** The failing inputs of C8, evaluated.  A stock on its second day and
    the index over the same two days: one market return is present, and
    the beta that comes back is the float NaN, which is not [None].  So
    it is for a stock and an index that share no date. *)
Example beta_is_nan_on_the_second_day :
  length (merged_returns second_day_bars second_day_index_bars) = 2%nat
  ∧ market_variance second_day_bars second_day_index_bars = S754_nan
  ∧ beta second_day_bars second_day_index_bars = PFloat S754_nan
  ∧ is_none (beta second_day_bars second_day_index_bars) = false
  ∧ merged_returns stock_bars other_days_index_bars = []
  ∧ beta stock_bars other_days_index_bars = PFloat S754_nan.
Proof. vm_compute. done. Qed.

(** ** The scoring aggregator *)

Section ScoringProperties.

(** A mantissa of [d] binary digits lies in [2^(d-1), 2^d). *)
Lemma digits2_pos_bounds m :
  2 ^ (Z.pos (digits2_pos m) - 1) ≤ Z.pos m < 2 ^ Z.pos (digits2_pos m).
Proof.
  induction m as [m IH|m IH|]; simpl digits2_pos.
  - rewrite Pos2Z.inj_succ.
    replace (Z.succ (Z.pos (digits2_pos m)) - 1) with (Z.succ (Z.pos (digits2_pos m) - 1)) by lia.
    rewrite !Z.pow_succ_r by lia. lia.
  - rewrite Pos2Z.inj_succ.
    replace (Z.succ (Z.pos (digits2_pos m)) - 1) with (Z.succ (Z.pos (digits2_pos m) - 1)) by lia.
    rewrite !Z.pow_succ_r by lia. lia.
  - simpl. lia.
Qed.

Lemma bounded_mantissa m e :
  bounded 53 1024 m e = true →
  Z.pos m < 2 ^ 53 ∧ (-1074 < e → 2 ^ 52 ≤ Z.pos m).
Proof.
  unfold bounded, canonical_mantissa, fexp, emin.
  intros Hb. apply andb_true_iff in Hb as [Hc _].
  apply Z.eqb_eq in Hc.
  pose proof (digits2_pos_bounds m) as [Hlo Hhi].
  assert (Z.pos (digits2_pos m) ≤ 53) as Hd by lia.
  split.
  - eapply Z.lt_le_trans; [exact Hhi|]. apply Z.pow_le_mono_r; lia.
  - intros He. assert (Z.pos (digits2_pos m) = 53) as Hd53 by lia.
    rewrite Hd53 in Hlo. exact Hlo.
Qed.

Lemma Zpos_pow2 p : Z.pos (2 ^ p) = 2 ^ Z.pos p.
Proof. by rewrite Pos2Z.inj_pow. Qed.

Lemma pow2_pos_lt (p q : positive) : (p < q)%positive → 2 * 2 ^ Z.pos p ≤ 2 ^ Z.pos q.
Proof.
  intros Hlt. rewrite <- Z.pow_succ_r by lia.
  apply Z.pow_le_mono_r; lia.
Qed.



Lemma fle_threshold_l (c : Z) (mc q : positive) x v :
  float_of_Z c = S754_finite false mc (Z.neg q) →
  Z.pos mc = c * 2 ^ Z.pos q →
  2 ^ 52 ≤ Z.pos mc < 2 ^ 53 →
  Z.pos q < 1074 →
  valid_binary 53 1024 x = true → float_value x = Some v →
  fle (float_of_Z c) x = Qle_bool (inject_Z c) v.
Proof.
  intros Hconst Hvalue Hnormal Hexp Hvalid Hv. rewrite Hconst.
  assert (2 ≤ 2 ^ Z.pos q) as Hq.
  { change 2 with (2 ^ 1) at 1. apply Z.pow_le_mono_r; lia. }
  assert (0 < c < 2 ^ 52) as Hc by nia.
  destruct x as [s| | |s m e]; simpl in Hv; try discriminate.
  - inversion Hv; subst v. unfold Qle_bool; simpl. symmetry. apply Z.leb_gt. lia.
  - inversion Hv; subst v; clear Hv. simpl in Hvalid.
    apply bounded_mantissa in Hvalid as [Hhi Hlo].
    destruct s.
    + (* a negative score *)
      symmetry. unfold fle, SFleb, SFcompare.
      destruct e as [|p|p]; unfold Qle_bool; simpl; apply Z.leb_gt; lia.
    + unfold fle, SFleb, SFcompare.
      destruct e as [|p|p]; unfold Qle_bool; simpl.
      * symmetry. apply Z.leb_le. specialize (Hlo ltac:(lia)). lia.
      * symmetry. apply Z.leb_le. specialize (Hlo ltac:(lia)).
        assert (Z.pos m ≤ Z.pos m * Z.pos (2 ^ p)) by nia. lia.
      * rewrite Zpos_pow2, Z.mul_1_r.
        destruct (Pos.compare_spec q p) as [Heq|Hlt|Hgt]; simpl.
        -- subst p. rewrite <- Hvalue.
           change (PosDef.Pos.compare_cont Eq mc m) with (mc ?= m)%positive.
           destruct (Pos.compare_spec mc m); symmetry;
             first [apply Z.leb_le; lia | apply Z.leb_gt; lia].
        -- symmetry. apply Z.leb_gt.
           pose proof (pow2_pos_lt q p Hlt). nia.
        -- symmetry. apply Z.leb_le.
           pose proof (pow2_pos_lt p q Hgt). specialize (Hlo ltac:(lia)). nia.
Qed.

Lemma fle_threshold_r (c : Z) (mc q : positive) x v :
  float_of_Z c = S754_finite false mc (Z.neg q) →
  Z.pos mc = c * 2 ^ Z.pos q →
  2 ^ 52 ≤ Z.pos mc < 2 ^ 53 →
  Z.pos q < 1074 →
  valid_binary 53 1024 x = true → float_value x = Some v →
  fle x (float_of_Z c) = Qle_bool v (inject_Z c).
Proof.
  intros Hconst Hvalue Hnormal Hexp Hvalid Hv. rewrite Hconst.
  assert (2 ≤ 2 ^ Z.pos q) as Hq.
  { change 2 with (2 ^ 1) at 1. apply Z.pow_le_mono_r; lia. }
  assert (0 < c < 2 ^ 52) as Hc by nia.
  destruct x as [s| | |s m e]; simpl in Hv; try discriminate.
  - inversion Hv; subst v. unfold Qle_bool; simpl. symmetry. apply Z.leb_le. lia.
  - inversion Hv; subst v; clear Hv. simpl in Hvalid.
    apply bounded_mantissa in Hvalid as [Hhi Hlo].
    destruct s.
    + (* a negative score *)
      symmetry. unfold fle, SFleb, SFcompare.
      destruct e as [|p|p]; unfold Qle_bool; simpl; apply Z.leb_le; lia.
    + unfold fle, SFleb, SFcompare.
      destruct e as [|p|p]; unfold Qle_bool; simpl.
      * symmetry. apply Z.leb_gt. specialize (Hlo ltac:(lia)). lia.
      * symmetry. apply Z.leb_gt. specialize (Hlo ltac:(lia)).
        assert (Z.pos m ≤ Z.pos m * Z.pos (2 ^ p)) by nia. lia.
      * rewrite Zpos_pow2, Z.mul_1_r.
        destruct (Pos.compare_spec p q) as [Heq|Hlt|Hgt]; simpl.
        -- subst p. rewrite <- Hvalue.
           change (PosDef.Pos.compare_cont Eq m mc) with (m ?= mc)%positive.
           destruct (Pos.compare_spec m mc); symmetry;
             first [apply Z.leb_le; lia | apply Z.leb_gt; lia].
        -- symmetry. apply Z.leb_gt.
           pose proof (pow2_pos_lt p q Hlt). specialize (Hlo ltac:(lia)). nia.
        -- symmetry. apply Z.leb_le.
           pose proof (pow2_pos_lt q p Hgt). nia.
Qed.

(** C4. On every double that stands for a number, the recommendation is
    the one the inclusive thresholds give on that number: at least 80
    strong_buy, else at least 60 buy, else at most 20 strong_sell, else at
    most 40 sell, else hold; so 80.0 gives strong_buy, 79.99 buy and 40.0
    sell. *)
Theorem recommendation_follows_thresholds x v :
  valid_binary 53 1024 x = true →
  float_value x = Some v →
  recommendation x = recommendation_of_value v
  ∧ recommendation (float_of_Z 80) = "strong_buy"
  ∧ recommendation (float_lit 7999 100) = "buy"
  ∧ recommendation (float_of_Z 40) = "sell".
Proof.
  intros Hvalid Hv. split; [|by vm_compute].
  unfold recommendation, recommendation_of_value.
  rewrite (fle_threshold_l 80 (80 * 2 ^ 46) 46 x v) by (done || by vm_compute).
  rewrite (fle_threshold_l 60 (60 * 2 ^ 47) 47 x v) by (done || by vm_compute).
  rewrite (fle_threshold_r 20 (20 * 2 ^ 48) 48 x v) by (done || by vm_compute).
  rewrite (fle_threshold_r 40 (40 * 2 ^ 47) 47 x v) by (done || by vm_compute).
  done.
Qed.

(** The recommendation [calculate_investment_score] reports is the one of
    the overall score it reports. *)
Lemma calculate_scores_recommendation i :
  r_recommendation (calculate_scores i) = recommendation (r_overall_score (calculate_scores i)).
Proof. reflexivity. Qed.

End ScoringProperties.

(** On the double nearest to 79.99. *)
Lemma recommendation_follows_thresholds_witness :
  recommendation (float_lit 7999 100)
    = recommendation_of_value (Qmake 5628795846771343 (2 ^ 46))
  ∧ recommendation (float_of_Z 80) = "strong_buy"
  ∧ recommendation (float_lit 7999 100) = "buy"
  ∧ recommendation (float_of_Z 40) = "sell".
Proof.
  apply (recommendation_follows_thresholds (float_lit 7999 100)
           (Qmake 5628795846771343 (2 ^ 46))); reflexivity.
Defined.

(** ** The economic dashboard *)

Section TableInvariant.
Context {Ext : Type}.

Lemma rows_kept_refl table : rows_kept table table.
Proof. unfold rows_kept. done. Qed.

Lemma rows_kept_trans t1 t2 t3 : rows_kept t1 t2 → rows_kept t2 t3 → rows_kept t1 t3.
Proof. unfold rows_kept. intros H12 H23. by etrans. Qed.

(** Under the unique key at most one row matches a lookup. *)
Lemma unique_key_filter table key :
  unique_together table →
  filter (λ row, row_key row = key) table = []
  ∨ ∃ row, filter (λ row, row_key row = key) table = [row].
Proof.
  unfold unique_together.
  induction table as [|row table IH]; intros Hnodup; [by left|].
  simpl in Hnodup. apply NoDup_cons in Hnodup as [Hfresh Hnodup].
  rewrite filter_cons. destruct (decide (row_key row = key)) as [Heq|Hne].
  - right. exists row. f_equal.
    destruct (filter (λ row0, row_key row0 = key) table) as [|other rest] eqn:Hfilter;
      [done|].
    exfalso. apply Hfresh.
    assert (other ∈ filter (λ row0, row_key row0 = key) table) as Hin
      by (rewrite Hfilter; apply list_elem_of_here).
    apply list_elem_of_filter in Hin as [Hkey Hin].
    rewrite Heq, <- Hkey. by apply list_elem_of_fmap_2.
  - by apply IH.
Qed.

Lemma filter_nil_key_fresh table key :
  filter (λ row, row_key row = key) table = [] → key ∉ map row_key table.
Proof.
  intros Hfilter Hin. apply list_elem_of_fmap in Hin as [row [-> Hin]].
  assert (row ∈ filter (λ row0, row_key row0 = row_key row) table) as Hrow
    by (by apply list_elem_of_filter).
  rewrite Hfilter in Hrow. by apply elem_of_nil in Hrow.
Qed.

(** Updating the value of the matching rows touches no identity. *)
Lemma map_update_identity table itype d v now :
  map row_identity
      (map (λ row, if decide (row_key row = (itype, d))
                   then mkEconomicIndicator (pk row) itype d v (created_at row) now
                   else row) table)
  = map row_identity table.
Proof.
  rewrite map_map. apply map_ext. intros row.
  destruct (decide (row_key row = (itype, d))) as [Hkey|]; [|done].
  unfold row_identity, row_key in *. simpl. by rewrite Hkey.
Qed.

Lemma unique_together_identity t1 t2 :
  map row_identity t1 = map row_identity t2 → unique_together t1 → unique_together t2.
Proof.
  unfold unique_together. intros Hsame.
  assert (map row_key t1 = map row_key t2) as ->; [|done].
  assert (∀ t, map row_key t = map snd (map row_identity t)) as Hsnd
    by (intros t; by rewrite map_map).
  by rewrite !Hsnd, Hsame.
Qed.

Lemma update_or_create_upserts_only itype d v :
  upserts_only (update_or_create (Ext := Ext) itype d v).
Proof.
  intros w Hunique. unfold update_or_create.
  destruct (unique_key_filter _ (itype, d) Hunique) as [Hnone | [row Hone]].
  - rewrite Hnone.
    destruct (is_nan v); simpl; [split; [done | apply rows_kept_refl]|]. split.
    + unfold unique_together. rewrite map_app. simpl.
      apply NoDup_app. split; [done|]. split.
      * intros key Hin Hin'. apply list_elem_of_singleton in Hin' as ->.
        by apply (filter_nil_key_fresh _ _ Hnone).
      * apply NoDup_singleton.
    + unfold rows_kept. rewrite map_app. by apply prefix_app_r.
  - rewrite Hone.
    destruct (is_nan v); simpl; [split; [done | apply rows_kept_refl]|]. split.
    + eapply unique_together_identity; [|exact Hunique].
      symmetry. apply map_update_identity.
    + unfold rows_kept. by rewrite map_update_identity.
Qed.



(** Saving a value that is no NaN: the call returns, the row of the key
    carries the value, the rows of the other keys are as they were, and a
    key that was stored keeps its row. *)
Lemma update_or_create_saves itype d v (w : World Ext) :
  unique_together (economic_indicators w) →
  is_nan v = false →
  ∃ w',
    update_or_create itype d v w = (Returned tt, w', [])
    ∧ holds_point (economic_indicators w') itype (mkPoint d v)
    ∧ (∀ itype' p, (itype', p_date p) ≠ (itype, d) →
                   holds_point (economic_indicators w) itype' p →
                   holds_point (economic_indicators w') itype' p)
    ∧ ((itype, d) ∈ map row_key (economic_indicators w) →
       map row_identity (economic_indicators w')
       = map row_identity (economic_indicators w)).
Proof.
  intros Hunique Hnan. unfold update_or_create. rewrite Hnan.
  destruct (unique_key_filter _ (itype, d) Hunique) as [Hnone | [row Hone]].
  - rewrite Hnone. eexists. split; [reflexivity|]. cbn [economic_indicators].
    split; [|split].
    + eexists. split; [apply elem_of_app; right; apply list_elem_of_here|]. done.
    + intros itype' p _ (row & Hin & Hkey & Hvalue).
      exists row. split; [|done]. apply elem_of_app. by left.
    + intros Hstored. by apply filter_nil_key_fresh in Hnone.
  - rewrite Hone. eexists. split; [reflexivity|]. cbn [economic_indicators].
    assert (row ∈ filter (λ r, row_key r = (itype, d)) (economic_indicators w)) as Hrow
      by (rewrite Hone; apply list_elem_of_here).
    apply list_elem_of_filter in Hrow as [Hkey Hin].
    split; [|split].
    + eexists. split.
      * apply list_elem_of_fmap. exists row. split; [reflexivity | done].
      * rewrite decide_True by done. done.
    + intros itype' p Hother (other & Hin' & Hkey' & Hvalue).
      exists other. split; [|done].
      apply list_elem_of_fmap. exists other. split; [|done].
      rewrite decide_False; [done|]. congruence.
    + intros _. apply map_update_identity.
Qed.

(** A NaN is refused and nothing is written. *)
Lemma update_or_create_refuses_nan itype d v (w : World Ext) :
  unique_together (economic_indicators w) →
  is_nan v = true →
  ∃ e, update_or_create itype d v w = (Raised e, w, []).
Proof.
  intros Hunique Hnan. unfold update_or_create. rewrite Hnan.
  destruct (unique_key_filter _ (itype, d) Hunique) as [-> | [row ->]]; by eexists.
Qed.

Lemma ret_upserts_only {A} (a : A) : upserts_only (ret (Ext := Ext) a).
Proof. intros w Hunique. split; [done | apply rows_kept_refl]. Qed.

Lemma bind_upserts_only {A B} (m : M Ext A) (k : A → M Ext B) :
  upserts_only m → (∀ a, upserts_only (k a)) → upserts_only (bind m k).
Proof.
  intros Hm Hk w Hunique. unfold bind.
  destruct (Hm w Hunique) as [Hu1 Hk1].
  destruct (m w) as [[[a|e] w1] tr1]; simpl in *; [|done].
  destruct (Hk a w1 Hu1) as [Hu2 Hk2].
  destruct (k a w1) as [[r w2] tr2]; simpl in *.
  split; [done|]. by eapply rows_kept_trans.
Qed.

Lemma try_except_upserts_only {A} (body : M Ext A) handler :
  upserts_only body → (∀ e, upserts_only (handler e)) →
  upserts_only (try_except body handler).
Proof.
  intros Hb Hh w Hunique. unfold try_except.
  destruct (Hb w Hunique) as [Hu1 Hk1].
  destruct (body w) as [[[a|e] w1] tr1]; simpl in *; [done|].
  destruct (Hh e w1 Hu1) as [Hu2 Hk2].
  destruct (handler e w1) as [[r w2] tr2]; simpl in *.
  split; [done|]. by eapply rows_kept_trans.
Qed.

Lemma for_each_upserts_only {A} (xs : list A) (body : A → M Ext unit) :
  (∀ x, upserts_only (body x)) → upserts_only (for_each xs body).
Proof.
  intros Hbody. induction xs as [|x xs IH]; simpl.
  - apply ret_upserts_only.
  - apply bind_upserts_only; [apply Hbody | by intros _].
Qed.

Lemma fold_each_upserts_only {A S} (xs : list A) (body : S → A → M Ext S) acc :
  (∀ acc' x, upserts_only (body acc' x)) → upserts_only (fold_each xs body acc).
Proof.
  intros Hbody. revert acc. induction xs as [|x xs IH]; intros acc; simpl.
  - apply ret_upserts_only.
  - apply bind_upserts_only; [apply Hbody | by intros acc'].
Qed.

(** What leaves the table alone upserts only. *)
Lemma table_untouched_upserts_only {A} (m : M Ext A) :
  (∀ w, economic_indicators (m w).1.2 = economic_indicators w) → upserts_only m.
Proof.
  intros Hsame w Hunique. rewrite Hsame. split; [done | apply rows_kept_refl].
Qed.

Lemma call_provider_upserts_only {A} provider endpoint (remote : Remote Ext A) :
  upserts_only (call_provider provider endpoint remote).
Proof.
  apply table_untouched_upserts_only. intros w. unfold call_provider.
  by destruct (remote (outside w) (clock w)) as [[r ext'] t'].
Qed.

Lemma time_sleep_upserts_only seconds : upserts_only (time_sleep (Ext := Ext) seconds).
Proof. by apply table_untouched_upserts_only. Qed.

Lemma datetime_now_upserts_only : upserts_only (datetime_now (Ext := Ext)).
Proof. by apply table_untouched_upserts_only. Qed.

Lemma read_dashboard_from_db_upserts_only :
  upserts_only (read_dashboard_from_db (Ext := Ext)).
Proof. by apply table_untouched_upserts_only. Qed.

Lemma generate_mock_economic_data_upserts_only :
  upserts_only (generate_mock_economic_data (Ext := Ext)).
Proof. by apply table_untouched_upserts_only. Qed.

End TableInvariant.

Create HintDb upserts discriminated.
#[export] Hint Resolve ret_upserts_only bind_upserts_only try_except_upserts_only
  for_each_upserts_only fold_each_upserts_only update_or_create_upserts_only
  call_provider_upserts_only time_sleep_upserts_only datetime_now_upserts_only
  read_dashboard_from_db_upserts_only generate_mock_economic_data_upserts_only
  : upserts.

Section DashboardProperties.
Context {Ext : Type}.
Variable fred_get_series : string → Z → Z → Remote Ext (list (Z * spec_float)).

Lemma get_economic_indicator_upserts_only args :
  upserts_only (get_economic_indicator fred_get_series args).
Proof.
  unfold get_economic_indicator, rate_limit, get_economic_indicator_body.
  auto 10 with upserts.
Qed.

Lemma fetch_and_save_upserts_only start_date end_date indicators mapping :
  upserts_only (fetch_and_save fred_get_series start_date end_date indicators mapping).
Proof.
  unfold fetch_and_save.
  apply bind_upserts_only; [apply get_economic_indicator_upserts_only|].
  intros [|item data]; auto 10 with upserts.
Qed.

Lemma get_economic_dashboard_upserts_only force_refresh :
  upserts_only (get_economic_dashboard fred_get_series force_refresh).
Proof.
  unfold get_economic_dashboard.
  apply bind_upserts_only; [auto with upserts|]. intros now.
  apply try_except_upserts_only; [|auto with upserts].
  apply bind_upserts_only; [destruct force_refresh; auto with upserts|].
  intros [d|]; [auto with upserts|].
  destruct force_refresh; [auto with upserts|].
  apply bind_upserts_only; [|auto with upserts].
  apply fold_each_upserts_only. intros acc mapping.
  apply fetch_and_save_upserts_only.
Qed.


(** On a table with a unique key a value that is no NaN is saved, and the
    type it was saved for is stored afterwards. *)
Lemma update_or_create_returns itype d v (w : World Ext) :
  unique_together (economic_indicators w) →
  is_nan v = false →
  ∃ w', update_or_create itype d v w = (Returned tt, w', [])
        ∧ unique_together (economic_indicators w')
        ∧ rows_kept (economic_indicators w) (economic_indicators w')
        ∧ ∃ row, row ∈ economic_indicators w' ∧ indicator_type row = itype.
Proof.
  intros Hunique Hnan.
  destruct (update_or_create_upserts_only (Ext := Ext) itype d v w Hunique)
    as [Hunique' Hkept].
  destruct (update_or_create_saves itype d v w Hunique Hnan)
    as (w' & Hsave & (row & Hin & Hkey & _) & _).
  rewrite Hsave in Hunique', Hkept. cbn [fst snd] in Hunique', Hkept.
  exists w'. split; [done|]. split; [done|]. split; [done|].
  exists row. split; [done|]. by apply (f_equal fst) in Hkey.
Qed.


(** A NaN among the points stops the saving loop with an exception. *)
Lemma save_points_raises itype (data : list point) (w : World Ext) :
  unique_together (economic_indicators w) →
  Exists (λ p, is_nan (p_value p) = true) data →
  ∃ e w', for_each data (λ item, update_or_create itype (p_date item) (p_value item)) w
          = (Raised e, w', []).
Proof.
  revert w. induction data as [|item data IH]; intros w Hunique Hnan.
  - by apply Exists_nil in Hnan.
  - cbn [for_each]. destruct (is_nan (p_value item)) eqn:Hitem.
    + destruct (update_or_create_refuses_nan itype (p_date item) (p_value item) w
                  Hunique Hitem) as [e Hraise].
      exists e, w. by apply bind_raised.
    + destruct (update_or_create_returns itype (p_date item) (p_value item) w
                  Hunique Hitem) as (w1 & Hsave & Hunique1 & _).
      rewrite (bind_returned _ _ _ _ _ _ Hsave).
      apply Exists_cons in Hnan as [Hnan|Hnan]; [congruence|].
      destruct (IH w1 Hunique1 Hnan) as (e & w2 & ->). by exists e, w2.
Qed.









End DashboardProperties.


(** The same two runs, evaluated: the first updates the stored row and
    adds seven; the second, which fetches again because GDP is still
    missing, adds none. *)
Example rerun_adds_no_row :
  let w1 := (get_economic_dashboard fred_two_observations false seeded_world).1.2 in
  let w2 := (get_economic_dashboard fred_two_observations false w1).1.2 in
  length (economic_indicators w1) = 8%nat
  ∧ length (economic_indicators w2) = 8%nat
  ∧ map row_identity (economic_indicators w2) = map row_identity (economic_indicators w1)
  ∧ (value <$> head (economic_indicators w1)) = Some (float_of_Z 5)
  ∧ (pk <$> head (economic_indicators w1)) = Some 1
  ∧ Contact "fred" "get_series"
      ∈ (get_economic_dashboard fred_two_observations false w1).2.
Proof.
  vm_compute. repeat split. apply list_elem_of_here.
Qed.

(** ** The mock generator behind [force_refresh] *)

Section MockProperties.
Context {Ext : Type}.
Variable fred_get_series : string → Z → Z → Remote Ext (list (Z * spec_float)).

Lemma mock_points_dates today s indices current_value :
  map p_date (mock_points today s indices current_value)
  = map (λ i, today - i * 30) indices.
Proof.
  revert current_value. induction indices as [|i rest IH]; intros cv; [done|].
  simpl. by rewrite IH.
Qed.

Lemma mock_series_dates today s :
  map p_date (mock_series today s) = map (λ i, today - i * 30) mock_indices.
Proof. apply mock_points_dates. Qed.

Lemma mock_series_length today s : length (mock_series today s) = 13%nat.
Proof.
  rewrite <- (length_map p_date), mock_series_dates. by rewrite length_map.
Qed.

Lemma mock_series_last today s : is_Some (last (mock_series today s)).
Proof.
  destruct (last (mock_series today s)) eqn:Hlast; [by eexists|].
  apply last_None in Hlast. pose proof (mock_series_length today s) as Hlen.
  by rewrite Hlast in Hlen.
Qed.

(** The outer loop over any settings with distinct names. *)
Lemma mock_loop_lookup today (settings : list (string * mock_settings)) itype s :
  NoDup settings.*1 →
  (itype, s) ∈ settings →
  let d := foldl (λ d entry,
                    let series := mock_series today entry.2 in
                    mkDashboard
                      (match last series with
                       | Some p => <[entry.1 := p]> (d_latest d)
                       | None => d_latest d
                       end)
                      (<[entry.1 := series]> (d_historical d)))
                 (mkDashboard ∅ ∅) settings in
  d_historical d !! itype = Some (mock_series today s)
  ∧ d_latest d !! itype = last (mock_series today s).
Proof.
  induction settings as [|[name s'] settings IH] using rev_ind; intros Hnodup Hin.
  - by apply elem_of_nil in Hin.
  - rewrite foldl_app. cbn [foldl fst snd].
    rewrite fmap_app in Hnodup. apply NoDup_app in Hnodup as (Hnodup & Hfresh & _).
    destruct (mock_series_last today s') as [p Hp]. rewrite Hp.
    apply elem_of_app in Hin as [Hin|Hin].
    + assert (name ≠ itype) as Hne.
      { intros ->. apply (Hfresh itype).
        - by apply (list_elem_of_fmap_2 fst _ (itype, s)).
        - simpl. apply list_elem_of_here. }
      cbn [d_historical d_latest]. rewrite !lookup_insert_ne by done. by apply IH.
    + apply list_elem_of_singleton in Hin. inversion Hin; subst.
      cbn [d_historical d_latest]. by rewrite !lookup_insert_eq.
Qed.

Lemma mock_data_settings_names :
  mock_data_settings.*1
  = ["interest_rate"; "unemployment"; "inflation"; "gdp"; "yield_curve"].
Proof. reflexivity. Qed.

Lemma mock_dashboard_lookup today itype s :
  (itype, s) ∈ mock_data_settings →
  d_historical (mock_dashboard today) !! itype = Some (mock_series today s)
  ∧ d_latest (mock_dashboard today) !! itype = last (mock_series today s).
Proof.
  intros Hin. apply mock_loop_lookup; [|done].
  rewrite mock_data_settings_names.
  apply (bool_decide_unpack _). by vm_compute.
Qed.

(** C9. With [force_refresh=True] the dashboard is the mock one for
    today's date: no event happens, so the FRED client is never called,
    and the world is left as it was; each of the five indicators gets 13
    points, dated 30 days apart back from today, the last of them as its
    latest value. *)
Theorem force_refresh_returns_mock_data (w : World Ext) itype s :
  (itype, s) ∈ mock_data_settings →
  get_economic_dashboard fred_get_series true w
    = (Returned (mock_dashboard (date_of_clock (clock w))), w, [])
  ∧ d_historical (mock_dashboard (date_of_clock (clock w))) !! itype
    = Some (mock_series (date_of_clock (clock w)) s)
  ∧ d_latest (mock_dashboard (date_of_clock (clock w))) !! itype
    = last (mock_series (date_of_clock (clock w)) s)
  ∧ length (mock_series (date_of_clock (clock w)) s) = 13%nat
  ∧ map p_date (mock_series (date_of_clock (clock w)) s)
    = map (λ i, date_of_clock (clock w) - i * 30) mock_indices.
Proof.
  intros Hin. split; [reflexivity|].
  destruct (mock_dashboard_lookup (date_of_clock (clock w)) itype s Hin) as [Hh Hl].
  split; [done|]. split; [done|].
  split; [apply mock_series_length | apply mock_series_dates].
Qed.

End MockProperties.

(** On the same table and client, for the GDP series. *)
Lemma force_refresh_returns_mock_data_witness :
  get_economic_dashboard fred_two_observations true seeded_world
    = (Returned (mock_dashboard (date_of_clock (clock seeded_world))), seeded_world, [])
  ∧ length (mock_series (date_of_clock (clock seeded_world))
              (mkMockSettings (float_of_Z 2) (float_of_Z 2) false false)) = 13%nat.
Proof.
  pose proof (force_refresh_returns_mock_data fred_two_observations seeded_world
                "gdp" (mkMockSettings (float_of_Z 2) (float_of_Z 2) false false))
    as Hmock.
  destruct Hmock as (Hrun & _ & _ & Hlen & _).
  - unfold mock_data_settings. do 3 apply list_elem_of_further. apply list_elem_of_here.
  - split; [exact Hrun | exact Hlen].
Defined.

(** ** The definitions, evaluated *)

(** Dates: [date.fromordinal]. *)
Example civil_from_ordinal_examples :
  civil_from_ordinal 1 = (1, 1, 1)
  ∧ civil_from_ordinal 719163 = (1970, 1, 1)
  ∧ civil_from_ordinal 738945 = (2024, 2, 29)
  ∧ civil_from_ordinal 738946 = (2024, 3, 1)
  ∧ civil_from_ordinal 739251 = (2024, 12, 31).
Proof. vm_compute. done. Qed.

(** Literals: the doubles Python reads [0.1], [0.3] and [79.99] as. *)
Example float_lit_examples :
  float_lit 1 10 = S754_finite false 7205759403792794 (-56)
  ∧ float_lit 3 10 = S754_finite false 5404319552844595 (-54)
  ∧ float_lit 7999 100 = S754_finite false 5628795846771343 (-46)
  ∧ float_of_Z 80 = S754_finite false 5629499534213120 (-46).
Proof. vm_compute. done. Qed.

(** The interest-rate series of the mock generator on 2024-01-01: its
    first and last values, 2.75 and 0.1 (the floor). *)
Example mock_series_2024_01_01 :
  (p_value <$> head (mock_series 738886
                       (mkMockSettings (float_of_Z 3) (float_lit 3 2) true false)))
    = Some (float_lit 11 4)
  ∧ (p_value <$> last (mock_series 738886
                         (mkMockSettings (float_of_Z 3) (float_lit 3 2) true false)))
    = Some (float_lit 1 10).
Proof. vm_compute. done. Qed.

(** A score: profit margin 0.25, ROE 0.3, debt to equity 0.4, RSI 25 and a
    rising trend give 100, 80 and 100 for valuation, financial health and
    technical, an overall score of exactly 80 and so a strong buy. *)
Example calculate_scores_example :
  calculate_scores
    (mkScoreInputs (Some (float_lit 1 4)) (Some (float_lit 3 10)) (Some (float_lit 4 10))
       (Some (float_of_Z 25)) (Some (float_of_Z 12)) (Some (float_of_Z 11))
       (Some (float_of_Z 13)))
  = mkInvestmentScore (float_of_Z 100) 50 (float_of_Z 80) 100 50 (float_of_Z 80)
      "strong_buy".
Proof. vm_compute. done. Qed.

(** A NaN score compares false with every threshold and falls to hold. *)
Example recommendation_nan : recommendation S754_nan = "hold".
Proof. reflexivity. Qed.

(** The RSI of a flat series is 0/0, a missing value. *)
Example rsi_14_flat :
  latest (rsi_14 14 (replicate 16 (float_of_Z 100))) = Some S754_nan.
Proof. vm_compute. done. Qed.

(** A raise of the decorated body is not cached: the exception goes to
    the caller and the cache is as before. *)
Example request_cached_raise_not_cached :
  request_cached 300 "broken" show_ticker broken "AAPL" empty_world
  = (Raised "ConnectionError", empty_world, [Invoke "broken" (show_ticker "AAPL")]).
Proof. reflexivity. Qed.

(** * Further properties *)

(** ** Cache keys *)

Section CacheKeys.

Lemma append_inv_head (s a b : string) : s +:+ a = s +:+ b → a = b.
Proof. induction s as [|c s IH]; cbn; intros Heq; [done|]. inversion Heq. auto. Qed.

Lemma length_append (a b : string) :
  String.length (a +:+ b) = (String.length a + String.length b)%nat.
Proof. induction a as [|c a IH]; simpl; [done|]. by rewrite IH. Qed.

Lemma append_inv_tail (a b s : string) : a +:+ s = b +:+ s → a = b.
Proof.
  revert b. induction a as [|c a IH]; intros [|c' b] Heq.
  - done.
  - apply (f_equal String.length) in Heq.
    rewrite !length_append in Heq. simpl in Heq. lia.
  - apply (f_equal String.length) in Heq.
    rewrite !length_append in Heq. simpl in Heq. lia.
  - cbn in Heq. inversion Heq; subst. f_equal. by apply IH.
Qed.

Lemma show_ticker_inj t1 t2 : show_ticker t1 = show_ticker t2 → t1 = t2.
Proof.
  unfold show_ticker. intros Heq.
  apply append_inv_head in Heq. by apply append_inv_tail in Heq.
Qed.

(** A key splits at its first colon into the function name and the rest. *)
Lemma cache_key_inj f1 s1 f2 s2 :
  no_colon f1 = true → no_colon f2 = true →
  cache_key f1 s1 = cache_key f2 s2 → f1 = f2 ∧ s1 = s2.
Proof.
  unfold cache_key. revert f2.
  induction f1 as [|c f1 IH]; intros [|c' f2] Hf1 Hf2 Heq; cbn in *.
  - by inversion Heq.
  - inversion Heq; subst. cbn in Hf2. discriminate.
  - inversion Heq; subst. cbn in Hf1. discriminate.
  - apply andb_true_iff in Hf1 as [_ Hf1]. apply andb_true_iff in Hf2 as [_ Hf2].
    inversion Heq; subst. destruct (IH f2 Hf1 Hf2) as [-> ->]; done.
Qed.

End CacheKeys.

Section CacheIsolation.
Context {Ext : Type}.

(** X1. A result stored for one function and ticker is never served for
    another function or another ticker: the lookup of a different call
    sees the cache as it was before the store.  The tickers are plain
    ones, which Python writes into the key as they are. *)
Theorem cached_result_is_not_shared f1 f2 t1 t2 ttl_seconds result (w : World Ext) :
  no_colon f1 = true → no_colon f2 = true →
  plain_ticker t1 = true → plain_ticker t2 = true →
  (f1, t1) ≠ (f2, t2) →
  cache_key f1 (show_ticker t1) ≠ cache_key f2 (show_ticker t2)
  ∧ live_entry (cache_key f2 (show_ticker t2)) ttl_seconds
      (with_entry (cache_key f1 (show_ticker t1)) result w)
    = live_entry (cache_key f2 (show_ticker t2)) ttl_seconds w.
Proof.
  intros Hf1 Hf2 _ _ Hne.
  assert (cache_key f1 (show_ticker t1) ≠ cache_key f2 (show_ticker t2)) as Hkeys.
  { intros Heq. apply cache_key_inj in Heq as [-> Hshown]; [|done..].
    apply show_ticker_inj in Hshown as ->. done. }
  split; [done|].
  unfold live_entry, with_entry; simpl. by rewrite lookup_insert_ne.
Qed.

(** X2. An exception of the decorated function is not cached: it reaches
    the caller and the wrapper stores nothing, so the next call with the
    same arguments, however soon, runs the function again (a function
    that returns its failure is cached instead).  The function is taken
    not to write the entry of its own key, and the clock not to run
    backwards. *)
Theorem raised_exception_is_not_cached {Args : Type} ttl_seconds fname
    (show : Args → string) (func : Args → M Ext pyval) args (w w1 w2 : World Ext) e tr :
  live_entry (cache_key fname (show args)) ttl_seconds w = None →
  func args w = (Raised e, w1, tr) →
  request_cache w1 !! cache_key fname (show args)
    = request_cache w !! cache_key fname (show args) →
  request_cache w2 !! cache_key fname (show args)
    = request_cache w1 !! cache_key fname (show args) →
  clock w ≤ clock w2 →
  request_cached ttl_seconds fname show func args w
    = (Raised e, w1, Invoke fname (show args) :: tr)
  ∧ request_cached ttl_seconds fname show func args w2
    = match func args w2 with
      | (Returned result, w3, tr') =>
          (Returned result, with_entry (cache_key fname (show args)) result w3,
           Invoke fname (show args) :: tr')
      | (Raised e', w3, tr') => (Raised e', w3, Invoke fname (show args) :: tr')
      end.
Proof.
  intros Hcold Hraise Hbody Hkept Hclock. split.
  - rewrite (request_cached_miss _ _ _ _ _ _ Hcold). by rewrite Hraise.
  - apply request_cached_miss.
    unfold live_entry in *. rewrite Hkept, Hbody.
    destruct (request_cache w !! cache_key fname (show args)) as [[t r]|]; [|done].
    destruct (Z.ltb_spec (clock w - t) (ttl_seconds * 1000000)); [done|].
    destruct (Z.ltb_spec (clock w2 - t) (ttl_seconds * 1000000)); [lia | done].
Qed.

End CacheIsolation.

(** The two company-information functions for two tickers. *)
Lemma cached_result_is_not_shared_witness :
  cache_key "get_company_info" (show_ticker "AAPL")
    ≠ cache_key "get_company_info_sec" (show_ticker "AAPL")
  ∧ live_entry (cache_key "get_company_info_sec" (show_ticker "AAPL")) 300
      (with_entry (cache_key "get_company_info" (show_ticker "AAPL")) PNone empty_world)
    = live_entry (cache_key "get_company_info_sec" (show_ticker "AAPL")) 300 empty_world.
Proof.
  apply (cached_result_is_not_shared "get_company_info" "get_company_info_sec"
           "AAPL" "AAPL" 300 PNone empty_world);
    [reflexivity | reflexivity | reflexivity | reflexivity |].
  intros Heq. inversion Heq.
Defined.

(** A body that raises, called again five seconds later. *)
Lemma raised_exception_is_not_cached_witness :
  request_cached 300 "broken" show_ticker broken "AAPL" empty_world
    = (Raised "ConnectionError", empty_world, [Invoke "broken" (show_ticker "AAPL")])
  ∧ request_cached 300 "broken" show_ticker broken "AAPL" (later 5 empty_world)
    = (Raised "ConnectionError", later 5 empty_world,
       [Invoke "broken" (show_ticker "AAPL")]).
Proof.
  apply (raised_exception_is_not_cached 300 "broken" show_ticker broken "AAPL"
           empty_world empty_world (later 5 empty_world) "ConnectionError" []);
    [reflexivity | reflexivity | reflexivity | reflexivity | vm_compute; discriminate].
Defined.

(** ** When the orchestrators consult Polygon *)

Section FallbackPaths.
Context {Ext : Type}.
Variable get_company_info_sec : string → M Ext pyval.
Variable get_company_info_polygon : string → M Ext pyval.
Variable get_financial_ratios_sec : string → M Ext pyval.
Variable get_financial_ratios : string → M Ext pyval.

(** X3. A complete SEC profile (name, sector, industry and description
    all present) is returned as it is: Polygon is not called and no time
    is slept, whatever Polygon would answer. *)
Theorem complete_sec_profile_skips_polygon ticker (w w1 : World Ext) ci tr1 :
  get_company_info_sec ticker w = (Returned (PDict ci), w1, tr1) →
  truthy (dict_get ci "company_name") = true →
  truthy (dict_get ci "sector") = true →
  truthy (dict_get ci "industry") = true →
  truthy (dict_get ci "description") = true →
  get_company_info_with_fallback_body
      get_company_info_sec get_company_info_polygon ticker w
    = (Returned (PDict ci), w1, tr1).
Proof.
  intros Hsec Hname Hsector Hindustry Hdescription.
  unfold get_company_info_with_fallback_body, try_except, bind at 1.
  rewrite Hsec.
  assert (truthy (PDict ci) = true) as Hdict.
  { simpl. destruct (bool_decide (ci = ∅)) eqn:Hempty; [|done].
    apply bool_decide_eq_true in Hempty as ->. by vm_compute in Hname. }
  rewrite Hdict. unfold bind, lift_outcome; simpl. rewrite Hname.
  unfold missing_fields. rewrite Hsector, Hindustry, Hdescription. simpl.
  by rewrite !app_nil_r.
Qed.

(** X4. When the SEC profile has gaps and the Polygon lookup fails, by
    raising or by returning [None], the SEC profile is returned unchanged:
    a Polygon failure costs no SEC data. *)
Theorem polygon_failure_keeps_sec_profile ticker (w w1 w2 : World Ext) ci tr1 tr2
    (polygon_outcome : outcome pyval) :
  get_company_info_sec ticker w = (Returned (PDict ci), w1, tr1) →
  truthy (dict_get ci "company_name") = true →
  missing_fields ci ≠ [] →
  get_company_info_polygon ticker (later 5 w1) = (polygon_outcome, w2, tr2) →
  provider_failed (polygon_outcome, w2, tr2) →
  get_company_info_with_fallback_body
      get_company_info_sec get_company_info_polygon ticker w
    = (Returned (PDict ci), w2, tr1 ++ tr2).
Proof.
  intros Hsec Hname Hmissing Hpol Hfailed.
  unfold get_company_info_with_fallback_body, try_except at 1, bind at 1.
  rewrite Hsec.
  assert (truthy (PDict ci) = true) as Hdict.
  { simpl. destruct (bool_decide (ci = ∅)) eqn:Hempty; [|done].
    apply bool_decide_eq_true in Hempty as ->. by vm_compute in Hname. }
  rewrite Hdict. unfold bind at 1, lift_outcome; simpl. rewrite Hname.
  destruct (missing_fields ci) as [|field fields]; [done|].
  unfold bind, fill_from_polygon, try_except, bind, time_sleep, ret.
  rewrite Hpol. unfold provider_failed in Hfailed. simpl in Hfailed.
  destruct polygon_outcome as [v|e]; simpl.
  - subst v. simpl. by rewrite !app_nil_r.
  - by rewrite !app_nil_r.
Qed.

(** X5. The two orchestrators differ when the SEC function itself raises:
    the company-information one returns [None] without calling Polygon,
    the ratios one waits 15 seconds and returns what Polygon returns
    ([None] if Polygon raises too). *)
Theorem sec_exception_paths ticker (w w1 wr w2 : World Ext) e er tr1 trr tr2
    (polygon_outcome : outcome pyval) :
  get_company_info_sec ticker w = (Raised e, w1, tr1) →
  get_financial_ratios_sec ticker w = (Raised er, wr, trr) →
  get_financial_ratios ticker (later 15 wr) = (polygon_outcome, w2, tr2) →
  get_company_info_with_fallback_body
      get_company_info_sec get_company_info_polygon ticker w
    = (Returned PNone, w1, tr1)
  ∧ get_financial_ratios_with_fallback_body
      get_financial_ratios_sec get_financial_ratios ticker w
    = (Returned match polygon_outcome with
                | Returned polygon_result => polygon_result
                | Raised _ => PNone
                end, w2, trr ++ tr2).
Proof.
  intros Hsec Hrsec Hpol. split.
  - unfold get_company_info_with_fallback_body, try_except, bind at 1.
    rewrite Hsec. unfold ret. by rewrite app_nil_r.
  - unfold get_financial_ratios_with_fallback_body, try_except at 1, bind at 1.
    rewrite Hrsec. unfold try_except, bind, time_sleep, ret. rewrite Hpol.
    destruct polygon_outcome; simpl; by rewrite ?app_nil_r.
Qed.

End FallbackPaths.

Section MergeAlgebra.

(** X6. Merging the same Polygon profile a second time changes nothing,
    and a merge keeps every key of the SEC profile and adds only keys of
    the Polygon profile. *)
Theorem merge_polygon_idempotent (ci pinfo : gmap string pyval) :
  merge_polygon (merge_polygon ci pinfo) pinfo = merge_polygon ci pinfo
  ∧ dom ci ⊆ dom (merge_polygon ci pinfo)
  ∧ dom (merge_polygon ci pinfo) ⊆ dom ci ∪ dom pinfo.
Proof.
  split; [|split].
  - apply map_eq. intros key. rewrite !merge_polygon_lookup.
    destruct (pinfo !! key) as [value|] eqn:Hp; [|done].
    destruct (is_none value) eqn:Hnone; simpl; [by rewrite !andb_false_r|].
    rewrite !andb_true_r.
    unfold dict_get at 1. rewrite merge_polygon_lookup, Hp, Hnone, andb_true_r.
    destruct (truthy (dict_get ci key)) eqn:Hsec; simpl.
    + unfold dict_get in Hsec. by rewrite Hsec.
    + by destruct (truthy value).
  - intros key Hin. apply elem_of_dom in Hin as [v Hv]. apply elem_of_dom.
    rewrite merge_polygon_lookup.
    destruct (pinfo !! key) as [value|]; [|by eexists].
    destruct (negb (truthy (dict_get ci key)) && negb (is_none value)); by eexists.
  - intros key Hin. apply elem_of_dom in Hin as [v Hv].
    rewrite merge_polygon_lookup in Hv. apply elem_of_union.
    destruct (pinfo !! key) as [value|] eqn:Hp.
    + right. by apply elem_of_dom.
    + left. by apply elem_of_dom.
Qed.

End MergeAlgebra.

Section PolygonProfileShape.
Context {Ext : Type}.
Variable polygon_get_ticker_details : string → Remote Ext pyval.

(** X7. Whatever the Polygon client does, [get_company_info]'s body
    returns, and what it returns is [None] or a profile with exactly the
    ten fields, the ticker as its symbol and a non-empty company name. *)
Theorem polygon_profile_is_none_or_complete ticker (w : World Ext) :
  ∃ v w' tr,
    get_company_info_body polygon_get_ticker_details ticker w = (Returned v, w', tr)
    ∧ (v = PNone
       ∨ ∃ d, v = PDict d
              ∧ dom d = list_to_set
                  [ "stock_symbol"; "company_name"; "sector"; "industry";
                    "description"; "country"; "market_cap"; "website";
                    "logo_url"; "employee_count" ]
              ∧ d !! "stock_symbol" = Some (PStr ticker)
              ∧ truthy (dict_get d "company_name") = true).
Proof.
  unfold get_company_info_body, try_except, bind, call_provider, ret.
  destruct (polygon_get_ticker_details ticker (outside w) (clock w))
    as [[[details|e] ext'] t']; simpl; [|by eexists _, _, _; split; [|left]].
  destruct (py_hasattr details "name"); simpl;
    [|by eexists _, _, _; split; [|left]].
  destruct (truthy (dict_get (polygon_company_data ticker details) "company_name"))
    eqn:Hname; simpl; [|by eexists _, _, _; split; [|left]].
  eexists _, _, _. split; [done|]. right. eexists. split; [done|].
  split; [|split; [|done]].
  - unfold polygon_company_data. by rewrite dom_list_to_map_L.
  - done.
Qed.

End PolygonProfileShape.

(** On a complete profile, with a Polygon function that would raise. *)
Lemma complete_sec_profile_skips_polygon_witness :
  get_company_info_with_fallback_body (answers (PDict sec_complete)) broken
      "ACME" empty_world
    = (Returned (PDict sec_complete), empty_world, []).
Proof.
  apply (complete_sec_profile_skips_polygon (answers (PDict sec_complete)) broken
           "ACME" empty_world empty_world sec_complete []); reflexivity.
Defined.

(** On the Acme SEC profile, with Polygon down. *)
Lemma polygon_failure_keeps_sec_profile_witness :
  get_company_info_with_fallback_body (answers (PDict sec_acme)) broken
      "ACME" empty_world
    = (Returned (PDict sec_acme), later 5 empty_world, []).
Proof.
  apply (polygon_failure_keeps_sec_profile (answers (PDict sec_acme)) broken
           "ACME" empty_world empty_world (later 5 empty_world) sec_acme [] []
           (Raised "ConnectionError")).
  - reflexivity.
  - reflexivity.
  - vm_compute. discriminate.
  - reflexivity.
  - exact I.
Defined.

(** With both SEC functions raising and Polygon answering. *)
Lemma sec_exception_paths_witness :
  get_company_info_with_fallback_body broken (answers (PDict polygon_acme))
      "ACME" empty_world
    = (Returned PNone, empty_world, [])
  ∧ get_financial_ratios_with_fallback_body broken (answers polygon_ratios)
      "ACME" empty_world
    = (Returned polygon_ratios, later 15 empty_world, []).
Proof.
  apply (sec_exception_paths broken (answers (PDict polygon_acme)) broken
           (answers polygon_ratios) "ACME" empty_world empty_world empty_world
           (later 15 empty_world) "ConnectionError" "ConnectionError" [] [] []
           (Returned polygon_ratios)); reflexivity.
Defined.

(** ** The RSI at its other ends, and the scores built on it *)

Section ScoreProperties.

Lemma flt_fle a b : flt a b = true → fle a b = true.
Proof.
  unfold flt, fle, SFltb, SFleb. by destruct (SFcompare a b) as [[]|].
Qed.

(** [min(hi, max(0, x))] lies between 0 and [hi], whatever [x] is. *)
Lemma py_min_max_range hi x :
  fle (float_of_Z 0) hi = true → fle hi hi = true →
  fle (float_of_Z 0) (py_min hi (py_max (float_of_Z 0) x)) = true
  ∧ fle (py_min hi (py_max (float_of_Z 0) x)) hi = true.
Proof.
  intros H0 Hhi. unfold py_min, py_max.
  destruct (flt (float_of_Z 0) x) eqn:Hx.
  - destruct (flt x hi) eqn:Hxhi; [|done].
    split; by apply flt_fle.
  - destruct (flt (float_of_Z 0) hi) eqn:Hlt; [|done].
    split; [reflexivity | done].
Qed.

Lemma clamp_100_range x :
  fle (float_of_Z 0) (clamp 100 x) = true ∧ fle (clamp 100 x) (float_of_Z 100) = true.
Proof. by apply py_min_max_range. Qed.

(** X8. A price history of fewer than 50 rows never earns or loses trend
    points (its 50-day average is missing, and a missing value fails both
    trend tests), and one of fewer than 14 rows has a technical score of
    exactly 50: its missing RSI is counted as neutral, not as absent. *)
Theorem short_history_technical_score (close : series) profit_margin roe debt_to_equity :
  close ≠ [] →
  ((length close < 50)%nat →
   trend_points (indicator_inputs close profit_margin roe debt_to_equity) = 0)
  ∧ ((length close < 14)%nat →
     technical_score (indicator_inputs close profit_margin roe debt_to_equity) = 50).
Proof.
  intros Hne.
  assert ((length close < 50)%nat →
          trend_points (indicator_inputs close profit_margin roe debt_to_equity) = 0)
    as Htrend.
  { intros Hshort. unfold trend_points, indicator_inputs; simpl.
    rewrite (latest_rolling_mean_short 50 close Hne Hshort).
    destruct (latest (rolling_mean 20 close)) as [sma_20|]; [|done].
    destruct (latest close) as [c|]; [|done].
    destruct (float_truthy sma_20 && float_truthy S754_nan && float_truthy c); [|done].
    assert (flt S754_nan sma_20 = false) as -> by done.
    assert (flt sma_20 S754_nan = false) as -> by by destruct sma_20.
    by rewrite !andb_false_r. }
  split; [done|].
  intros Hshort. unfold technical_score. rewrite Htrend by lia.
  unfold rsi_points, indicator_inputs; simpl.
  by rewrite (latest_rsi_14_short 14 close Hne Hshort).
Qed.

(** X9. Whatever the ratios and indicators are, missing values and
    infinities included, the valuation, financial-health and technical
    scores lie between 0 and 100 and are never NaN. *)
Theorem component_scores_within_0_100 (i : score_inputs) :
  fle (float_of_Z 0) (valuation_score i) = true
  ∧ fle (valuation_score i) (float_of_Z 100) = true
  ∧ fle (float_of_Z 0) (financial_health_score i) = true
  ∧ fle (financial_health_score i) (float_of_Z 100) = true
  ∧ 0 ≤ technical_score i ≤ 100.
Proof.
  split; [|split; [|split; [|split]]].
  - unfold valuation_score. destruct (in_profit_margin i); [|done].
    apply clamp_100_range.
  - unfold valuation_score. destruct (in_profit_margin i); [|done].
    apply clamp_100_range.
  - apply clamp_100_range.
  - apply clamp_100_range.
  - unfold technical_score. lia.
Qed.

(** X10. The latest RSI is exactly 0 when the trailing average gain is
    zero and the trailing average loss is positive, and it is missing
    (NaN, from 0/0) when both are zero, as on a flat price. *)
Theorem rsi_14_zero_gain (window : nat) (close : series) g l :
  latest (gain window close) = Some g →
  latest (loss window close) = Some l →
  is_zero g = true →
  (flt (S754_zero false) l = true →
   latest (rsi_14 window close) = Some (S754_zero false))
  ∧ (is_zero l = true → latest (rsi_14 window close) = Some S754_nan).
Proof.
  intros Hg Hl Hzero. rewrite (latest_rsi_14 _ _ _ _ Hg Hl).
  destruct g as [sg| | |]; try discriminate. split.
  - intros Hpos.
    destruct l as [sl|sl| |sl ml el]; try discriminate;
      destruct sl; try discriminate; by destruct sg.
  - intros Hl0. destruct l as [sl| | |]; try discriminate. reflexivity.
Qed.

End ScoreProperties.

(** On a history of thirteen rows. *)
Lemma short_history_technical_score_witness :
  ((length short_closes < 50)%nat →
   trend_points (indicator_inputs short_closes None None None) = 0)
  ∧ ((length short_closes < 14)%nat →
     technical_score (indicator_inputs short_closes None None None) = 50).
Proof.
  apply (short_history_technical_score short_closes None None None).
  vm_compute. discriminate.
Defined.

(** On fourteen falling closes and on a flat price. *)
Lemma rsi_14_zero_gain_witness :
  latest (rsi_14 14 falling_closes) = Some (S754_zero false)
  ∧ latest (rsi_14 14 flat_closes) = Some S754_nan.
Proof.
  split.
  - apply (rsi_14_zero_gain 14 falling_closes (S754_zero false)
             (S754_finite false 8363827879402350 (-53)));
      reflexivity.
  - apply (rsi_14_zero_gain 14 flat_closes (S754_zero false) (S754_zero true));
      reflexivity.
Defined.

(** ** More of the economic dashboard *)

Section MockFloor.

Lemma py_max_floor lo x : fle lo lo = true → fle lo (py_max lo x) = true.
Proof.
  intros Hlo. unfold py_max. destruct (flt lo x) eqn:Hx; [|done].
  by apply flt_fle.
Qed.

Lemma mock_points_floor today s indices current_value :
  allow_negative s = false →
  Forall (λ p, fle (float_lit 1 10) (p_value p) = true)
         (mock_points today s indices current_value).
Proof.
  intros Hfloor. revert current_value.
  induction indices as [|i rest IH]; intros current_value; simpl; [constructor|].
  rewrite Hfloor. constructor; [|apply IH].
  simpl. by apply py_max_floor.
Qed.

(** X11. In the mock data every value of an indicator that may not go
    negative (all but the yield curve) is at least 0.1 and never NaN, on
    every date and whatever the start value and volatility are; so is the
    latest value shown for it. *)
Theorem mock_values_stay_above_floor today itype s historical :
  (itype, s) ∈ mock_data_settings →
  allow_negative s = false →
  d_historical (mock_dashboard today) !! itype = Some historical →
  Forall (λ p, fle (float_lit 1 10) (p_value p) = true) historical
  ∧ ∃ p, d_latest (mock_dashboard today) !! itype = Some p
         ∧ fle (float_lit 1 10) (p_value p) = true.
Proof.
  intros Hin Hfloor Hhist.
  destruct (mock_dashboard_lookup today itype s Hin) as [Hh Hl].
  rewrite Hh in Hhist. injection Hhist as <-.
  pose proof (mock_points_floor today s mock_indices (start_value s) Hfloor) as Hall.
  split; [exact Hall|].
  destruct (mock_series_last today s) as [p Hp].
  exists p. split; [by rewrite Hl|].
  rewrite Forall_forall in Hall. apply Hall.
  rewrite last_lookup in Hp. by apply list_elem_of_lookup_2 in Hp.
Qed.

End MockFloor.

Section StoredDashboard.
Context {Ext : Type}.
Variable fred_get_series : string → Z → Z → Remote Ext (list (Z * spec_float)).

(** The newest of [best] and the rows that follow is one of them, and no
    older than any. *)
Lemma newest_row_spec rows best :
  ∃ row,
    foldl (λ best row,
             match best with
             | None => Some row
             | Some b => if date b <? date row then Some row else Some b
             end) (Some best) rows = Some row
    ∧ (row = best ∨ row ∈ rows)
    ∧ date best ≤ date row
    ∧ ∀ r, r ∈ rows → date r ≤ date row.
Proof.
  revert best. induction rows as [|r rows IH]; intros best; simpl.
  - exists best. split; [done|]. split; [by left|]. split; [lia|].
    intros r Hr. by apply elem_of_nil in Hr.
  - destruct (Z.ltb_spec (date best) (date r)) as [Hlt|Hge].
    + destruct (IH r) as (row & Hrow & Hin & Hle & Hmax).
      exists row. split; [done|]. split.
      { right. destruct Hin as [->|Hin]; [apply list_elem_of_here|].
        by apply list_elem_of_further. }
      split; [lia|].
      intros r' Hr'. apply elem_of_cons in Hr' as [->|Hr']; [done|]. by apply Hmax.
    + destruct (IH best) as (row & Hrow & Hin & Hle & Hmax).
      exists row. split; [done|]. split.
      { destruct Hin as [->|Hin]; [by left|]. right. by apply list_elem_of_further. }
      split; [done|].
      intros r' Hr'. apply elem_of_cons in Hr' as [->|Hr']; [lia|]. by apply Hmax.
Qed.

Lemma latest_row_None itype table :
  latest_row itype table = None ↔ ∀ row, row ∈ table → indicator_type row ≠ itype.
Proof.
  unfold latest_row. split.
  - intros Hnone row Hin Htype.
    assert (row ∈ filter (λ row, indicator_type row = itype) table) as Hrow
      by (by apply list_elem_of_filter).
    destruct (filter (λ row, indicator_type row = itype) table) as [|r rows];
      [by apply elem_of_nil in Hrow|].
    simpl in Hnone. destruct (newest_row_spec rows r) as (x & Hx & _).
    simpl in Hx. congruence.
  - intros Hnone.
    destruct (filter (λ row, indicator_type row = itype) table) as [|r rows] eqn:Hf;
      [done|].
    assert (r ∈ filter (λ row, indicator_type row = itype) table) as Hr
      by (rewrite Hf; apply list_elem_of_here).
    apply list_elem_of_filter in Hr as [Htype Hin]. by destruct (Hnone r Hin).
Qed.

Lemma latest_row_Some itype table row :
  latest_row itype table = Some row →
  row ∈ table ∧ indicator_type row = itype
  ∧ ∀ r, r ∈ table → indicator_type r = itype → date r ≤ date row.
Proof.
  unfold latest_row. intros Hlatest.
  destruct (filter (λ row, indicator_type row = itype) table) as [|b rows] eqn:Hf;
    [done|].
  simpl in Hlatest. destruct (newest_row_spec rows b) as (x & Hx & Hin & Hle & Hmax).
  simpl in Hx. rewrite Hx in Hlatest. injection Hlatest as ->.
  assert (∀ r, r ∈ b :: rows ↔ indicator_type r = itype ∧ r ∈ table) as Hrows.
  { intros r. by rewrite <- Hf, list_elem_of_filter. }
  assert (row ∈ b :: rows) as Hrow.
  { destruct Hin as [->|Hin]; [apply list_elem_of_here | by apply list_elem_of_further]. }
  apply Hrows in Hrow as [Htype Htable]. split; [done|]. split; [done|].
  intros r Hr Hrt.
  assert (r ∈ b :: rows) as Hr' by (by apply Hrows).
  apply elem_of_cons in Hr' as [->|Hr']; [done | by apply Hmax].
Qed.

(** What the reading loop leaves under a name. *)
Lemma db_loop_lookup today table itype :
  d_latest (dashboard_from_db today table) !! itype
    = (if decide (itype ∈ indicator_mappings.*1)
       then point_of_row <$> latest_row itype table else None)
  ∧ d_historical (dashboard_from_db today table) !! itype
    = (if decide (itype ∈ indicator_mappings.*1)
       then match latest_row itype table,
                  map point_of_row (historical_rows itype (today - 365) table) with
            | Some _, p :: ps => Some (p :: ps)
            | _, _ => None
            end
       else None).
Proof.
  unfold dashboard_from_db. generalize indicator_mappings as mappings.
  induction mappings as [|[name code] mappings IH] using rev_ind.
  - simpl. split; by rewrite ?lookup_empty.
  - rewrite foldl_app. cbn [foldl fst snd]. cbv zeta in IH |- *. destruct IH as [IHl IHh].
    rewrite fmap_app. cbn [fmap list_fmap fst].
    destruct (decide (name = itype)) as [->|Hne].
    + destruct (decide (itype ∈ mappings.*1 ++ [itype])) as [_|Hout];
        [|destruct Hout; apply elem_of_app; right; apply list_elem_of_here].
      destruct (latest_row itype table) as [row|] eqn:Hlatest.
      * cbn [d_historical d_latest]. rewrite lookup_insert_eq. split; [done|].
        destruct (map point_of_row (historical_rows itype (today - 365) table)) eqn:Hh.
        -- cbn [d_historical]. rewrite IHh, ?Hlatest, ?Hh.
           by destruct (decide (itype ∈ mappings.*1)).
        -- by rewrite lookup_insert_eq.
      * rewrite IHl, IHh. by destruct (decide (itype ∈ mappings.*1)).
    + assert ((if decide (itype ∈ mappings.*1 ++ [name]) then true else false)
              = (if decide (itype ∈ mappings.*1) then true else false)) as Hsame.
      { destruct (decide (itype ∈ mappings.*1 ++ [name])) as [Hin|Hout];
          destruct (decide (itype ∈ mappings.*1)) as [Hin'|Hout']; try done.
        - apply elem_of_app in Hin as [?|Hin]; [done|].
          by apply list_elem_of_singleton in Hin.
        - destruct Hout. apply elem_of_app. by left. }
      assert (∀ (A : Type) (x y : A),
                (if decide (itype ∈ mappings.*1 ++ [name]) then x else y)
                = (if decide (itype ∈ mappings.*1) then x else y)) as Hif.
      { intros A x y.
        destruct (decide (itype ∈ mappings.*1 ++ [name]));
          destruct (decide (itype ∈ mappings.*1)); done. }
      rewrite !Hif.
      destruct (latest_row name table) as [row|]; [|done].
      cbn [d_historical d_latest]. rewrite lookup_insert_ne by done.
      split; [done|].
      destruct (map point_of_row (historical_rows name (today - 365) table)); [done|].
      by rewrite lookup_insert_ne.
Qed.


Lemma latest_row_stored itype table :
  (∃ row, row ∈ table ∧ indicator_type row = itype) →
  ∃ row, latest_row itype table = Some row.
Proof.
  intros (row & Hin & Htype).
  destruct (latest_row itype table) as [best|] eqn:Hlatest; [by eexists|].
  rewrite latest_row_None in Hlatest. by destruct (Hlatest row Hin).
Qed.

Lemma db_latest_size today table :
  (size (d_latest (dashboard_from_db today table)) =? length indicator_mappings)%nat
  = forallb (λ mapping, bool_decide (is_Some (latest_row mapping.1 table)))
            indicator_mappings.
Proof.
  unfold dashboard_from_db, indicator_mappings. cbn [foldl fst snd forallb].
  destruct (latest_row "interest_rate" table), (latest_row "unemployment" table),
    (latest_row "inflation" table), (latest_row "gdp" table),
    (latest_row "yield_curve" table); cbn [d_latest]; reflexivity.
Qed.

(** With a row for each indicator the reading block finds all five. *)
Lemma read_dashboard_complete (w : World Ext) :
  (∀ itype, itype ∈ indicator_mappings.*1 →
            ∃ row, row ∈ economic_indicators w ∧ indicator_type row = itype) →
  read_dashboard_from_db w
    = (Returned (Some (dashboard_from_db (date_of_clock (clock w))
                         (economic_indicators w))), w, []).
Proof.
  intros Hstored. unfold read_dashboard_from_db. rewrite db_latest_size.
  assert (forallb (λ mapping,
                     bool_decide (is_Some (latest_row mapping.1 (economic_indicators w))))
                  indicator_mappings = true) as ->; [|done].
  apply forallb_forall. intros [itype code] Hin. apply bool_decide_eq_true.
  destruct (latest_row_stored itype (economic_indicators w)) as [row Hrow];
    [|simpl; by rewrite Hrow].
  apply Hstored. apply (list_elem_of_fmap_2 fst _ (itype, code)).
  by apply list_elem_of_In.
Qed.

(** X12. Once the table holds at least one row for each of the five
    indicators, however old, a call without [force_refresh] answers from
    the table alone: FRED is not contacted, nothing is written and no
    time passes. *)
Theorem stored_indicators_served_without_fred (w : World Ext) :
  (∀ itype, itype ∈ indicator_mappings.*1 →
            ∃ row, row ∈ economic_indicators w ∧ indicator_type row = itype) →
  get_economic_dashboard fred_get_series false w
    = (Returned (dashboard_from_db (date_of_clock (clock w)) (economic_indicators w)),
       w, []).
Proof.
  intros Hstored.
  unfold get_economic_dashboard, bind at 1, datetime_now, try_except.
  rewrite (bind_returned _ _ _ _ _ _ (read_dashboard_complete w Hstored)).
  reflexivity.
Qed.

Lemma get_economic_indicator_outage args (w : World Ext) :
  (∀ series_id observation_start observation_end ext t,
     ∃ exn ext' t',
       fred_get_series series_id observation_start observation_end ext t
       = (Raised exn, ext', t')) →
  ∃ w', get_economic_indicator fred_get_series args w
        = (Returned [], w', [Contact "fred" "get_series"])
        ∧ economic_indicators w' = economic_indicators w.
Proof.
  intros Hdown.
  unfold get_economic_indicator, rate_limit, get_economic_indicator_body,
    bind, time_sleep, try_except, call_provider, ret. simpl.
  destruct (Hdown args.1.1 args.1.2 args.2 (outside w) (clock w + 1 * 1000000))
    as (exn & ext' & t' & ->).
  simpl. by eexists.
Qed.

Lemma fetch_loop_outage start_date end_date mappings indicators (w : World Ext) :
  (∀ series_id observation_start observation_end ext t,
     ∃ exn ext' t',
       fred_get_series series_id observation_start observation_end ext t
       = (Raised exn, ext', t')) →
  ∃ w', fold_each mappings (fetch_and_save fred_get_series start_date end_date)
                  indicators w
        = (Returned indicators, w',
           replicate (length mappings) (Contact "fred" "get_series"))
        ∧ economic_indicators w' = economic_indicators w.
Proof.
  intros Hdown. revert w.
  induction mappings as [|mapping mappings IH]; intros w; [by eexists|].
  cbn [fold_each]. unfold bind at 1, fetch_and_save at 1, bind at 1.
  destruct (get_economic_indicator_outage (mapping.2, start_date, end_date) w Hdown)
    as (w1 & -> & Htable1).
  unfold ret at 1.
  destruct (IH w1) as (w2 & -> & Htable2).
  exists w2. split; [done | congruence].
Qed.

(** X13. When some indicator has no stored row and every FRED request
    fails, a call without [force_refresh] returns an empty dashboard, not
    the mock one: each of the five failures is absorbed by
    [get_economic_indicator], FRED is contacted five times and the table
    is left as it was. *)
Theorem fred_outage_gives_empty_dashboard (w : World Ext) itype :
  itype ∈ indicator_mappings.*1 →
  (∀ row, row ∈ economic_indicators w → indicator_type row ≠ itype) →
  (∀ series_id observation_start observation_end ext t,
     ∃ exn ext' t',
       fred_get_series series_id observation_start observation_end ext t
       = (Raised exn, ext', t')) →
  ∃ w',
    get_economic_dashboard fred_get_series false w
      = (Returned (mkDashboard ∅ ∅), w', replicate 5 (Contact "fred" "get_series"))
    ∧ economic_indicators w' = economic_indicators w.
Proof.
  intros Hname Hmissing Hdown.
  unfold get_economic_dashboard, bind at 1, datetime_now, try_except, bind at 1,
    read_dashboard_from_db.
  rewrite db_latest_size.
  assert (forallb (λ mapping,
                     bool_decide (is_Some (latest_row mapping.1 (economic_indicators w))))
                  indicator_mappings = false) as ->.
  { apply not_true_is_false. intros Hall.
    apply list_elem_of_fmap in Hname as ([name code] & -> & Hin).
    rewrite forallb_forall in Hall.
    specialize (Hall (name, code)). rewrite <- list_elem_of_In in Hall.
    apply Hall, bool_decide_eq_true in Hin as [row Hrow].
    apply latest_row_Some in Hrow as (Hrow & Htype & _).
    by destruct (Hmissing row Hrow). }
  unfold bind.
  destruct (fetch_loop_outage (date_of_clock (clock w) - 365) (date_of_clock (clock w))
              indicator_mappings ∅ w Hdown) as (w' & -> & Htable).
  exists w'. unfold ret. rewrite omap_empty. split; [|done].
  by rewrite app_nil_r.
Qed.

Lemma historical_rows_nil itype since table :
  historical_rows itype since table = []
  ↔ ∀ r, r ∈ table → indicator_type r = itype → date r < since.
Proof.
  unfold historical_rows.
  pose proof (merge_sort_Permutation date_le
                (filter (λ row, indicator_type row = itype ∧ since ≤ date row) table))
    as Hperm.
  split.
  - intros Hnil r Hin Htype. rewrite Hnil in Hperm.
    apply Permutation_nil_l in Hperm.
    destruct (Z.lt_ge_cases (date r) since) as [|Hge]; [done|].
    assert (r ∈ filter (λ row, indicator_type row = itype ∧ since ≤ date row) table)
      as Hr by (by apply list_elem_of_filter).
    rewrite <- Hperm in Hr. by apply elem_of_nil in Hr.
  - intros Hold.
    destruct (merge_sort date_le _) as [|r rows] eqn:Hsorted; [done|].
    assert (r ∈ filter (λ row, indicator_type row = itype ∧ since ≤ date row) table)
      as Hr by (rewrite <- Hperm; apply list_elem_of_here).
    apply list_elem_of_filter in Hr as [[Htype Hdate] Hin].
    specialize (Hold r Hin Htype). lia.
Qed.

(** X14. The latest value the stored dashboard shows for an indicator
    is that of its newest row, whatever its age; the indicator has no
    historical entry exactly when that row is more than 365 days old. *)
Theorem stored_latest_is_newest_row today table itype p :
  d_latest (dashboard_from_db today table) !! itype = Some p →
  ∃ row,
    p = point_of_row row ∧ row ∈ table ∧ indicator_type row = itype
    ∧ (∀ r, r ∈ table → indicator_type r = itype → date r ≤ date row)
    ∧ (d_historical (dashboard_from_db today table) !! itype = None
       ↔ date row < today - 365).
Proof.
  intros Hp.
  destruct (db_loop_lookup today table itype) as [Hl Hh].
  rewrite Hl in Hp. rewrite Hh. clear Hl Hh.
  destruct (decide (itype ∈ indicator_mappings.*1)); [|done].
  destruct (latest_row itype table) as [row|] eqn:Hlatest; [|done].
  injection Hp as <-.
  destruct (latest_row_Some _ _ _ Hlatest) as (Hin & Htype & Hmax).
  exists row. do 4 (split; [done|]).
  destruct (historical_rows itype (today - 365) table) as [|r rows] eqn:Hrows; simpl.
  - split; [|done]. intros _. rewrite historical_rows_nil in Hrows. by apply Hrows.
  - split; [done|]. intros Hold.
    assert (historical_rows itype (today - 365) table = []) as Hnil; [|congruence].
    apply historical_rows_nil. intros r' Hr' Htype'. specialize (Hmax r' Hr' Htype'). lia.
Qed.

End StoredDashboard.

(** For the GDP series on 1970-01-01. *)
Lemma mock_values_stay_above_floor_witness :
  Forall (λ p, fle (float_lit 1 10) (p_value p) = true)
         (mock_series 719163 (mkMockSettings (float_of_Z 2) (float_of_Z 2) false false))
  ∧ ∃ p, d_latest (mock_dashboard 719163) !! "gdp" = Some p
         ∧ fle (float_lit 1 10) (p_value p) = true.
Proof.
  apply (mock_values_stay_above_floor 719163 "gdp"
           (mkMockSettings (float_of_Z 2) (float_of_Z 2) false false)).
  - unfold mock_data_settings. do 3 apply list_elem_of_further. apply list_elem_of_here.
  - reflexivity.
  - vm_compute. reflexivity.
Defined.

(** On a table whose rows are all three years old, with FRED down. *)
Lemma stored_indicators_served_without_fred_witness :
  get_economic_dashboard fred_down false stale_world
    = (Returned (dashboard_from_db (date_of_clock (clock stale_world))
                   (economic_indicators stale_world)),
       stale_world, []).
Proof.
  apply (stored_indicators_served_without_fred fred_down stale_world).
  intros itype Hin. unfold indicator_mappings in Hin. simpl in Hin.
  repeat (apply elem_of_cons in Hin as [->|Hin]);
    [ exists (mkEconomicIndicator 1 "interest_rate" 718068 (float_of_Z 4) 0 0)
    | exists (mkEconomicIndicator 2 "unemployment" 718068 (float_of_Z 5) 0 0)
    | exists (mkEconomicIndicator 3 "inflation" 718068 (float_of_Z 3) 0 0)
    | exists (mkEconomicIndicator 4 "gdp" 718068 (float_of_Z 2) 0 0)
    | exists (mkEconomicIndicator 5 "yield_curve" 718068 (float_of_Z 1) 0 0)
    | by apply elem_of_nil in Hin ];
    (split; [|reflexivity]); simpl;
    repeat (first [apply list_elem_of_here | apply list_elem_of_further]).
Defined.

(** On a table with an interest-rate row only, with FRED down. *)
Lemma fred_outage_gives_empty_dashboard_witness :
  ∃ w',
    get_economic_dashboard fred_down false seeded_world
      = (Returned (mkDashboard ∅ ∅), w', replicate 5 (Contact "fred" "get_series"))
    ∧ economic_indicators w' = economic_indicators seeded_world.
Proof.
  apply (fred_outage_gives_empty_dashboard fred_down seeded_world "gdp").
  - unfold indicator_mappings. simpl.
    do 3 apply list_elem_of_further. apply list_elem_of_here.
  - intros row Hin. simpl in Hin. apply list_elem_of_singleton in Hin as ->.
    simpl. discriminate.
  - intros series_id observation_start observation_end ext t.
    exists "ConnectionError", ext, (t + 300000). reflexivity.
Defined.

(** On the interest-rate row of the seeded table. *)
Lemma stored_latest_is_newest_row_witness :
  ∃ row,
    mkPoint 719162 (float_of_Z 4) = point_of_row row
    ∧ row ∈ economic_indicators seeded_world
    ∧ indicator_type row = "interest_rate"
    ∧ (∀ r, r ∈ economic_indicators seeded_world →
            indicator_type r = "interest_rate" → date r ≤ date row)
    ∧ (d_historical (dashboard_from_db 719163 (economic_indicators seeded_world))
         !! "interest_rate" = None
       ↔ date row < 719163 - 365).
Proof.
  apply (stored_latest_is_newest_row 719163 (economic_indicators seeded_world)
           "interest_rate" (mkPoint 719162 (float_of_Z 4))).
  vm_compute. reflexivity.
Defined.

(** ** The SEC filing functions *)

Section SecFilingProperties.
Context {Ext : Type}.
Variable sec_get_filings : string → string → Z → Remote Ext pyval.

Lemma truthy_dict_lookup (d : gmap string pyval) key v :
  d !! key = Some v → truthy (PDict d) = true.
Proof.
  intros Hkey. simpl. destruct (bool_decide (d = ∅)) eqn:Hempty; [|done].
  apply bool_decide_eq_true in Hempty as ->. by rewrite lookup_empty in Hkey.
Qed.

(** A filing list under the key ['filings'] is what the loops visit. *)
Lemma listed_filings_list (d : gmap string pyval) items :
  d !! "filings" = Some (PList items) →
  listed_filings (PDict d)
  = Returned (match items with [] => None | _ :: _ => Some items end).
Proof.
  intros Hd. unfold listed_filings.
  rewrite (truthy_dict_lookup d "filings" _ Hd). simpl.
  unfold dict_get. rewrite Hd. simpl. by destruct items.
Qed.

Lemma filing_data_returns ticker filing (w : World Ext) :
  match filing with
  | PDict _ =>
      ∃ record : gmap string pyval,
        filing_data ticker filing w = (Returned (PDict record), w, [])
        ∧ record !! "ticker" = Some (PStr ticker)
        ∧ record !! "data" = Some (PDict ∅)
  | _ => ∃ e, filing_data ticker filing w = (Raised e, w, [])
  end.
Proof.
  destruct filing; by eexists.
Qed.

(** The loop of [get_financial_statements]: one record for each filing,
    or the exception of the first filing that is no dict. *)
Lemma statements_loop ticker items results (w : World Ext) :
  if forallb is_dict items
  then ∃ records,
         fold_each items
           (λ results filing,
              record <- filing_data ticker filing ;; ret (results ++ [record]))
           results w
         = (Returned (results ++ records), w, [])
         ∧ length records = length items
         ∧ Forall (λ r, py_getitem r "ticker" = Returned (PStr ticker)
                        ∧ py_getitem r "data" = Returned (PDict ∅)) records
  else ∃ e,
         fold_each items
           (λ results filing,
              record <- filing_data ticker filing ;; ret (results ++ [record]))
           results w
         = (Raised e, w, []).
Proof.
  revert results. induction items as [|filing items IH]; intros results.
  - simpl. exists []. by rewrite app_nil_r.
  - cbn [forallb fold_each].
    pose proof (filing_data_returns ticker filing w) as Hfiling.
    destruct filing; simpl is_dict; cbn [andb]; cbv beta iota in Hfiling;
      try (destruct Hfiling as [e Hraise]; exists e;
           apply bind_raised; by apply bind_raised).
    destruct Hfiling as (record & Hrecord & Hticker & Hdata).
    rewrite (bind_returned _ _ w (results ++ [PDict record]) w []);
      [|unfold bind; by rewrite Hrecord].
    specialize (IH (results ++ [PDict record])).
    destruct (forallb is_dict items).
    + destruct IH as (records & -> & Hlen & Hall).
      exists (PDict record :: records). rewrite <- app_assoc. split; [done|].
      split; [simpl; by rewrite Hlen|].
      constructor; [|done]. simpl. by rewrite Hticker, Hdata.
    + destruct IH as [e ->]. by exists e.
Qed.

(** X15. [get_financial_statements] is all or nothing: from an SEC
    answer that lists filings it returns one record for each filing, in
    order, each with the ticker asked for and an empty ['data'], when all
    of them are dicts, and the empty list as soon as one is not. *)
Theorem financial_statements_all_or_nothing args (w : World Ext) d items ext' t' :
  sec_get_filings args.1.1 args.1.2 args.2 (outside w) (clock w)
    = (Returned (PDict d), ext', t') →
  d !! "filings" = Some (PList items) →
  ∃ results,
    get_financial_statements_body sec_get_filings args w
      = (Returned (PList results),
         mkWorld (request_cache w) t' (economic_indicators w) ext',
         [Contact "sec" "get_filings"])
    ∧ (forallb is_dict items = true →
       length results = length items
       ∧ Forall (λ r, py_getitem r "ticker" = Returned (PStr args.1.1)
                      ∧ py_getitem r "data" = Returned (PDict ∅)) results)
    ∧ (forallb is_dict items = false → results = []).
Proof.
  intros Hsec Hd.
  unfold get_financial_statements_body, try_except, bind at 1, call_provider.
  rewrite Hsec. unfold bind at 1, lift_outcome.
  rewrite (listed_filings_list d items Hd).
  destruct items as [|filing items].
  { exists []. split; [done|]. split; [done|]. done. }
  unfold bind at 1.
  pose proof (statements_loop args.1.1 (filing :: items) []
                (mkWorld (request_cache w) t' (economic_indicators w) ext')) as Hloop.
  destruct (forallb is_dict (filing :: items)).
  - destruct Hloop as (records & -> & Hlen & Hall).
    exists records. unfold ret. simpl. split; [done|]. split; [done|]. done.
  - destruct Hloop as [e ->]. exists []. unfold ret. simpl.
    split; [done|]. split; [done|]. done.
Qed.


Lemma insider_transaction_returns filing (w : World Ext) :
  match filing with
  | PDict _ =>
      ∃ r, insider_transaction filing w = (Returned r, w, [])
           ∧ placeholder_transaction r
  | _ => ∃ e, insider_transaction filing w = (Raised e, w, [])
  end.
Proof.
  destruct filing; try (by eexists).
  eexists. split; [reflexivity|]. eexists. split; [reflexivity|]. done.
Qed.

(** The loop of [get_insider_transactions_sec]: one transaction for each
    filing that is a dict, the others skipped. *)
Lemma insider_loop items insider_data (w : World Ext) :
  ∃ transactions,
    fold_each items
      (λ insider_data filing,
         try_except
           (transaction <- insider_transaction filing ;;
            ret (insider_data ++ [transaction]))
           (λ _, ret insider_data))
      insider_data w
    = (Returned (insider_data ++ transactions), w, [])
    ∧ length transactions = length (filter (λ v, is_dict v = true) items)
    ∧ Forall placeholder_transaction transactions.
Proof.
  revert insider_data. induction items as [|filing items IH]; intros insider_data.
  - exists []. simpl. by rewrite app_nil_r.
  - cbn [fold_each].
    pose proof (insider_transaction_returns filing w) as Hfiling.
    destruct filing; cbv beta iota in Hfiling.
    6: {
      destruct Hfiling as (r & Hr & Hplace).
      rewrite (bind_returned _ _ w (insider_data ++ [r]) w []);
        [|apply try_except_returned; unfold bind; by rewrite Hr].
      destruct (IH (insider_data ++ [r])) as (transactions & -> & Hlen & Hall).
      exists (r :: transactions). rewrite <- app_assoc. split; [done|].
      rewrite filter_cons_True by done. split; [simpl; by rewrite Hlen|].
      by constructor. }
    all: destruct Hfiling as [e Hraise];
      rewrite (bind_returned _ _ w insider_data w []);
        [|rewrite (try_except_raised _ _ w e w []); [done|by apply bind_raised]];
      destruct (IH insider_data) as (transactions & -> & Hlen & Hall);
      exists transactions; (split; [done|]);
      rewrite filter_cons_False by done; done.
Qed.

(** Whatever the SEC client does, the body returns a list of placeholder
    transactions. *)
Lemma insider_body_returns args (w : World Ext) :
  ∃ transactions w' tr,
    get_insider_transactions_sec_body sec_get_filings args w
      = (Returned (PList transactions), w', tr)
    ∧ Forall placeholder_transaction transactions.
Proof.
  unfold get_insider_transactions_sec_body. unfold try_except at 1, bind at 1, call_provider.
  destruct (sec_get_filings args.1 "4" args.2 (outside w) (clock w))
    as [[[filings|e] ext'] t']; [|by (simpl; eexists _, _, _; split; [reflexivity | constructor])].
  unfold bind at 1, lift_outcome.
  destruct (listed_filings filings) as [[items|]|e]; [| |].
  - cbv beta iota. unfold bind at 1.
    destruct (insider_loop items []
                (mkWorld (request_cache w) t' (economic_indicators w) ext'))
      as (transactions & -> & _ & Hall).
    simpl. by eexists _, _, _.
  - by (simpl; eexists _, _, _; split; [reflexivity | constructor]).
  - by (simpl; eexists _, _, _; split; [reflexivity | constructor]).
Qed.

(** X16. [get_insider_transactions_sec] skips what it cannot read: from
    an SEC answer that lists filings it returns one transaction for each
    filing that is a dict, and in every one of them the shares, the price
    per share and the total value are [None]. *)
Theorem insider_filings_skip_unreadable args (w : World Ext) d items ext' t' :
  sec_get_filings args.1 "4" args.2 (outside w) (clock w)
    = (Returned (PDict d), ext', t') →
  d !! "filings" = Some (PList items) →
  ∃ transactions,
    get_insider_transactions_sec_body sec_get_filings args w
      = (Returned (PList transactions),
         mkWorld (request_cache w) t' (economic_indicators w) ext',
         [Contact "sec" "get_filings"])
    ∧ length transactions = length (filter (λ v, is_dict v = true) items)
    ∧ Forall placeholder_transaction transactions.
Proof.
  intros Hsec Hd.
  unfold get_insider_transactions_sec_body. unfold try_except at 1, bind at 1, call_provider.
  rewrite Hsec. unfold bind at 1, lift_outcome.
  rewrite (listed_filings_list d items Hd).
  destruct items as [|filing items].
  { exists []. split; [done|]. split; [done|]. constructor. }
  unfold bind at 1.
  destruct (insider_loop (filing :: items) []
              (mkWorld (request_cache w) t' (economic_indicators w) ext'))
    as (transactions & -> & Hlen & Hall).
  exists transactions. done.
Qed.

Lemma placeholder_transactions_not_meaningful transactions :
  Forall placeholder_transaction transactions →
  has_meaningful_transactions (PList transactions) = Returned false.
Proof.
  intros Hall. destruct transactions as [|first rest]; [done|].
  apply Forall_cons in Hall as [(d & -> & Hshares & _) _].
  unfold has_meaningful_transactions. simpl.
  unfold dict_get. by rewrite Hshares.
Qed.

Section InsiderFallback.
Variable get_insider_transactions : string * Z → M Ext pyval.

(** X17. On a cold cache [get_insider_transactions_with_fallback]
    always ends by calling the Polygon function and returns (or raises)
    what it does: whatever the SEC client answers, the SEC transactions
    carry no share count and never count as meaningful. *)
Theorem insider_fallback_always_asks_polygon args (w : World Ext) :
  live_entry (cache_key "get_insider_transactions_sec" (show_ticker_limit args)) 300
             (later 2 w) = None →
  ∃ sec_result w1 tr1,
    get_insider_transactions_sec sec_get_filings args w = (Returned sec_result, w1, tr1)
    ∧ get_insider_transactions_with_fallback
        (get_insider_transactions_sec sec_get_filings) get_insider_transactions args w
      = (let '(r, w2, tr2) := get_insider_transactions args w1 in (r, w2, tr1 ++ tr2)).
Proof.
  intros Hcold.
  destruct (insider_body_returns args (later 2 w)) as (transactions & w' & tr & Hbody & Hall).
  assert (get_insider_transactions_sec sec_get_filings args w
          = (Returned (PList transactions),
             with_entry (cache_key "get_insider_transactions_sec" (show_ticker_limit args))
                        (PList transactions) w',
             Invoke "get_insider_transactions_sec" (show_ticker_limit args) :: tr))
    as Hsec.
  { unfold get_insider_transactions_sec, rate_limit, bind at 1, time_sleep.
    rewrite (request_cached_miss _ _ _ _ _ _ Hcold), Hbody. done. }
  eexists _, _, _. split; [exact Hsec|].
  unfold get_insider_transactions_with_fallback.
  rewrite (bind_returned _ _ _ _ _ _ Hsec).
  unfold bind, lift_outcome.
  rewrite (placeholder_transactions_not_meaningful _ Hall).
  destruct (get_insider_transactions args _) as [[r w2] tr2]. done.
Qed.

End InsiderFallback.

End SecFilingProperties.

Section SecRatioProperties.
Context {Ext : Type}.
Variable get_financial_statements : statements_call → M Ext pyval.
Variable get_financial_ratios : string → M Ext pyval.

(** The dict that [get_financial_ratios_sec] builds never counts as
    meaningful: its ratios are the four placeholders. *)
Lemma sec_ratios_dict_not_meaningful reporting_date url :
  has_meaningful_ratios
    (PDict (list_to_map
       [ ("date", reporting_date);
         ("ratios", PDict placeholder_ratios);
         ("source", PStr "SEC");
         ("url", url) ])) = Returned false.
Proof.
  set (d := list_to_map _ : gmap string pyval).
  assert (d !! "ratios" = Some (PDict placeholder_ratios)) as Hratios
    by (vm_compute; reflexivity).
  unfold has_meaningful_ratios.
  rewrite (truthy_dict_lookup d "ratios" _ Hratios).
  unfold py_getitem. rewrite Hratios.
  assert (truthy (PDict placeholder_ratios) = true) as -> by (vm_compute; reflexivity).
  unfold py_values.
  assert (any_not_none (map_to_list placeholder_ratios).*2 = false) as ->
    by (vm_compute; reflexivity).
  done.
Qed.


(** The part of the body after the filings are fetched. *)
Lemma sec_ratios_tail filings (w : World Ext) :
  ∃ o,
    (if negb (truthy filings) then ret PNone
     else
       latest_filing <- lift_outcome (py_index0 filings) ;;
       reporting_date <- lift_outcome (py_get latest_filing "reporting_date") ;;
       url <- lift_outcome (py_get latest_filing "url") ;;
       ret (PDict (list_to_map
              [ ("date", reporting_date);
                ("ratios", PDict placeholder_ratios);
                ("source", PStr "SEC");
                ("url", url) ]))) w = (o, w, [])
    ∧ match o with
      | Returned v =>
          has_meaningful_ratios v = Returned false ∧ (truthy v = false → v = PNone)
      | Raised _ => True
      end.
Proof.
  destruct (truthy filings); cbn [negb]; [|by exists (Returned PNone)].
  unfold bind, lift_outcome, ret.
  destruct (py_index0 filings) as [latest_filing|e]; [|by exists (Raised e)].
  destruct latest_filing as [| | | | |d|]; cbn [py_get app];
    try (by exists (Raised "AttributeError")).
  eexists (Returned _). split; [reflexivity|].
  split; [apply sec_ratios_dict_not_meaningful|].
  intros Hfalsy.
  rewrite (truthy_dict_lookup _ "source" (PStr "SEC")) in Hfalsy; [done|].
  vm_compute. reflexivity.
Qed.

(** Whatever the filings are, the body returns [None] or a dict whose
    ratios are the four placeholders: nothing the orchestrator counts as
    meaningful. *)
Lemma sec_ratios_body_returns ticker (w : World Ext) :
  ∃ v w' tr,
    get_financial_ratios_sec_body get_financial_statements ticker w = (Returned v, w', tr)
    ∧ has_meaningful_ratios v = Returned false
    ∧ (truthy v = false → v = PNone).
Proof.
  unfold get_financial_ratios_sec_body.
  unfold try_except at 1, bind at 1.
  destruct (get_financial_statements (ByKeywords ticker "10-K" 1) w)
    as [[[filings|e] w1] tr1]; [|by eexists _, _, _].
  unfold bind at 1.
  assert (∃ filings' w2 tr2,
            (if negb (truthy filings)
             then get_financial_statements (ByKeywords ticker "10-Q" 1)
             else ret filings) w1 = (filings', w2, tr2)) as (o & w2 & tr2 & ->).
  { destruct (_ w1) as [[o w2] tr2]. by eexists _, _, _. }
  destruct o as [filings'|e]; [|by eexists _, _, _].
  destruct (sec_ratios_tail filings' w2) as (o & -> & Ho).
  destruct o as [v|e]; [|by eexists _, _, _].
  destruct Ho as [Hmeaningful Hnone]. by eexists _, _, _.
Qed.

(** X18. On a cold cache the ratios orchestrator always goes on to
    Polygon, twelve seconds after the SEC function returned: the SEC
    ratios are placeholders and never count as meaningful, whatever the
    filings are.  It returns Polygon's result, and the SEC one only if
    Polygon raises. *)
Theorem sec_ratios_never_suffice ticker (w : World Ext) :
  live_entry (cache_key "get_financial_ratios_sec" (show_ticker ticker)) 300
             (later 2 w) = None →
  ∃ sec_result w1 tr1,
    get_financial_ratios_sec get_financial_statements ticker w
      = (Returned sec_result, w1, tr1)
    ∧ get_financial_ratios_with_fallback_body
        (get_financial_ratios_sec get_financial_statements) get_financial_ratios
        ticker w
      = (let '(o, w2, tr2) := get_financial_ratios ticker (later 12 w1) in
         (Returned match o with
                   | Returned polygon_result => polygon_result
                   | Raised _ => sec_result
                   end, w2, tr1 ++ tr2)).
Proof.
  intros Hcold.
  destruct (sec_ratios_body_returns ticker (later 2 w))
    as (v & w' & tr & Hbody & Hmeaningful & Hnone).
  assert (get_financial_ratios_sec get_financial_statements ticker w
          = (Returned v,
             with_entry (cache_key "get_financial_ratios_sec" (show_ticker ticker)) v w',
             Invoke "get_financial_ratios_sec" (show_ticker ticker) :: tr)) as Hsec.
  { unfold get_financial_ratios_sec, rate_limit, bind at 1, time_sleep.
    rewrite (request_cached_miss _ _ _ _ _ _ Hcold), Hbody. done. }
  eexists _, _, _. split; [exact Hsec|].
  unfold get_financial_ratios_with_fallback_body.
  unfold try_except at 1. rewrite (bind_returned _ _ _ _ _ _ Hsec).
  unfold bind at 1, lift_outcome. rewrite Hmeaningful.
  unfold try_except, bind, time_sleep, ret.
  destruct (get_financial_ratios ticker _) as [[[polygon_result|e] w2] tr2]; simpl.
  - by rewrite ?app_nil_r.
  - destruct (truthy v) eqn:Htruthy; simpl; rewrite ?app_nil_r; [done|].
    by rewrite (Hnone eq_refl).
Qed.

End SecRatioProperties.

Section CallForms.
Context {Ext : Type}.

(** X19. The two ways the code calls [get_financial_statements] for a
    ticker, with the ticker alone and with [filing_type='10-K', limit=1]
    by keyword, ask for the same filings but are cached under different
    keys: a result stored by one is never served to the other. *)
Theorem statement_call_forms_have_own_entries ticker ttl_seconds result (w : World Ext) :
  statements_args (ByKeywords ticker "10-K" 1) = statements_args (ByTicker ticker)
  ∧ cache_key "get_financial_statements"
      (show_statements_call (ByKeywords ticker "10-K" 1))
    ≠ cache_key "get_financial_statements" (show_statements_call (ByTicker ticker))
  ∧ live_entry (cache_key "get_financial_statements"
                  (show_statements_call (ByTicker ticker))) ttl_seconds
      (with_entry (cache_key "get_financial_statements"
                     (show_statements_call (ByKeywords ticker "10-K" 1))) result w)
    = live_entry (cache_key "get_financial_statements"
                    (show_statements_call (ByTicker ticker))) ttl_seconds w.
Proof.
  assert (cache_key "get_financial_statements"
            (show_statements_call (ByKeywords ticker "10-K" 1))
          ≠ cache_key "get_financial_statements" (show_statements_call (ByTicker ticker)))
    as Hkeys.
  { unfold cache_key, show_statements_call, show_ticker. intros Heq.
    do 4 apply append_inv_head in Heq.
    cbn [String.append] in Heq. discriminate. }
  split; [done|]. split; [done|].
  unfold live_entry, with_entry; cbn [request_cache clock].
  by rewrite lookup_insert_ne.
Qed.

End CallForms.


(** On an answer with one readable filing and one that is not. *)
Lemma financial_statements_all_or_nothing_witness :
  ∃ results,
    get_financial_statements_body sec_two_filings ("ACME", "10-K", 1) empty_world
      = (Returned (PList results), mkWorld ∅ 400000 [] tt,
         [Contact "sec" "get_filings"])
    ∧ (forallb is_dict [PDict acme_filing; PStr "garbled"] = true →
       length results = length [PDict acme_filing; PStr "garbled"]
       ∧ Forall (λ r, py_getitem r "ticker" = Returned (PStr "ACME")
                      ∧ py_getitem r "data" = Returned (PDict ∅)) results)
    ∧ (forallb is_dict [PDict acme_filing; PStr "garbled"] = false → results = []).
Proof.
  apply (financial_statements_all_or_nothing sec_two_filings ("ACME", "10-K", 1)
           empty_world acme_filings [PDict acme_filing; PStr "garbled"] tt 400000);
    reflexivity.
Defined.

Lemma insider_filings_skip_unreadable_witness :
  ∃ transactions,
    get_insider_transactions_sec_body sec_two_filings ("ACME", 10) empty_world
      = (Returned (PList transactions), mkWorld ∅ 400000 [] tt,
         [Contact "sec" "get_filings"])
    ∧ length transactions
      = length (filter (λ v, is_dict v = true) [PDict acme_filing; PStr "garbled"])
    ∧ Forall placeholder_transaction transactions.
Proof.
  apply (insider_filings_skip_unreadable sec_two_filings ("ACME", 10)
           empty_world acme_filings [PDict acme_filing; PStr "garbled"] tt 400000);
    reflexivity.
Defined.

Lemma insider_fallback_always_asks_polygon_witness :
  ∃ sec_result w1 tr1,
    get_insider_transactions_sec sec_two_filings ("ACME", 10) empty_world
      = (Returned sec_result, w1, tr1)
    ∧ get_insider_transactions_with_fallback
        (get_insider_transactions_sec sec_two_filings) no_transactions
        ("ACME", 10) empty_world
      = (let '(r, w2, tr2) := no_transactions ("ACME", 10) w1 in (r, w2, tr1 ++ tr2)).
Proof.
  apply (insider_fallback_always_asks_polygon sec_two_filings no_transactions
           ("ACME", 10) empty_world).
  reflexivity.
Defined.

Lemma sec_ratios_never_suffice_witness :
  ∃ sec_result w1 tr1,
    get_financial_ratios_sec no_statements "ACME" empty_world
      = (Returned sec_result, w1, tr1)
    ∧ get_financial_ratios_with_fallback_body
        (get_financial_ratios_sec no_statements) (answers polygon_ratios)
        "ACME" empty_world
      = (let '(o, w2, tr2) := answers polygon_ratios "ACME" (later 12 w1) in
         (Returned match o with
                   | Returned polygon_result => polygon_result
                   | Raised _ => sec_result
                   end, w2, tr1 ++ tr2)).
Proof.
  apply (sec_ratios_never_suffice no_statements (answers polygon_ratios)
           "ACME" empty_world).
  reflexivity.
Defined.

(** ** The FRED proxies *)

Section FredProxyProperties.
Context {Ext : Type}.
Variable fred_get_series : string → Z → Z → Remote Ext (list (Z * spec_float)).

(** [get_economic_indicator] absorbs every failure of the client: it
    returns, after one request, without touching the table. *)
Lemma get_economic_indicator_returns args (w : World Ext) :
  ∃ data w',
    get_economic_indicator fred_get_series args w
      = (Returned data, w', [Contact "fred" "get_series"])
    ∧ economic_indicators w' = economic_indicators w.
Proof.
  unfold get_economic_indicator, rate_limit, get_economic_indicator_body,
    bind, time_sleep, try_except, call_provider, ret. cbn [later outside clock].
  destruct (fred_get_series _ _ _ _ _) as [[[observations|e] ext'] t'];
    cbn; by eexists _, _.
Qed.

(** A loop whose every turn returns after one FRED request, keeping an
    invariant of what it collects and leaving the table alone. *)
Lemma fred_loop_invariant {S : Type} (P : S → Prop) (mappings : list (string * string))
    (body : S → string * string → M Ext S) acc (w : World Ext) :
  (∀ acc mapping w,
     mapping ∈ mappings → P acc →
     ∃ acc' w',
       body acc mapping w = (Returned acc', w', [Contact "fred" "get_series"])
       ∧ P acc' ∧ economic_indicators w' = economic_indicators w) →
  P acc →
  ∃ acc' w',
    fold_each mappings body acc w
      = (Returned acc', w', replicate (length mappings) (Contact "fred" "get_series"))
    ∧ P acc' ∧ economic_indicators w' = economic_indicators w.
Proof.
  revert acc w.
  induction mappings as [|mapping mappings IH]; intros acc w Hbody Hacc.
  - by exists acc, w.
  - cbn [fold_each].
    destruct (Hbody acc mapping w (list_elem_of_here _ _) Hacc)
      as (acc1 & w1 & Hturn & Hacc1 & Htable1).
    rewrite (bind_returned _ _ _ _ _ _ Hturn).
    destruct (IH acc1 w1) as (acc2 & w2 & -> & Hacc2 & Htable2); [|done|].
    { intros acc' mapping' w' Hin. apply Hbody. by apply list_elem_of_further. }
    exists acc2, w2. split; [done|]. split; [done | congruence].
Qed.

(** X20. [get_industry_data_fred] never returns [None] and never
    raises, whatever FRED does: it sends four requests, leaves the table
    alone, and returns entries only under its four names, the current
    value of each being the last of its historical points. *)
Theorem industry_data_is_never_none industry_code (w : World Ext) :
  ∃ results w',
    get_industry_data_fred fred_get_series industry_code w
      = (Returned (Some results), w', replicate 4 (Contact "fred" "get_series"))
    ∧ economic_indicators w' = economic_indicators w
    ∧ ∀ name entry,
        results !! name = Some entry →
        name ∈ industry_indicator_mappings.*1
        ∧ last (i_historical entry) = Some (i_current entry).
Proof.
  unfold get_industry_data_fred, rate_limit, bind at 1, time_sleep.
  unfold get_industry_data_fred_body, try_except, bind at 1, datetime_now.
  cbn [later clock].
  set (w0 := later 1 w).
  set (P := λ results : gmap string industry_entry,
              ∀ name entry,
                results !! name = Some entry →
                name ∈ industry_indicator_mappings.*1
                ∧ last (i_historical entry) = Some (i_current entry)).
  unfold bind at 1.
  edestruct (fred_loop_invariant P industry_indicator_mappings) as
    (results & w' & -> & Hresults & Htable); cycle 2.
  { exists results, w'. unfold ret. cbn. rewrite ?app_nil_r. split; [done|].
    split; [exact Htable | exact Hresults]. }
  - intros results mapping w1 Hmapping Hresults.
    destruct (get_economic_indicator_returns
                (mapping.2, date_of_clock (clock w0) - 365, date_of_clock (clock w0)) w1)
      as (data & w2 & Hdata & Htable).
    rewrite (bind_returned _ _ _ _ _ _ Hdata).
    destruct (last data) as [current|] eqn:Hlast; unfold ret; cbn.
    + eexists _, w2. split; [done|]. split; [|done].
      intros name entry Hentry.
      destruct (decide (name = mapping.1)) as [->|Hne].
      * rewrite lookup_insert_eq in Hentry. injection Hentry as <-.
        split; [|done]. by apply list_elem_of_fmap_2.
      * rewrite lookup_insert_ne in Hentry by done. by apply Hresults.
    + by eexists _, w2.
  - intros name entry Hentry. by rewrite lookup_empty in Hentry.
Qed.

Lemma change_pct_not_positive current_value start_value :
  flt (float_of_Z 0) start_value = false →
  change_pct current_value start_value = float_of_Z 0.
Proof. intros Hstart. unfold change_pct. by rewrite Hstart. Qed.

(** X21. [get_sector_performance_fred] never returns [None] and never
    raises, whatever FRED does: it sends six requests, leaves the table
    alone, and each sector it reports has the value of its last point
    and a change that is 0 unless its first value is positive, so that no
    change is ever computed over a zero, negative or missing base. *)
Theorem sector_performance_is_never_none (w : World Ext) :
  ∃ sectors w',
    get_sector_performance_fred fred_get_series w
      = (Returned (Some sectors), w', replicate 6 (Contact "fred" "get_series"))
    ∧ economic_indicators w' = economic_indicators w
    ∧ ∀ name entry,
        sectors !! name = Some entry →
        name ∈ sector_mappings.*1
        ∧ ∃ first current,
            head (s_historical entry) = Some first
            ∧ last (s_historical entry) = Some current
            ∧ s_value entry = p_value current
            ∧ s_change_pct entry = change_pct (p_value current) (p_value first)
            ∧ (flt (float_of_Z 0) (p_value first) = false →
               s_change_pct entry = float_of_Z 0).
Proof.
  unfold get_sector_performance_fred, rate_limit, bind at 1, time_sleep.
  unfold get_sector_performance_fred_body, try_except, bind at 1, datetime_now.
  cbn [later clock].
  set (w0 := later 1 w).
  set (P := λ sectors : gmap string sector_entry,
              ∀ name entry,
                sectors !! name = Some entry →
                name ∈ sector_mappings.*1
                ∧ ∃ first current,
                    head (s_historical entry) = Some first
                    ∧ last (s_historical entry) = Some current
                    ∧ s_value entry = p_value current
                    ∧ s_change_pct entry = change_pct (p_value current) (p_value first)
                    ∧ (flt (float_of_Z 0) (p_value first) = false →
                       s_change_pct entry = float_of_Z 0)).
  unfold bind at 1.
  edestruct (fred_loop_invariant P sector_mappings) as
    (sectors & w' & -> & Hsectors & Htable); cycle 2.
  { exists sectors, w'. unfold ret. cbn. rewrite ?app_nil_r. split; [done|].
    split; [exact Htable | exact Hsectors]. }
  - intros sectors mapping w1 Hmapping Hsectors.
    destruct (get_economic_indicator_returns
                (mapping.2, date_of_clock (clock w0) - 365, date_of_clock (clock w0)) w1)
      as (data & w2 & Hdata & Htable).
    rewrite (bind_returned _ _ _ _ _ _ Hdata).
    destruct (head data) as [first|] eqn:Hhead;
      [destruct (last data) as [current|] eqn:Hlast|]; unfold ret; cbn.
    + eexists _, w2. split; [done|]. split; [|done].
      intros name entry Hentry.
      destruct (decide (name = mapping.1)) as [->|Hne].
      * rewrite lookup_insert_eq in Hentry. injection Hentry as <-.
        split; [by apply list_elem_of_fmap_2|].
        exists first, current. cbn. do 4 (split; [done|]).
        apply change_pct_not_positive.
      * rewrite lookup_insert_ne in Hentry by done. by apply Hsectors.
    + by eexists _, w2.
    + by eexists _, w2.
  - intros name entry Hentry. by rewrite lookup_empty in Hentry.
Qed.

End FredProxyProperties.

(** ** From FRED to the table and back *)

Section FetchedDashboard.
Context {Ext : Type}.
Variable fred_get_series : string → Z → Z → Remote Ext (list (Z * spec_float)).






(** X24. A NaN among the observations of the first series sends the call
    to its mock data: when some indicator has no stored row, the call
    fetches, the save of the NaN is refused, and the handler answers with
    the mock dashboard after that one request; the rows that were stored
    stay in place. *)
Theorem nan_observation_gives_mock_data (w : World Ext) itype observations ext' t' :
  unique_together (economic_indicators w) →
  itype ∈ indicator_mappings.*1 →
  (∀ row, row ∈ economic_indicators w → indicator_type row ≠ itype) →
  fred_get_series "DFF" (date_of_clock (clock w) - 365) (date_of_clock (clock w))
                  (outside w) (clock w + 1 * 1000000)
    = (Returned observations, ext', t') →
  Exists (λ o, is_nan o.2 = true) observations →
  ∃ w',
    get_economic_dashboard fred_get_series false w
      = (Returned (mock_dashboard (date_of_clock (clock w'))), w',
         [Contact "fred" "get_series"])
    ∧ rows_kept (economic_indicators w) (economic_indicators w').
Proof.
  intros Hunique Hname Hmissing Hfred Hnan.
  pose proof (get_economic_dashboard_upserts_only fred_get_series false w Hunique)
    as [_ Hkept].
  assert (∃ w',
            get_economic_dashboard fred_get_series false w
            = (Returned (mock_dashboard (date_of_clock (clock w'))), w',
               [Contact "fred" "get_series"])) as [w' Hrun];
    [|exists w'; split; [done|]; by rewrite Hrun in Hkept].
  unfold get_economic_dashboard, bind at 1, datetime_now, try_except, bind at 1,
    read_dashboard_from_db.
  rewrite db_latest_size.
  assert (forallb (λ mapping,
                     bool_decide (is_Some (latest_row mapping.1 (economic_indicators w))))
                  indicator_mappings = false) as ->.
  { apply not_true_is_false. intros Hall.
    apply list_elem_of_fmap in Hname as ([name code] & -> & Hin).
    rewrite forallb_forall in Hall.
    specialize (Hall (name, code)). rewrite <- list_elem_of_In in Hall.
    apply Hall, bool_decide_eq_true in Hin as [row Hrow].
    apply latest_row_Some in Hrow as (Hrow & Htype & _).
    by destruct (Hmissing row Hrow). }
  set (w1 := mkWorld (request_cache w) t' (economic_indicators w) ext').
  assert (get_economic_indicator fred_get_series
            ("DFF", date_of_clock (clock w) - 365, date_of_clock (clock w)) w
          = (Returned (map (λ o, mkPoint o.1 o.2) observations), w1,
             [Contact "fred" "get_series"])) as Hdata.
  { unfold get_economic_indicator, rate_limit, get_economic_indicator_body,
      bind, time_sleep, try_except, call_provider, ret.
    cbn [later outside clock fst snd]. by rewrite Hfred. }
  destruct (save_points_raises "interest_rate" (map (λ o, mkPoint o.1 o.2) observations) w1)
    as (e & w2 & Hsave); [done| |].
  { apply Exists_fmap. eapply Exists_impl; [exact Hnan|]. by intros [date v]. }
  assert (fold_each indicator_mappings
            (fetch_and_save fred_get_series (date_of_clock (clock w) - 365)
               (date_of_clock (clock w))) ∅ w
          = (Raised e, w2, [Contact "fred" "get_series"])) as Hloop.
  { unfold indicator_mappings. cbn [fold_each]. apply bind_raised.
    unfold fetch_and_save. cbn [fst snd].
    rewrite (bind_returned _ _ _ _ _ _ Hdata).
    destruct (map (λ o, mkPoint o.1 o.2) observations) as [|item data] eqn:Hpoints.
    { destruct observations; [by apply Exists_nil in Hnan | done]. }
    rewrite (bind_raised _ _ _ _ _ _ Hsave). by rewrite app_nil_r. }
  unfold bind at 1. rewrite Hloop.
  unfold generate_mock_economic_data, bind, datetime_now, ret.
  exists w2. cbn. by rewrite ?app_nil_r.
Qed.

End FetchedDashboard.


(** On the seeded table, with a first series that has a gap. *)
Lemma nan_observation_gives_mock_data_witness :
  ∃ w',
    get_economic_dashboard fred_with_gap false seeded_world
      = (Returned (mock_dashboard (date_of_clock (clock w'))), w',
         [Contact "fred" "get_series"])
    ∧ rows_kept (economic_indicators seeded_world) (economic_indicators w').
Proof.
  apply (nan_observation_gives_mock_data fred_with_gap seeded_world "gdp"
           [(719162, float_of_Z 5); (719163, S754_nan)] tt 1300000).
  - unfold unique_together. simpl. apply NoDup_singleton.
  - unfold indicator_mappings. simpl.
    do 3 apply list_elem_of_further. apply list_elem_of_here.
  - intros row Hin. simpl in Hin. apply list_elem_of_singleton in Hin as ->.
    simpl. discriminate.
  - reflexivity.
  - apply Exists_cons. right. apply Exists_cons. by left.
Defined.

(** ** The cached SEC profile after a merge *)

Section SharedProfileProperties.
Variable sec_answer : string → Z → option (gmap string pyval) * Z.
Variable polygon_answer : string → Z → option (gmap string pyval) * Z.

Lemma company_info_keys_differ ticker :
  cache_key "get_company_info" (show_ticker ticker)
  ≠ cache_key "get_company_info_sec" (show_ticker ticker).
Proof.
  intros Heq. by apply cache_key_inj in Heq as [Hname _].
Qed.

(** A run of [cached_profile] on a key without entry. *)
Lemma cached_profile_cold ttl_seconds fname func ticker (h : Heap) :
  entries h !! cache_key fname (show_ticker ticker) = None →
  cached_profile ttl_seconds fname func ticker h
  = (let '(result, h1) := func ticker h in
     (result,
      mkHeap (objects h1)
             (<[cache_key fname (show_ticker ticker) := (heap_clock h1, result)]>
                (entries h1))
             (heap_clock h1))).
Proof. intros Hcold. unfold cached_profile. by rewrite Hcold. Qed.

(** X23. The merge writes into the dict object that [get_company_info_sec]
    returned, and the cache entry of [get_company_info_sec] holds that
    same object: after a call of the orchestrator that merged Polygon
    data, a call of [get_company_info_sec] for the ticker, served from the
    cache, returns the merged profile and not the one the SEC gave. *)
Theorem polygon_merge_reaches_sec_cache_entry ticker (h : Heap) ci p dsec dpol :
  entries h !! cache_key "get_company_info_sec" (show_ticker ticker) = None →
  entries h !! cache_key "get_company_info" (show_ticker ticker) = None →
  (∀ t, sec_answer ticker t = (Some ci, dsec)) →
  (∀ t, polygon_answer ticker t = (Some p, dpol)) →
  truthy (dict_get ci "company_name") = true →
  missing_fields ci ≠ [] →
  truthy (PDict p) = true →
  dpol < 290000000 →
  ∃ r h',
    get_company_info_with_fallback_shared_body sec_answer polygon_answer ticker h
      = (ProfileAt r, h')
    ∧ objects h' !! r = Some (merge_polygon ci p)
    ∧ get_company_info_sec_shared sec_answer ticker h' = (ProfileAt r, heap_sleep 2 h').
Proof.
  intros Hcold_sec Hcold_pol Hsec Hpol Hname Hmissing Hp Hdpol.
  pose proof (company_info_keys_differ ticker) as Hkeys.
  assert (truthy (PDict ci) = true) as Hci.
  { simpl. destruct (bool_decide (ci = ∅)) eqn:Hempty; [|done].
    apply bool_decide_eq_true in Hempty as ->. by vm_compute in Hname. }
  exists (length (objects h)).
  unfold get_company_info_with_fallback_shared_body.
  unfold get_company_info_sec_shared at 1.
  rewrite cached_profile_cold by done.
  unfold fresh_profile. rewrite Hsec. cbn [fst snd heap_sleep objects entries heap_clock].
  rewrite lookup_app_r by done. rewrite Nat.sub_diag. cbn [lookup list_lookup].
  rewrite Hci, Hname. cbn [andb].
  destruct (missing_fields ci) as [|field fields]; [done|].
  unfold get_company_info_shared.
  rewrite cached_profile_cold
    by (cbn [heap_sleep entries]; by rewrite lookup_insert_ne).
  unfold fresh_profile. rewrite Hpol. cbn [fst snd heap_sleep objects entries heap_clock].
  rewrite (lookup_app_r (objects h ++ [ci]) [p]) by done.
  rewrite Nat.sub_diag. cbn [lookup list_lookup].
  rewrite lookup_app_l by (rewrite length_app; simpl; lia).
  rewrite lookup_app_r by done. rewrite Nat.sub_diag. cbn [lookup list_lookup].
  rewrite Hp.
  eexists. split; [reflexivity|]. cbn [objects entries heap_clock]. split.
  - apply list_lookup_insert_eq. rewrite !length_app. simpl. lia.
  - unfold get_company_info_sec_shared, cached_profile.
    cbn [heap_sleep objects entries heap_clock].
    rewrite lookup_insert_ne by done. rewrite lookup_insert_eq.
    destruct (Z.ltb_spec
                (heap_clock h + 2 * 1000000 + dsec + 5 * 1000000 + 3 * 1000000 + dpol
                 + 2 * 1000000 - (heap_clock h + 2 * 1000000 + dsec))
                (300 * 1000000)); [done | lia].
Qed.

End SharedProfileProperties.

(** On the Acme profiles. *)
Lemma polygon_merge_reaches_sec_cache_entry_witness :
  ∃ r h',
    get_company_info_with_fallback_shared_body sec_answers_acme polygon_answers_acme
        "ACME" empty_heap
      = (ProfileAt r, h')
    ∧ objects h' !! r = Some (merge_polygon sec_acme polygon_acme)
    ∧ get_company_info_sec_shared sec_answers_acme "ACME" h'
      = (ProfileAt r, heap_sleep 2 h').
Proof.
  apply (polygon_merge_reaches_sec_cache_entry sec_answers_acme polygon_answers_acme
           "ACME" empty_heap sec_acme polygon_acme 400000 500000).
  - reflexivity.
  - reflexivity.
  - reflexivity.
  - reflexivity.
  - reflexivity.
  - vm_compute. discriminate.
  - reflexivity.
  - lia.
Defined.
